(** * ControlProduccion: cycle and pause time accounting

    A shallow embedding of the two write endpoints of [backend/main.py],
    [registrar_ciclo] (POST /api/ciclo) and [registrar_pausa]
    (POST /api/pausa), over an explicit model of the four tables they read
    and write, followed by two of the read endpoints,
    [obtener_metricas] (GET /api/metricas/{id_operario}) and the loop of
    [obtener_reporte_comparativo] (GET /api/reportes/comparativo).

    Modelling conventions.
    - A [datetime] is an integer number of microseconds on a fixed time
      line (the resolution of Python's [datetime]); a [timedelta] is a
      difference of two of them, and [total_seconds] divides it by 10^6.
    - A Python float is the rational it denotes ([Q]).  [redondear] is
      IEEE 754 binary64 rounding, to nearest with ties to even and with
      subnormals; every float operation of the handlers rounds its exact
      result with it: [float(x)] on a numeric column, the conversion of an
      [int] operand, [timedelta.total_seconds()], [+], [-], [*] and [/].
      Comparisons are exact.  Overflow to infinity is not modelled; the
      seconds and percentages of the handlers stay far below 2^1024.
    - [sum] adds from the left, one rounding per addition, as CPython does
      up to version 3.11.
    - A numeric column holds a rational, and SQL's [SUM] and [AVG] are
      exact.
    - A table is the list of its rows.  [ORDER BY ... DESC] is a stable
      insertion sort (SQL leaves the order of ties open; the model resolves
      them by table order), [LIMIT n] is [firstn n].
    - The handlers read the clock once ([datetime.now()]); it is the
      argument [ahora].  [CURRENT_DATE] of the database session is the
      argument [current_date].
    - [get_db_connection] commits when the body returns and rolls back when
      it raises; a handler therefore maps a database to a database and a
      result.  The exceptions of the model are the [HTTPException]s the
      handlers raise themselves and the [ZeroDivisionError] of the
      comparative report, which its handler turns into status 500; failures
      of the driver are outside it.
    - [Registros_Pausas.duracion_s] is an integer column, as written by
      [int(duracion.total_seconds())]; its [SUM] is an integer.  On a pause
      the truncation is taken of the exact quotient; the float in between
      changes nothing for pauses shorter than 2^33 seconds
      ([int_total_seconds_float]). *)

From Stdlib Require Import ZArith QArith Qround Qpower List String Bool Lia Lqa.
From Stdlib Require Import Permutation Sorted DecimalString Morphisms.
Import ListNotations.

Local Open Scope string_scope.
Local Open Scope Z_scope.

(** ** Values *)

Definition datetime := Z.
Definition date := Z.

Definition microsegundos_por_dia : Z := 86400000000.

(** [datetime.date()] *)
Definition date_of (d : datetime) : date := d / microsegundos_por_dia.

(** The seconds of a [timedelta], the argument being the difference in
    microseconds: the exact quotient.  [timedelta.total_seconds()] is the
    float nearest to it, [redondear (total_seconds delta)]. *)
Definition total_seconds (delta : Z) : Q := Qmake delta 1000000.

(** *** Floats *)

Definition dos_a_la (k : Z) : Q := ((2 # 1) ^ k)%Q.

(** The integer nearest to [q], the even one of the two on a tie. *)
Definition redondeo_par (q : Q) : Z :=
  let f := Qfloor q in
  match (q - inject_Z f ?= 1 # 2)%Q with
  | Lt => f
  | Gt => f + 1
  | Eq => if Z.even f then f else f + 1
  end.

(** The binary exponent of a positive [x]: 2^e <= x < 2^(e+1). *)
Definition exponente (x : Q) : Z :=
  let k := Z.log2 (Qnum x) - Z.log2 (Zpos (Qden x)) in
  if Qle_bool (dos_a_la k) x then k else k - 1.

(** The multiple of 2^u nearest to [x]. *)
Definition en_rejilla (u : Z) (x : Q) : Q :=
  (inject_Z (redondeo_par (x / dos_a_la u)) * dos_a_la u)%Q.

(** The unit in the last place of the binade of a positive [x]: 53 bits of
    significand, and 2^-1074 on the subnormals. *)
Definition unidad (x : Q) : Z := Z.max (exponente x - 52) (-1074).

Definition redondear_positivo (x : Q) : Q := en_rejilla (unidad x) x.

(** The binary64 float nearest to [x]. *)
Definition redondear (x : Q) : Q :=
  match (x ?= 0)%Q with
  | Eq => 0%Q
  | Gt => Qred (redondear_positivo x)
  | Lt => Qred (- redondear_positivo (- x))
  end.

(** The floats: the integers below 2^53 in absolute value times a power of
    two not below 2^-1074. *)
Definition representable (v : Q) : Prop :=
  exists m k : Z,
    Z.abs m < 2 ^ 53 /\ -1074 <= k /\ (v == inject_Z m * dos_a_la k)%Q.

(** The [int] operand of a float operation. *)
Definition float_of_int (n : Z) : Q := redondear (inject_Z n).

(** [x + y], [x - y], [x * y] and [x / y] on floats.  A zero divisor
    raises in Python; every use below is behind a test that excludes it. *)
Definition fadd (x y : Q) : Q := redondear (x + y).
Definition fsub (x y : Q) : Q := redondear (x - y).
Definition fmul (x y : Q) : Q := redondear (x * y).
Definition fdiv (x y : Q) : Q := redondear (x / y).

(** [sum(l)] on a list of floats, from the integer 0. *)
Definition sum_float (l : list Q) : Q := fold_left fadd l 0%Q.

(** [sum(l) / len(l)] *)
Definition media_float (l : list Q) : Q :=
  fdiv (sum_float l) (float_of_int (Z.of_nat (List.length l))).

(** [int(x)] on a float: truncation towards zero. *)
Definition int_of_float (x : Q) : Z := Z.quot (Qnum x) (Zpos (Qden x)).

(** [str(n)] and [f"{n}"] on an integer. *)
Definition str_of_int (n : Z) : string := NilZero.string_of_int (Z.to_int n).

(** [x > y] and [x < y] on floats. *)
Definition Qgt_bool (x y : Q) : bool := negb (Qle_bool x y).
Definition Qlt_bool (x y : Q) : bool := negb (Qle_bool y x).

(** The exact sum and the count of a list of values, for SQL's [AVG]. *)
Definition Qsum (l : list Q) : Q := fold_left Qplus l (0 # 1)%Q.
Definition Qlen (l : list Q) : Q := inject_Z (Z.of_nat (List.length l)).

Definition es_no_nulo {A : Type} (o : option A) : bool :=
  match o with Some _ => true | None => false end.

(** ** Tables *)

Record Tarea := mkTarea {
  t_id_tarea : Z;
  tiempo_estandar_s : Q;
  umbral_excelente_s : Q;
  umbral_lento_s : Q
}.

Record OperarioTarea := mkOperarioTarea {
  ot_id_operario : Z;
  ot_id_tarea : Z;
  activa : bool
}.

Record RegistroCiclo := mkRegistroCiclo {
  id_registro : Z;
  rc_id_operario : Z;
  rc_id_tarea : Z;
  marca_tiempo : datetime;
  tiempo_ciclo_s : option Q;
  promedio_5_ciclos : option Q;
  estado : string;
  fecha_registro : date
}.

Record RegistroPausa := mkRegistroPausa {
  id_pausa : Z;
  rp_id_operario : Z;
  hora_inicio_pausa : datetime;
  hora_fin_pausa : option datetime;
  motivo : option string;
  duracion_s : option Z;
  finalizada : bool
}.

(** The database: the four tables and the next value of the two serial
    keys handed out by [RETURNING id_registro] and [RETURNING id_pausa]. *)
Record BaseDatos := mkBaseDatos {
  Operario_Tarea : list OperarioTarea;
  Tareas : list Tarea;
  Registros_Ciclos : list RegistroCiclo;
  Registros_Pausas : list RegistroPausa;
  sig_id_registro : Z;
  sig_id_pausa : Z
}.

(** ** Requests, responses and errors *)

Record CicloRequest := mkCicloRequest { c_id_operario : Z }.

Inductive Accion := INICIO | FIN.

Record PausaRequest := mkPausaRequest {
  p_id_operario : Z;
  accion : Accion;
  p_motivo : option string
}.

(** [CicloResponse] without its [mensaje], whose text formats a float. *)
Record CicloResponse := mkCicloResponse {
  r_id_registro : Z;
  r_tiempo_ciclo_s : option Q;
  r_promedio_5_ciclos : option Q;
  r_estado : string;
  r_ciclos_completados_hoy : Z
}.

Record PausaResponse := mkPausaResponse {
  r_id_pausa : Z;
  r_mensaje : string;
  r_duracion_s : option Z
}.

Inductive resultado (A : Type) : Type :=
| Ok (a : A)
| HTTPException (status_code : Z) (detail : string).
Arguments Ok {A} a.
Arguments HTTPException {A} status_code detail.

Definition HTTP_400_BAD_REQUEST : Z := 400.
Definition HTTP_404_NOT_FOUND : Z := 404.

(** [with get_db_connection() as conn]: commit on return, rollback on
    raise. *)
Definition get_db_connection {A : Type}
    (cuerpo : BaseDatos -> BaseDatos * resultado A) (db : BaseDatos)
    : BaseDatos * resultado A :=
  match cuerpo db with
  | (db', Ok a) => (db', Ok a)
  | (_, HTTPException c d) => (db, HTTPException c d)
  end.

(** ** Query helpers *)

Section OrderBy.
Context {A : Type} (clave : A -> Z).

Fixpoint insertar_desc (x : A) (l : list A) : list A :=
  match l with
  | [] => [x]
  | y :: l' =>
      if clave x <? clave y then y :: insertar_desc x l' else x :: l
  end.

(** [ORDER BY clave DESC] *)
Definition order_by_desc (l : list A) : list A :=
  fold_right insertar_desc [] l.
End OrderBy.

(** [SUM(col)] without [COALESCE]: NULL on no non-null value. *)
Fixpoint sql_sum (l : list (option Z)) : option Z :=
  match l with
  | [] => None
  | None :: l' => sql_sum l'
  | Some v :: l' =>
      match sql_sum l' with
      | None => Some v
      | Some s => Some (v + s)
      end
  end.

Definition coalesce (o : option Z) (d : Z) : Z :=
  match o with Some v => v | None => d end.

(** [float(c['tiempo_ciclo_s'])] on a column that the query has filtered
    to be non-null. *)
Definition float_de_columna (o : option Q) : Q :=
  match o with Some q => redondear q | None => (0 # 1)%Q end.

(** ** POST /api/ciclo *)

(** Step 1: the operator's active task and its thresholds. *)
Definition consultar_tarea_activa (db : BaseDatos) (id_operario : Z)
    : option Tarea :=
  hd_error
    (flat_map
       (fun ot =>
          if (ot_id_operario ot =? id_operario) && activa ot
          then filter (fun t => ot_id_tarea ot =? t_id_tarea t) (Tareas db)
          else [])
       (Operario_Tarea db)).

(** Step 2: [marca_tiempo] of the operator's last recorded cycle. *)
Definition consultar_ultimo_ciclo (db : BaseDatos) (id_operario : Z)
    : option datetime :=
  hd_error
    (map marca_tiempo
       (order_by_desc marca_tiempo
          (filter (fun c => rc_id_operario c =? id_operario)
                  (Registros_Ciclos db)))).

Definition en_ventana (desde hasta : datetime) (p : RegistroPausa) : bool :=
  (desde <? hora_inicio_pausa p) && (hora_inicio_pausa p <? hasta).

(** Step 2.1: total seconds of the finished pauses started in the window.
    [COALESCE] already yields 0 on no row, so the [or 0] that follows it in
    the handler changes nothing. *)
Definition consultar_tiempo_total_pausas (db : BaseDatos) (id_operario : Z)
    (desde hasta : datetime) : Z :=
  coalesce
    (sql_sum
       (map duracion_s
          (filter (fun p => (rp_id_operario p =? id_operario)
                            && eqb (finalizada p) true
                            && en_ventana desde hasta p)
                  (Registros_Pausas db))))
    0.

(** Step 2.2: number of unfinished pauses started in the window. *)
Definition consultar_pausas_sin_finalizar (db : BaseDatos) (id_operario : Z)
    (desde hasta : datetime) : Z :=
  Z.of_nat
    (List.length
       (filter (fun p => (rp_id_operario p =? id_operario)
                         && eqb (finalizada p) false
                         && en_ventana desde hasta p)
               (Registros_Pausas db))).

(** Steps 2 to 2.3: the cycle time, or [None]. *)
Definition calcular_tiempo_ciclo (db : BaseDatos) (id_operario : Z)
    (marca_tiempo_actual : datetime) : option Q :=
  match consultar_ultimo_ciclo db id_operario with
  | None => None
  | Some ultimo =>
      let tiempo_bruto := marca_tiempo_actual - ultimo in
      let tiempo_bruto_s := redondear (total_seconds tiempo_bruto) in
      let tiempo_total_pausas_s :=
        consultar_tiempo_total_pausas db id_operario ultimo
                                      marca_tiempo_actual in
      let pausas_sin_finalizar :=
        consultar_pausas_sin_finalizar db id_operario ultimo
                                       marca_tiempo_actual in
      if pausas_sin_finalizar >? 0 then None
      else
        let tiempo_ciclo :=
          fsub tiempo_bruto_s (float_of_int tiempo_total_pausas_s) in
        if Qgt_bool tiempo_ciclo (300 # 1) || Qlt_bool tiempo_ciclo (0 # 1)
        then None
        else Some tiempo_ciclo
  end.

(** Step 3: the rows of the last 4 timed cycles of the operator today. *)
Definition consultar_ultimos_ciclos (db : BaseDatos) (id_operario : Z)
    (current_date : date) : list RegistroCiclo :=
  firstn 4
    (order_by_desc marca_tiempo
       (filter (fun c => (rc_id_operario c =? id_operario)
                         && es_no_nulo (tiempo_ciclo_s c)
                         && (fecha_registro c =? current_date))
               (Registros_Ciclos db))).

Definition calcular_promedio (tiempo_ciclo : option Q)
    (ultimos_ciclos : list RegistroCiclo) : option Q :=
  match tiempo_ciclo with
  | None => None
  | Some t =>
      let tiempos :=
        t :: map (fun c => float_de_columna (tiempo_ciclo_s c)) ultimos_ciclos in
      Some (media_float tiempos)
  end.

(** Step 4: the status from the average. *)
Definition determinar_estado (promedio : option Q)
    (umbral_excelente umbral_lento : Q) : string :=
  match promedio with
  | None => "Normal"
  | Some p =>
      if Qle_bool p umbral_excelente then "Excelente"
      else if Qle_bool umbral_lento p then "Lento"
      else "Normal"
  end.

(** Step 6: the operator's cycles of today. *)
Definition contar_ciclos_hoy (cs : list RegistroCiclo) (id_operario : Z)
    (current_date : date) : Z :=
  Z.of_nat
    (List.length
       (filter (fun c => (rc_id_operario c =? id_operario)
                         && (fecha_registro c =? current_date))
               cs)).

Definition registrar_ciclo_cuerpo (ciclo : CicloRequest) (ahora : datetime)
    (current_date : date) (db : BaseDatos) : BaseDatos * resultado CicloResponse :=
  match consultar_tarea_activa db (c_id_operario ciclo) with
  | None =>
      (db, HTTPException HTTP_404_NOT_FOUND
             ("Operario " ++ str_of_int (c_id_operario ciclo)
              ++ " no encontrado o sin tarea asignada"))
  | Some tarea_info =>
      let id_tarea := t_id_tarea tarea_info in
      let umbral_excelente := redondear (umbral_excelente_s tarea_info) in
      let umbral_lento := redondear (umbral_lento_s tarea_info) in
      let marca_tiempo_actual := ahora in
      let tiempo_ciclo :=
        calcular_tiempo_ciclo db (c_id_operario ciclo) marca_tiempo_actual in
      let ultimos_ciclos :=
        consultar_ultimos_ciclos db (c_id_operario ciclo) current_date in
      let promedio := calcular_promedio tiempo_ciclo ultimos_ciclos in
      let estado_actual := determinar_estado promedio umbral_excelente umbral_lento in
      let fecha_registro_actual := date_of marca_tiempo_actual in
      let nuevo_id := sig_id_registro db in
      let fila :=
        mkRegistroCiclo nuevo_id (c_id_operario ciclo) id_tarea
                        marca_tiempo_actual tiempo_ciclo promedio
                        estado_actual fecha_registro_actual in
      let ciclos := (Registros_Ciclos db ++ [fila])%list in
      let db' :=
        mkBaseDatos (Operario_Tarea db) (Tareas db) ciclos
                    (Registros_Pausas db) (nuevo_id + 1) (sig_id_pausa db) in
      let ciclos_hoy :=
        contar_ciclos_hoy ciclos (c_id_operario ciclo) current_date in
      (db', Ok (mkCicloResponse nuevo_id tiempo_ciclo promedio estado_actual
                                ciclos_hoy))
  end.

Definition registrar_ciclo (ciclo : CicloRequest) (ahora : datetime)
    (current_date : date) (db : BaseDatos) : BaseDatos * resultado CicloResponse :=
  get_db_connection (registrar_ciclo_cuerpo ciclo ahora current_date) db.

(** ** POST /api/pausa *)

Definition pausas_abiertas (db : BaseDatos) (id_operario : Z)
    : list RegistroPausa :=
  filter (fun p => (rp_id_operario p =? id_operario)
                   && eqb (finalizada p) false)
         (Registros_Pausas db).

(** [pausa.motivo or 'Sin motivo'] *)
Definition motivo_o_defecto (m : option string) : string :=
  match m with
  | None => "Sin motivo"
  | Some s => if String.eqb s "" then "Sin motivo" else s
  end.

(** [UPDATE Registros_Pausas SET ... WHERE id_pausa = %s] *)
Definition cerrar_pausa (id : Z) (hora_fin : datetime) (dur : Z)
    (p : RegistroPausa) : RegistroPausa :=
  if id_pausa p =? id
  then mkRegistroPausa (id_pausa p) (rp_id_operario p) (hora_inicio_pausa p)
                       (Some hora_fin) (motivo p) (Some dur) true
  else p.

Definition registrar_pausa_cuerpo (pausa : PausaRequest) (ahora : datetime)
    (db : BaseDatos) : BaseDatos * resultado PausaResponse :=
  match accion pausa with
  | INICIO =>
      match hd_error (pausas_abiertas db (p_id_operario pausa)) with
      | Some _ =>
          (db, HTTPException HTTP_400_BAD_REQUEST
                 "Ya existe una pausa activa para este operario")
      | None =>
          let nuevo_id := sig_id_pausa db in
          let fila :=
            mkRegistroPausa nuevo_id (p_id_operario pausa) ahora None
                            (p_motivo pausa) None false in
          let db' :=
            mkBaseDatos (Operario_Tarea db) (Tareas db) (Registros_Ciclos db)
                        (Registros_Pausas db ++ [fila])%list
                        (sig_id_registro db) (nuevo_id + 1) in
          (db', Ok (mkPausaResponse nuevo_id
                      ("Pausa iniciada: " ++ motivo_o_defecto (p_motivo pausa))
                      None))
      end
  | FIN =>
      match hd_error (order_by_desc hora_inicio_pausa
                        (pausas_abiertas db (p_id_operario pausa))) with
      | None =>
          (db, HTTPException HTTP_404_NOT_FOUND
                 "No hay pausas activas para este operario")
      | Some pausa_activa =>
          let hora_fin := ahora in
          let duracion := hora_fin - hora_inicio_pausa pausa_activa in
          let dur_s := int_of_float (total_seconds duracion) in
          let db' :=
            mkBaseDatos (Operario_Tarea db) (Tareas db) (Registros_Ciclos db)
                        (map (cerrar_pausa (id_pausa pausa_activa) hora_fin dur_s)
                             (Registros_Pausas db))
                        (sig_id_registro db) (sig_id_pausa db) in
          (db', Ok (mkPausaResponse (id_pausa pausa_activa)
                      ("Pausa finalizada. Duración: " ++ str_of_int dur_s
                       ++ "s (" ++ str_of_int (dur_s / 60) ++ "min)")
                      (Some dur_s)))
      end
  end.

Definition registrar_pausa (pausa : PausaRequest) (ahora : datetime)
    (db : BaseDatos) : BaseDatos * resultado PausaResponse :=
  get_db_connection (registrar_pausa_cuerpo pausa ahora) db.

(** ** Vocabulary of the statements *)

(** The order produced by [ORDER BY clave DESC]. *)
Definition desc {A : Type} (clave : A -> Z) (a b : A) : Prop :=
  clave b <= clave a.

(** [t] is the timestamp of the operator's last recorded cycle. *)
Definition es_ultimo_ciclo (db : BaseDatos) (id_operario : Z) (t : datetime)
    : Prop :=
  (exists c, In c (Registros_Ciclos db)
             /\ rc_id_operario c = id_operario /\ marca_tiempo c = t)
  /\ forall c, In c (Registros_Ciclos db) ->
               rc_id_operario c = id_operario -> marca_tiempo c <= t.

(** The operator has no cycle record yet. *)
Definition sin_ciclos_previos (db : BaseDatos) (id_operario : Z) : Prop :=
  forall c, In c (Registros_Ciclos db) -> rc_id_operario c <> id_operario.

(** Some unfinished pause of the operator started strictly inside the
    window. *)
Definition pausa_abierta_en_ventana (db : BaseDatos) (id_operario : Z)
    (desde hasta : datetime) : Prop :=
  exists p, In p (Registros_Pausas db)
            /\ rp_id_operario p = id_operario
            /\ finalizada p = false
            /\ desde < hora_inicio_pausa p < hasta.

(** The finished pauses of the operator started strictly inside the
    window, and the sum of their durations. *)
Definition pausas_cerradas_en_ventana (db : BaseDatos) (id_operario : Z)
    (desde hasta : datetime) : list RegistroPausa :=
  filter (fun p => (rp_id_operario p =? id_operario)
                   && finalizada p
                   && (desde <? hora_inicio_pausa p)
                   && (hora_inicio_pausa p <? hasta))
         (Registros_Pausas db).

Definition suma_duraciones (ps : list RegistroPausa) : Z :=
  fold_right (fun p acc => match duracion_s p with
                           | Some d => d + acc
                           | None => acc
                           end) 0 ps.

(** The rows that may enter the average: the operator's cycles of the
    current date that carry a cycle time. *)
Definition ciclos_validos_hoy (db : BaseDatos) (id_operario : Z)
    (current_date : date) : list RegistroCiclo :=
  filter (fun c => (rc_id_operario c =? id_operario)
                   && es_no_nulo (tiempo_ciclo_s c)
                   && (fecha_registro c =? current_date))
         (Registros_Ciclos db).

(** The arithmetic mean of a list of values. *)
Definition media_aritmetica (l : list Q) : Q :=
  (fold_right Qplus (0 # 1) l / inject_Z (Z.of_nat (List.length l)))%Q.

(** The order Excelente < Normal < Lento of the three status literals. *)
Definition rango_estado (s : string) : nat :=
  if String.eqb s "Excelente" then 0
  else if String.eqb s "Normal" then 1
  else if String.eqb s "Lento" then 2
  else 3.

(** The operator has an unfinished pause. *)
Definition tiene_pausa_abierta (db : BaseDatos) (id_operario : Z) : Prop :=
  exists p, In p (Registros_Pausas db)
            /\ rp_id_operario p = id_operario
            /\ finalizada p = false.

(** Two cycle rows that agree on every column but the task, and two
    databases that agree on everything but the tasks of their cycle rows. *)
Definition solo_difieren_en_tarea (c1 c2 : RegistroCiclo) : Prop :=
  id_registro c1 = id_registro c2
  /\ rc_id_operario c1 = rc_id_operario c2
  /\ marca_tiempo c1 = marca_tiempo c2
  /\ tiempo_ciclo_s c1 = tiempo_ciclo_s c2
  /\ promedio_5_ciclos c1 = promedio_5_ciclos c2
  /\ estado c1 = estado c2
  /\ fecha_registro c1 = fecha_registro c2.

Definition misma_base_salvo_tareas (db1 db2 : BaseDatos) : Prop :=
  Operario_Tarea db1 = Operario_Tarea db2
  /\ Tareas db1 = Tareas db2
  /\ Forall2 solo_difieren_en_tarea (Registros_Ciclos db1)
                                    (Registros_Ciclos db2)
  /\ Registros_Pausas db1 = Registros_Pausas db2
  /\ sig_id_registro db1 = sig_id_registro db2
  /\ sig_id_pausa db1 = sig_id_pausa db2.

(** An interval overlaps the window when it starts before the window ends
    and has not ended when the window starts; an unfinished pause has no
    end. *)
Definition pausa_solapa_ventana (desde hasta : datetime) (p : RegistroPausa)
    : Prop :=
  hora_inicio_pausa p < hasta
  /\ match hora_fin_pausa p with
     | Some fin => desde < fin
     | None => True
     end.

(** ** Example databases

    Operator 3582 of [test_sistema.py] on a task with standard time 12 s
    and thresholds 11 s and 15 s. *)

Definition segundos (n : Z) : Z := n * 1000000.

Definition t_previo : datetime := segundos 1000.

Definition op_ejemplo : CicloRequest := mkCicloRequest 3582.

Definition tarea_ejemplo : Tarea := mkTarea 1 (12 # 1) (11 # 1) (15 # 1).

Definition db_inicial : BaseDatos :=
  mkBaseDatos [mkOperarioTarea 3582 1 true] [tarea_ejemplo] [] [] 1 1.

(** A previous cycle at [t_previo] and nothing else. *)
Definition db_un_ciclo : BaseDatos :=
  mkBaseDatos [mkOperarioTarea 3582 1 true] [tarea_ejemplo]
    [mkRegistroCiclo 1 3582 1 t_previo None None "Normal" 0] [] 2 1.

(** A previous cycle at [t_previo] and a finished pause of 5 s started 2 s
    later. *)
Definition db_pausa_cerrada : BaseDatos :=
  mkBaseDatos [mkOperarioTarea 3582 1 true] [tarea_ejemplo]
    [mkRegistroCiclo 1 3582 1 t_previo None None "Normal" 0]
    [mkRegistroPausa 1 3582 (t_previo + segundos 2)
       (Some (t_previo + segundos 7)) (Some "Bano") (Some 5) true]
    2 2.

(** A previous cycle at [t_previo] and an unfinished pause started 2 s
    later. *)
Definition db_pausa_abierta : BaseDatos :=
  mkBaseDatos [mkOperarioTarea 3582 1 true] [tarea_ejemplo]
    [mkRegistroCiclo 1 3582 1 t_previo None None "Normal" 0]
    [mkRegistroPausa 1 3582 (t_previo + segundos 2) None (Some "Bano")
       None false]
    2 2.

(** The database reached from [db_inicial] by a first cycle 10 s before
    [t_previo], a pause opened 5 s before [t_previo] and never closed, and
    a second cycle at [t_previo]. *)
Definition db_pausa_abierta_previa : BaseDatos :=
  fst (registrar_ciclo op_ejemplo t_previo 0
    (fst (registrar_pausa (mkPausaRequest 3582 INICIO (Some "Bano"))
            (t_previo - segundos 5)
       (fst (registrar_ciclo op_ejemplo (t_previo - segundos 10) 0
               db_inicial))))).

(** A day of work of operator 3582: a cycle of the day before, a first
    cycle without a time, five timed cycles of which the earlier ones were
    recorded under task 2, and a cycle of operator 3583 in between. *)
Definition tarea_anterior : Tarea := mkTarea 2 (20 # 1) (18 # 1) (25 # 1).

Definition historial_ejemplo : list RegistroCiclo :=
  [ mkRegistroCiclo 1 3582 2 (- segundos 50000) (Some (19 # 1)) None "Normal" (-1);
    mkRegistroCiclo 2 3582 2 (t_previo - segundos 60) None None "Normal" 0;
    mkRegistroCiclo 3 3582 2 (t_previo - segundos 48) (Some (12 # 1)) None "Normal" 0;
    mkRegistroCiclo 4 3583 1 (t_previo - segundos 40) (Some (14 # 1)) None "Normal" 0;
    mkRegistroCiclo 5 3582 2 (t_previo - segundos 35) (Some (13 # 1)) None "Normal" 0;
    mkRegistroCiclo 6 3582 1 (t_previo - segundos 25) (Some (10 # 1)) None "Normal" 0;
    mkRegistroCiclo 7 3582 1 (t_previo - segundos 13) (Some (12 # 1)) None "Normal" 0;
    mkRegistroCiclo 8 3582 1 t_previo (Some (13 # 1)) None "Normal" 0 ].

Definition db_historial : BaseDatos :=
  mkBaseDatos
    [mkOperarioTarea 3582 2 false; mkOperarioTarea 3582 1 true;
     mkOperarioTarea 3583 1 true]
    [tarea_ejemplo; tarea_anterior] historial_ejemplo [] 9 1.

(** The same day with every cycle recorded under task 1. *)
Definition con_tarea (id_tarea : Z) (c : RegistroCiclo) : RegistroCiclo :=
  mkRegistroCiclo (id_registro c) (rc_id_operario c) id_tarea (marca_tiempo c)
                  (tiempo_ciclo_s c) (promedio_5_ciclos c) (estado c)
                  (fecha_registro c).

Definition db_historial_una_tarea : BaseDatos :=
  mkBaseDatos (Operario_Tarea db_historial) (Tareas db_historial)
              (map (con_tarea 1) historial_ejemplo) [] 9 1.

(** Two unfinished pauses of operator 3582, the one with the smaller key
    opened later, and a finished one. *)
Definition db_dos_pausas_abiertas : BaseDatos :=
  mkBaseDatos [mkOperarioTarea 3582 1 true] [tarea_ejemplo] []
    [mkRegistroPausa 1 3582 (t_previo + segundos 30) None None None false;
     mkRegistroPausa 2 3582 (t_previo + segundos 10) None (Some "Bano") None
                     false;
     mkRegistroPausa 3 3582 (t_previo - segundos 90)
                     (Some (t_previo - segundos 60)) None (Some 30) true]
    1 4.

(** A previous cycle of 11 s at [t_previo]. *)
Definition db_ciclo_de_once : BaseDatos :=
  mkBaseDatos [mkOperarioTarea 3582 1 true] [tarea_ejemplo]
    [mkRegistroCiclo 1 3582 1 t_previo (Some (11 # 1)) (Some (11 # 1))
                     "Excelente" 0] [] 2 1.

(** ** GET /api/metricas/{id_operario}

    The handler joins the table [Operarios], which the two write handlers
    do not read; it is an argument of its own here.  The response is
    modelled without [tarea_actual], the name of the task. *)

Record Operario := mkOperario {
  o_id_operario : Z;
  nombre : string;
  linea_produccion : option string;
  estacion : option string;
  activo : bool
}.

Record MetricasResponse := mkMetricasResponse {
  m_id_operario : Z;
  m_nombre : string;
  m_tiempo_estandar_s : Q;
  m_ciclos_hoy : Z;
  m_promedio_dia : option Q;
  m_promedio_ultimos_5 : option Q;
  m_estado_actual : string;
  m_en_pausa : bool;
  m_tiempo_pausa_actual_s : option Z;
  m_eficiencia_porcentaje : option Q
}.

(** [if x] on a nullable number: [None] and zero are false. *)
Definition es_verdadero (o : option Q) : bool :=
  match o with
  | Some q => negb (Qeq_bool q (0 # 1))
  | None => false
  end.

(** [float(x) if x else None] *)
Definition float_si_verdadero (o : option Q) : option Q :=
  match o with
  | Some q => if es_verdadero (Some q) then Some (redondear q) else None
  | None => None
  end.

(** The non-null values of a column. *)
Fixpoint valores_no_nulos (l : list (option Q)) : list Q :=
  match l with
  | [] => []
  | Some q :: l' => q :: valores_no_nulos l'
  | None :: l' => valores_no_nulos l'
  end.

(** [AVG(col)]: NULL on no non-null value. *)
Definition sql_avg (l : list (option Q)) : option Q :=
  match valores_no_nulos l with
  | [] => None
  | v :: vs => Some (Qsum (v :: vs) / Qlen (v :: vs))%Q
  end.

(** The operator joined with its active assignment and the task. *)
Definition consultar_operario_info (Operarios : list Operario)
    (db : BaseDatos) (id_operario : Z) : option (Operario * Tarea) :=
  hd_error
    (flat_map
       (fun o =>
          if o_id_operario o =? id_operario
          then
            flat_map
              (fun ot =>
                 if (o_id_operario o =? ot_id_operario ot) && activa ot
                 then map (fun t => (o, t))
                          (filter (fun t => ot_id_tarea ot =? t_id_tarea t)
                                  (Tareas db))
                 else [])
              (Operario_Tarea db)
          else [])
       Operarios).

(** The operator's timed cycles of the current date. *)
Definition consultar_ciclos_info (db : BaseDatos) (id_operario : Z)
    (current_date : date) : list RegistroCiclo :=
  filter (fun c => (rc_id_operario c =? id_operario)
                   && (fecha_registro c =? current_date)
                   && es_no_nulo (tiempo_ciclo_s c))
         (Registros_Ciclos db).

(** The operator's last recorded cycle. *)
Definition consultar_ultimo_registro (db : BaseDatos) (id_operario : Z)
    : option RegistroCiclo :=
  hd_error
    (order_by_desc marca_tiempo
       (filter (fun c => rc_id_operario c =? id_operario)
               (Registros_Ciclos db))).

Definition obtener_metricas_cuerpo (Operarios : list Operario)
    (id_operario : Z) (ahora : datetime) (current_date : date)
    (db : BaseDatos) : BaseDatos * resultado MetricasResponse :=
  match consultar_operario_info Operarios db id_operario with
  | None =>
      (db, HTTPException HTTP_404_NOT_FOUND
             ("Operario " ++ str_of_int id_operario ++ " no encontrado"))
  | Some (operario_info, tarea_info) =>
      let ciclos_info := consultar_ciclos_info db id_operario current_date in
      let total := Z.of_nat (List.length ciclos_info) in
      let promedio := sql_avg (map tiempo_ciclo_s ciclos_info) in
      let ultimo_registro := consultar_ultimo_registro db id_operario in
      let pausa_activa := hd_error (pausas_abiertas db id_operario) in
      let en_pausa := es_no_nulo pausa_activa in
      let tiempo_pausa_s :=
        match pausa_activa with
        | Some p =>
            Some (int_of_float (total_seconds (ahora - hora_inicio_pausa p)))
        | None => None
        end in
      let promedio_dia := float_si_verdadero promedio in
      let eficiencia :=
        match promedio_dia with
        | Some pd =>
            if es_verdadero (Some pd)
            then
              let tiempo_estandar := redondear (tiempo_estandar_s tarea_info) in
              Some (fmul (fdiv tiempo_estandar pd) (float_of_int 100))
            else None
        | None => None
        end in
      (db, Ok (mkMetricasResponse
                 (o_id_operario operario_info)
                 (nombre operario_info)
                 (redondear (tiempo_estandar_s tarea_info))
                 total
                 promedio_dia
                 (match ultimo_registro with
                  | Some u => float_si_verdadero (promedio_5_ciclos u)
                  | None => None
                  end)
                 (match ultimo_registro with
                  | Some u => estado u
                  | None => "Sin datos"
                  end)
                 en_pausa
                 tiempo_pausa_s
                 eficiencia))
  end.

Definition obtener_metricas (Operarios : list Operario) (id_operario : Z)
    (ahora : datetime) (current_date : date) (db : BaseDatos)
    : BaseDatos * resultado MetricasResponse :=
  get_db_connection
    (obtener_metricas_cuerpo Operarios id_operario ahora current_date) db.

(** ** GET /api/reportes/comparativo

    The model starts after the handler has split and parsed its
    [operarios] parameter into [operarios_list] and takes the two dates as
    the database reads them; the response is the list [operarios], without
    the [periodo] text. *)

Record OperarioComparativo := mkOperarioComparativo {
  oc_id_operario : Z;
  oc_nombre : string;
  oc_ciclos_totales : Z;
  oc_promedio_tiempo : option Q;
  oc_eficiencia : option Q;
  oc_dias_trabajados : Z;
  oc_estado_general : string
}.

(** The operator's timed cycles of the period. *)
Definition consultar_metricas_periodo (db : BaseDatos) (id_operario : Z)
    (fecha_inicio fecha_fin : date) : list RegistroCiclo :=
  filter (fun c => (rc_id_operario c =? id_operario)
                   && (fecha_inicio <=? fecha_registro c)
                   && (fecha_registro c <=? fecha_fin)
                   && es_no_nulo (tiempo_ciclo_s c))
         (Registros_Ciclos db).

Definition HTTP_500_INTERNAL_SERVER_ERROR : Z := 500.

(** What [except Exception as e] makes of the [ZeroDivisionError] of a
    float division. *)
Definition error_division_por_cero {A : Type} : resultado A :=
  HTTPException HTTP_500_INTERNAL_SERVER_ERROR
    "Error al obtener reporte comparativo: float division by zero".

(** One round of the loop: nothing for an unknown operator ([continue]),
    one entry otherwise.  The test before the division looks at the
    average as the database returns it, the division takes its float; a
    non-zero average whose float is zero raises. *)
Definition comparar_operario (Operarios : list Operario) (db : BaseDatos)
    (fecha_inicio fecha_fin : date) (id_operario : Z)
    : resultado (list OperarioComparativo) :=
  match hd_error (filter (fun o => o_id_operario o =? id_operario)
                         Operarios) with
  | None => Ok []
  | Some operario =>
      let metricas :=
        consultar_metricas_periodo db id_operario fecha_inicio fecha_fin in
      let promedio_tiempo := sql_avg (map tiempo_ciclo_s metricas) in
      let tiempo_estandar :=
        match consultar_tarea_activa db id_operario with
        | Some tarea => Some (redondear (tiempo_estandar_s tarea))
        | None => None
        end in
      let eficiencia :=
        if es_verdadero promedio_tiempo && es_verdadero tiempo_estandar
        then
          match promedio_tiempo, tiempo_estandar with
          | Some p, Some te =>
              if Qeq_bool (redondear p) (0 # 1)
              then error_division_por_cero
              else Ok (Some (fmul (fdiv te (redondear p)) (float_of_int 100)))
          | _, _ => Ok None
          end
        else Ok None in
      match eficiencia with
      | HTTPException c d => HTTPException c d
      | Ok eficiencia =>
          let estado_general :=
            if es_verdadero eficiencia
            then
              match eficiencia with
              | Some e =>
                  if Qle_bool (100 # 1) e then "Excelente"
                  else if Qle_bool (80 # 1) e then "Normal"
                  else "Lento"
              | None => "Sin datos"
              end
            else "Sin datos" in
          Ok [mkOperarioComparativo
                id_operario
                (nombre operario)
                (Z.of_nat (List.length metricas))
                (float_si_verdadero promedio_tiempo)
                eficiencia
                (Z.of_nat (List.length
                             (nodup Z.eq_dec (map fecha_registro metricas))))
                estado_general]
      end
  end.

(** The loop over [operarios_list]; an exception ends it. *)
Fixpoint comparar_operarios (Operarios : list Operario) (db : BaseDatos)
    (fecha_inicio fecha_fin : date) (operarios_list : list Z)
    : resultado (list OperarioComparativo) :=
  match operarios_list with
  | [] => Ok []
  | id_operario :: resto =>
      match comparar_operario Operarios db fecha_inicio fecha_fin
                              id_operario with
      | HTTPException c d => HTTPException c d
      | Ok entrada =>
          match comparar_operarios Operarios db fecha_inicio fecha_fin
                                   resto with
          | HTTPException c d => HTTPException c d
          | Ok entradas => Ok (entrada ++ entradas)%list
          end
      end
  end.

Definition obtener_reporte_comparativo (Operarios : list Operario)
    (operarios_list : list Z) (fecha_inicio fecha_fin : date)
    (db : BaseDatos) : BaseDatos * resultado (list OperarioComparativo) :=
  get_db_connection
    (fun db =>
       (db, comparar_operarios Operarios db fecha_inicio fecha_fin
                               operarios_list))
    db.

(** ** Vocabulary of the further statements *)

(** The operator has an active assignment to a task of the task table. *)
Definition tiene_tarea_activa (db : BaseDatos) (id_operario : Z) : Prop :=
  exists ot t, In ot (Operario_Tarea db) /\ In t (Tareas db)
               /\ ot_id_operario ot = id_operario
               /\ activa ot = true
               /\ ot_id_tarea ot = t_id_tarea t.

(** Every recorded cycle time lies within the outlier bounds. *)
Definition historial_acotado (db : BaseDatos) : Prop :=
  forall c d, In c (Registros_Ciclos db) -> tiempo_ciclo_s c = Some d ->
              (0 <= d <= 300)%Q.

(** No operator has two unfinished pauses. *)
Definition a_lo_sumo_una_abierta (db : BaseDatos) : Prop :=
  forall id_operario,
    (List.length (pausas_abiertas db id_operario) <= 1)%nat.

(** The database with one more pause row. *)
Definition con_pausa (db : BaseDatos) (p : RegistroPausa) : BaseDatos :=
  mkBaseDatos (Operario_Tarea db) (Tareas db) (Registros_Ciclos db)
              (Registros_Pausas db ++ [p])%list
              (sig_id_registro db) (sig_id_pausa db).

(** The operator's cycles of the current date that carry no cycle time. *)
Definition ciclos_sin_tiempo_hoy (db : BaseDatos) (id_operario : Z)
    (current_date : date) : list RegistroCiclo :=
  filter (fun c => (rc_id_operario c =? id_operario)
                   && (fecha_registro c =? current_date)
                   && negb (es_no_nulo (tiempo_ciclo_s c)))
         (Registros_Ciclos db).

(** The operator's period average is not zero, its float is, and the
    operator has an active task with a standard time whose float is not
    zero: the division of the comparative report is by zero. *)
Definition promedio_sin_float (db : BaseDatos) (fecha_inicio fecha_fin : date)
    (id_operario : Z) : Prop :=
  exists p tarea,
    sql_avg (map tiempo_ciclo_s
               (consultar_metricas_periodo db id_operario fecha_inicio
                                           fecha_fin)) = Some p
    /\ ~ (p == 0)%Q /\ (redondear p == 0)%Q
    /\ consultar_tarea_activa db id_operario = Some tarea
    /\ ~ (redondear (tiempo_estandar_s tarea) == 0)%Q.

(** A previous cycle at [t_previo] after one 20 s earlier, with the two
    cycle times given, oldest first. *)
Definition db_dos_tiempos (primero segundo : Q) : BaseDatos :=
  mkBaseDatos [mkOperarioTarea 3582 1 true] [tarea_ejemplo]
    [mkRegistroCiclo 1 3582 1 (t_previo - segundos 20) (Some primero) None
                     "Normal" 0;
     mkRegistroCiclo 2 3582 1 t_previo (Some segundo) None "Normal" 0]
    [] 3 1.

(** An operator whose only cycle time is 2^-1080 s. *)
Definition db_tiempo_infimo : BaseDatos :=
  mkBaseDatos [mkOperarioTarea 3582 1 true] [tarea_ejemplo]
    [mkRegistroCiclo 1 3582 1 t_previo (Some (dos_a_la (-1080))) None
                     "Normal" 0]
    [] 2 1.

(** The operators of the examples. *)
Definition operarios_ejemplo : list Operario :=
  [mkOperario 3582 "Operario 3582" (Some "Linea 1") (Some "Estacion 1") true;
   mkOperario 3583 "Operario 3583" (Some "Linea 1") (Some "Estacion 2") true].

(** [es_ultimo_ciclo] on a database with a single cycle row. *)
Ltac ultimo_de_un_ciclo :=
  split;
  [ eexists; split; [left; reflexivity|]; split; reflexivity
  | intros ? [<-|[]] _; simpl; lia ].

(** ** Facts about rounding *)

Section Flotantes.
Local Open Scope Q_scope.

Lemma dos_a_la_pos (k : Z) : 0 < dos_a_la k.
Proof. apply Qpower_0_lt. reflexivity. Qed.

Lemma dos_a_la_plus (a b : Z) : dos_a_la (a + b) == dos_a_la a * dos_a_la b.
Proof. apply Qpower_plus. discriminate. Qed.

Lemma dos_a_la_le (a b : Z) : (a <= b)%Z -> dos_a_la a <= dos_a_la b.
Proof. intros H. apply Qpower_le_compat_l; [exact H | discriminate]. Qed.

Lemma dos_a_la_lt (a b : Z) : (a < b)%Z -> dos_a_la a < dos_a_la b.
Proof. intros H. apply Qpower_lt_compat_l; [exact H | reflexivity]. Qed.

Lemma dos_a_la_lt_inv (a b : Z) : dos_a_la a < dos_a_la b -> (a < b)%Z.
Proof. intros H. apply (Qpower_lt_compat_l_inv (2 # 1)); [exact H | reflexivity]. Qed.

Lemma dos_a_la_Z (n : Z) : (0 <= n)%Z -> dos_a_la n == inject_Z (2 ^ n).
Proof. intros H. symmetry. apply (Zpower_Qpower 2 n H). Qed.

Lemma dos_a_la_div (a b : Z) : dos_a_la a / dos_a_la b == dos_a_la (a - b).
Proof.
  unfold Qdiv. replace (a - b)%Z with (a + - b)%Z by lia.
  rewrite dos_a_la_plus. unfold dos_a_la at 4. rewrite Qpower_opp. reflexivity.
Qed.

Lemma redondeo_par_comp (x y : Q) : x == y -> redondeo_par x = redondeo_par y.
Proof.
  intros H. unfold redondeo_par. rewrite (Qfloor_comp x y H).
  assert (E : (x - inject_Z (Qfloor y) ?= 1 # 2) = (y - inject_Z (Qfloor y) ?= 1 # 2))
    by (now rewrite H).
  now rewrite E.
Qed.

Lemma redondeo_par_Z (n : Z) : redondeo_par (inject_Z n) = n.
Proof.
  unfold redondeo_par. rewrite Qfloor_Z.
  assert (E : (inject_Z n - inject_Z n ?= 1 # 2) = Lt).
  { apply Qlt_alt. setoid_replace (inject_Z n - inject_Z n) with 0 by ring. reflexivity. }
  now rewrite E.
Qed.

Lemma redondeo_par_cotas (q : Q) :
  (Qfloor q <= redondeo_par q <= Qfloor q + 1)%Z.
Proof.
  unfold redondeo_par.
  destruct (q - inject_Z (Qfloor q) ?= 1 # 2); [destruct (Z.even (Qfloor q)) | |]; lia.
Qed.

Lemma redondeo_par_mono (x y : Q) : x <= y -> (redondeo_par x <= redondeo_par y)%Z.
Proof.
  intros H.
  pose proof (Qfloor_resp_le x y H) as Hf.
  destruct (Z.eq_dec (Qfloor x) (Qfloor y)) as [E | NE].
  - unfold redondeo_par. rewrite E.
    destruct (Qcompare_spec (x - inject_Z (Qfloor y)) (1 # 2)) as [Hx | Hx | Hx];
      destruct (Qcompare_spec (y - inject_Z (Qfloor y)) (1 # 2)) as [Hy | Hy | Hy];
      try destruct (Z.even (Qfloor y)); try lia; exfalso; lra.
  - pose proof (redondeo_par_cotas x). pose proof (redondeo_par_cotas y). lia.
Qed.

Lemma exponente_spec (x : Q) :
  0 < x -> dos_a_la (exponente x) <= x /\ x < dos_a_la (exponente x + 1).
Proof.
  destruct x as [n d]. intros Hx.
  assert (Hn : (0 < n)%Z).
  { unfold Qlt in Hx. simpl in Hx. lia. }
  unfold exponente. cbn [Qnum Qden].
  set (a := Z.log2 n). set (b := Z.log2 (Zpos d)).
  assert (Ha0 : (0 <= a)%Z) by apply Z.log2_nonneg.
  assert (Hb0 : (0 <= b)%Z) by apply Z.log2_nonneg.
  destruct (Z.log2_spec n Hn) as [Ha1 Ha2]. fold a in Ha1, Ha2.
  destruct (Z.log2_spec (Zpos d) (Pos2Z.is_pos d)) as [Hb1 Hb2]. fold b in Hb1, Hb2.
  assert (Qa1 : dos_a_la a <= inject_Z n).
  { rewrite dos_a_la_Z by exact Ha0. rewrite <- Zle_Qle. exact Ha1. }
  assert (Qa2 : inject_Z n < dos_a_la (a + 1)).
  { rewrite dos_a_la_Z by lia. rewrite <- Zlt_Qlt. unfold Z.succ in Ha2. exact Ha2. }
  assert (Qb1 : dos_a_la b <= inject_Z (Zpos d)).
  { rewrite dos_a_la_Z by exact Hb0. rewrite <- Zle_Qle. exact Hb1. }
  assert (Qb2 : inject_Z (Zpos d) < dos_a_la (b + 1)).
  { rewrite dos_a_la_Z by lia. rewrite <- Zlt_Qlt. unfold Z.succ in Hb2. exact Hb2. }
  assert (Hd : 0 < inject_Z (Zpos d)) by (rewrite <- (Zlt_Qlt 0); lia).
  assert (Hsup : n # d < dos_a_la (a - b + 1)).
  { rewrite Qmake_Qdiv. apply Qlt_shift_div_r; [exact Hd |].
    apply Qlt_le_trans with (dos_a_la (a + 1)); [exact Qa2 |].
    replace (a + 1)%Z with ((a - b + 1) + b)%Z by lia.
    rewrite dos_a_la_plus.
    apply Qmult_le_l; [apply dos_a_la_pos | exact Qb1]. }
  assert (Hinf : dos_a_la (a - b - 1) <= n # d).
  { rewrite Qmake_Qdiv. apply Qle_shift_div_l; [exact Hd |].
    apply Qle_trans with (dos_a_la a); [| exact Qa1].
    replace a with ((a - b - 1) + (b + 1))%Z at 2 by lia.
    rewrite dos_a_la_plus.
    apply Qmult_le_l; [apply dos_a_la_pos | apply Qlt_le_weak; exact Qb2]. }
  destruct (Qle_bool (dos_a_la (a - b)) (n # d)) eqn:E.
  - split; [apply Qle_bool_iff; exact E | exact Hsup].
  - split; [exact Hinf |].
    replace (a - b - 1 + 1)%Z with (a - b)%Z by lia.
    apply Qnot_le_lt. intros Hc. apply Qle_bool_iff in Hc. congruence.
Qed.

Lemma exponente_unico (x : Q) (k : Z) :
  dos_a_la k <= x -> x < dos_a_la (k + 1) -> exponente x = k.
Proof.
  intros H1 H2.
  assert (Hx : 0 < x) by (apply Qlt_le_trans with (dos_a_la k); [apply dos_a_la_pos | exact H1]).
  destruct (exponente_spec x Hx) as [E1 E2].
  assert (A : (exponente x < k + 1)%Z).
  { apply dos_a_la_lt_inv. apply Qle_lt_trans with x; assumption. }
  assert (B : (k < exponente x + 1)%Z).
  { apply dos_a_la_lt_inv. apply Qle_lt_trans with x; assumption. }
  lia.
Qed.

Lemma exponente_comp (x y : Q) : 0 < x -> x == y -> exponente x = exponente y.
Proof.
  intros Hx E. symmetry.
  destruct (exponente_spec x Hx) as [E1 E2].
  apply exponente_unico; rewrite <- E; assumption.
Qed.

Lemma exponente_mono (x y : Q) : 0 < x -> x <= y -> (exponente x <= exponente y)%Z.
Proof.
  intros Hx Hxy.
  assert (Hy : 0 < y) by (apply Qlt_le_trans with x; assumption).
  destruct (exponente_spec x Hx) as [X1 X2].
  destruct (exponente_spec y Hy) as [Y1 Y2].
  assert (A : (exponente x < exponente y + 1)%Z).
  { apply dos_a_la_lt_inv. apply Qle_lt_trans with x; [exact X1 |].
    apply Qle_lt_trans with y; assumption. }
  lia.
Qed.

Lemma en_rejilla_comp (u : Z) (x y : Q) : x == y -> en_rejilla u x = en_rejilla u y.
Proof.
  intros E. unfold en_rejilla.
  rewrite (redondeo_par_comp (x / dos_a_la u) (y / dos_a_la u)); [reflexivity |].
  now rewrite E.
Qed.

Lemma en_rejilla_mono (u : Z) (x y : Q) : x <= y -> en_rejilla u x <= en_rejilla u y.
Proof.
  intros H. unfold en_rejilla.
  apply Qmult_le_compat_r; [| apply Qlt_le_weak, dos_a_la_pos].
  rewrite <- Zle_Qle. apply redondeo_par_mono.
  unfold Qdiv. apply Qmult_le_compat_r; [exact H |].
  apply Qlt_le_weak, Qinv_lt_0_compat, dos_a_la_pos.
Qed.

Lemma en_rejilla_fijo (u m : Z) :
  en_rejilla u (inject_Z m * dos_a_la u) == inject_Z m * dos_a_la u.
Proof.
  unfold en_rejilla.
  rewrite (redondeo_par_comp (inject_Z m * dos_a_la u / dos_a_la u) (inject_Z m)).
  - rewrite redondeo_par_Z. reflexivity.
  - apply Qdiv_mult_l. apply Qnot_eq_sym, Qlt_not_eq, dos_a_la_pos.
Qed.

Lemma multiplo_de_unidad (u k m : Z) :
  (u <= k)%Z -> inject_Z m * dos_a_la k == inject_Z (m * 2 ^ (k - u)) * dos_a_la u.
Proof.
  intros H. rewrite inject_Z_mult, <- dos_a_la_Z by lia.
  rewrite <- Qmult_assoc, <- dos_a_la_plus.
  replace (k - u + u)%Z with k by lia. reflexivity.
Qed.

Lemma en_rejilla_multiplo (u k m : Z) :
  (u <= k)%Z -> en_rejilla u (inject_Z m * dos_a_la k) == inject_Z m * dos_a_la k.
Proof.
  intros H.
  rewrite (en_rejilla_comp u _ _ (multiplo_de_unidad u k m H)).
  rewrite en_rejilla_fijo. symmetry. apply multiplo_de_unidad. exact H.
Qed.

Lemma en_rejilla_potencia (u k : Z) :
  (u <= k)%Z -> en_rejilla u (dos_a_la k) == dos_a_la k.
Proof.
  intros H.
  assert (E : dos_a_la k == inject_Z 1 * dos_a_la k) by (now rewrite Qmult_1_l).
  rewrite (en_rejilla_comp u _ _ E). rewrite en_rejilla_multiplo by exact H.
  symmetry. exact E.
Qed.

Lemma redondear_positivo_comp (x y : Q) :
  0 < x -> x == y -> redondear_positivo x = redondear_positivo y.
Proof.
  intros Hx E. unfold redondear_positivo, unidad.
  rewrite (exponente_comp x y Hx E). apply en_rejilla_comp. exact E.
Qed.

Lemma redondear_positivo_entre_potencias (x : Q) :
  0 < x -> (unidad x <= exponente x)%Z ->
  dos_a_la (exponente x) <= redondear_positivo x <= dos_a_la (exponente x + 1).
Proof.
  intros Hx Hu. destruct (exponente_spec x Hx) as [E1 E2].
  unfold redondear_positivo. split.
  - rewrite <- (en_rejilla_potencia (unidad x) (exponente x)) at 1 by exact Hu.
    apply en_rejilla_mono. exact E1.
  - rewrite <- (en_rejilla_potencia (unidad x) (exponente x + 1)) by lia.
    apply en_rejilla_mono. apply Qlt_le_weak. exact E2.
Qed.

Lemma redondear_positivo_no_negativo (x : Q) : 0 < x -> 0 <= redondear_positivo x.
Proof.
  intros Hx. unfold redondear_positivo, en_rejilla.
  apply Qmult_le_0_compat; [| apply Qlt_le_weak, dos_a_la_pos].
  rewrite <- (Zle_Qle 0). rewrite <- (redondeo_par_Z 0).
  apply redondeo_par_mono.
  apply Qle_shift_div_l; [apply dos_a_la_pos |]. rewrite Qmult_0_l. apply Qlt_le_weak. exact Hx.
Qed.

Lemma redondear_positivo_mono (x y : Q) :
  0 < x -> x <= y -> redondear_positivo x <= redondear_positivo y.
Proof.
  intros Hx Hxy.
  assert (Hy : 0 < y) by (apply Qlt_le_trans with x; assumption).
  pose proof (exponente_mono x y Hx Hxy) as He.
  destruct (Z.eq_dec (unidad x) (unidad y)) as [E | NE].
  - unfold redondear_positivo. rewrite E. apply en_rejilla_mono. exact Hxy.
  - assert (Hlt : (exponente x < exponente y)%Z) by (unfold unidad in NE; lia).
    assert (Huy : unidad y = (exponente y - 52)%Z) by (unfold unidad in *; lia).
    destruct (exponente_spec x Hx) as [X1 X2].
    destruct (redondear_positivo_entre_potencias y Hy ltac:(lia)) as [Y1 _].
    apply Qle_trans with (dos_a_la (exponente y)); [| exact Y1].
    unfold redondear_positivo.
    rewrite <- (en_rejilla_potencia (unidad x) (exponente y)) by (unfold unidad in *; lia).
    apply en_rejilla_mono. apply Qle_trans with (dos_a_la (exponente x + 1)).
    + apply Qlt_le_weak. exact X2.
    + apply dos_a_la_le. lia.
Qed.

Lemma redondear_positivo_fijo (m k : Z) :
  (0 < m < 2 ^ 53)%Z -> (-1074 <= k)%Z ->
  redondear_positivo (inject_Z m * dos_a_la k) == inject_Z m * dos_a_la k.
Proof.
  intros Hm Hk.
  set (v := inject_Z m * dos_a_la k).
  assert (Hv : 0 < v).
  { unfold v. apply Qmult_lt_0_compat; [rewrite <- (Zlt_Qlt 0); lia | apply dos_a_la_pos]. }
  destruct (exponente_spec v Hv) as [E1 _].
  assert (Hlt : v < dos_a_la (53 + k)).
  { unfold v. rewrite dos_a_la_plus.
    apply Qmult_lt_compat_r; [apply dos_a_la_pos |].
    rewrite dos_a_la_Z by lia. rewrite <- Zlt_Qlt. lia. }
  assert (He : (exponente v < 53 + k)%Z).
  { apply dos_a_la_lt_inv. apply Qle_lt_trans with v; assumption. }
  unfold redondear_positivo. apply en_rejilla_multiplo. unfold unidad. lia.
Qed.

Lemma redondear_positivo_representable (x : Q) :
  0 < x ->
  exists m k : Z, (0 <= m < 2 ^ 53)%Z /\ (-1074 <= k)%Z /\
    redondear_positivo x == inject_Z m * dos_a_la k.
Proof.
  intros Hx. destruct (exponente_spec x Hx) as [_ E2].
  pose proof (redondear_positivo_no_negativo x Hx) as H0.
  unfold redondear_positivo, en_rejilla in *.
  set (u := unidad x) in *. set (M := redondeo_par (x / dos_a_la u)) in *.
  assert (HM0 : (0 <= M)%Z).
  { rewrite (Zle_Qle 0). apply (Qmult_le_r _ _ (dos_a_la u)); [apply dos_a_la_pos |].
    rewrite Qmult_0_l. exact H0. }
  assert (Hu : (-1074 <= u)%Z) by (unfold u, unidad; lia).
  assert (HM : (M <= 2 ^ 53)%Z /\ (M = 2 ^ 53 -> u = exponente x - 52)%Z).
  { assert (Hq : x / dos_a_la u < dos_a_la (exponente x + 1 - u)).
    { apply Qlt_shift_div_r; [apply dos_a_la_pos |].
      rewrite <- dos_a_la_plus. replace (exponente x + 1 - u + u)%Z with (exponente x + 1)%Z by lia.
      exact E2. }
    assert (Hcota : forall n : Z, (0 <= n)%Z -> (exponente x + 1 - u <= n)%Z -> (M <= 2 ^ n)%Z).
    { intros n Hn Hle. rewrite <- (redondeo_par_Z (2 ^ n)).
      apply redondeo_par_mono. rewrite <- dos_a_la_Z by exact Hn.
      apply Qlt_le_weak. apply Qlt_le_trans with (dos_a_la (exponente x + 1 - u)); [exact Hq |].
      apply dos_a_la_le. exact Hle. }
    split.
    - apply Hcota; unfold u, unidad; lia.
    - intros EM.
      destruct (Z.eq_dec u (exponente x - 52)) as [Eu | Nu]; [exact Eu | exfalso].
      assert (H52 : (M <= 2 ^ 52)%Z) by (apply Hcota; unfold u, unidad in *; lia).
      lia. }
  destruct HM as [HM1 HM2].
  destruct (Z.eq_dec M (2 ^ 53)) as [EM | NEM].
  - exists (2 ^ 52)%Z, (u + 1)%Z. split; [lia |]. split; [lia |].
    rewrite EM. rewrite (multiplo_de_unidad u (u + 1)) by lia.
    replace (u + 1 - u)%Z with 1%Z by lia. reflexivity.
  - exists M, u. split; [lia |]. split; [exact Hu | reflexivity].
Qed.


Lemma redondear_de_positivo (x : Q) : 0 < x -> redondear x == redondear_positivo x.
Proof.
  intros Hx. unfold redondear.
  assert (E : (x ?= 0) = Gt) by (apply Qgt_alt; exact Hx).
  rewrite E. apply Qred_correct.
Qed.

Lemma redondear_de_negativo (x : Q) : x < 0 -> redondear x == - redondear_positivo (- x).
Proof.
  intros Hx. unfold redondear.
  assert (E : (x ?= 0) = Lt) by (apply Qlt_alt; exact Hx).
  rewrite E. apply Qred_correct.
Qed.

Lemma redondear_de_cero (x : Q) : x == 0 -> redondear x = 0.
Proof.
  intros Hx. unfold redondear.
  assert (E : (x ?= 0) = Eq) by (apply Qeq_alt; exact Hx).
  now rewrite E.
Qed.

Lemma redondear_comp (x y : Q) : x == y -> redondear x = redondear y.
Proof.
  intros E. unfold redondear. rewrite <- (Qcompare_comp x y E 0 0 (Qeq_refl 0)).
  destruct (Qcompare_spec x 0) as [H | H | H].
  - reflexivity.
  - rewrite (redondear_positivo_comp (- x) (- y)); [reflexivity | lra | now rewrite E].
  - rewrite (redondear_positivo_comp x y H E). reflexivity.
Qed.

#[global] Instance redondear_Proper : Proper (Qeq ==> Qeq) redondear.
Proof. intros x y E. rewrite (redondear_comp x y E). reflexivity. Qed.

Lemma redondear_opp (x : Q) : redondear (- x) == - redondear x.
Proof.
  destruct (Qcompare_spec x 0) as [H | H | H].
  - rewrite (redondear_de_cero x H). rewrite (redondear_de_cero (- x)); [reflexivity | lra].
  - rewrite (redondear_de_negativo x H), (redondear_de_positivo (- x)) by lra. ring.
  - rewrite (redondear_de_positivo x H), (redondear_de_negativo (- x)) by lra.
    rewrite (redondear_positivo_comp (- - x) x); [reflexivity | lra | ring].
Qed.

Lemma redondear_no_negativo (x : Q) : 0 <= x -> 0 <= redondear x.
Proof.
  intros H. destruct (Qcompare_spec x 0) as [H0 | H0 | H0].
  - rewrite (redondear_de_cero x H0). apply Qle_refl.
  - exfalso. lra.
  - rewrite (redondear_de_positivo x H0). apply redondear_positivo_no_negativo. exact H0.
Qed.

Lemma redondear_no_positivo (x : Q) : x <= 0 -> redondear x <= 0.
Proof.
  intros H. assert (H' : 0 <= redondear (- x)) by (apply redondear_no_negativo; lra).
  rewrite redondear_opp in H'. lra.
Qed.

Lemma redondear_mono (x y : Q) : x <= y -> redondear x <= redondear y.
Proof.
  intros H. destruct (Qlt_le_dec 0 x) as [Hx | Hx].
  - rewrite (redondear_de_positivo x Hx), (redondear_de_positivo y) by lra.
    apply redondear_positivo_mono; assumption.
  - destruct (Qlt_le_dec y 0) as [Hy | Hy].
    + rewrite (redondear_de_negativo x), (redondear_de_negativo y Hy) by lra.
      apply Qopp_le_compat. apply redondear_positivo_mono; lra.
    + apply Qle_trans with 0; [apply redondear_no_positivo | apply redondear_no_negativo];
        assumption.
Qed.

Lemma redondear_fijo (v : Q) : representable v -> redondear v == v.
Proof.
  intros (m & k & Hm & Hk & E).
  destruct (Z.lt_trichotomy m 0) as [Hneg | [H0 | Hpos]].
  - assert (Hv : v < 0).
    { rewrite E. setoid_replace (inject_Z m * dos_a_la k) with (- (inject_Z (- m) * dos_a_la k))
        by (rewrite inject_Z_opp; ring).
      assert (0 < inject_Z (- m) * dos_a_la k); [| lra].
      apply Qmult_lt_0_compat; [rewrite <- (Zlt_Qlt 0); lia | apply dos_a_la_pos]. }
    rewrite (redondear_de_negativo v Hv).
    rewrite (redondear_positivo_comp (- v) (inject_Z (- m) * dos_a_la k)).
    + rewrite redondear_positivo_fijo by lia. rewrite E, inject_Z_opp. ring.
    + lra.
    + rewrite E, inject_Z_opp. ring.
  - subst m. rewrite (redondear_de_cero v); [| rewrite E; ring]. rewrite E. ring.
  - assert (Hv : 0 < v).
    { rewrite E. apply Qmult_lt_0_compat; [rewrite <- (Zlt_Qlt 0); lia | apply dos_a_la_pos]. }
    rewrite (redondear_de_positivo v Hv).
    rewrite (redondear_positivo_comp v _ Hv E).
    rewrite redondear_positivo_fijo by lia. symmetry. exact E.
Qed.

Lemma redondear_representable (x : Q) : representable (redondear x).
Proof.
  destruct (Qcompare_spec x 0) as [H | H | H].
  - rewrite (redondear_de_cero x H). exists 0%Z, 0%Z. split; [reflexivity | split; [lia | reflexivity]].
  - destruct (redondear_positivo_representable (- x)) as (m & k & Hm & Hk & E); [lra |].
    exists (- m)%Z, k. split; [lia |]. split; [exact Hk |].
    rewrite (redondear_de_negativo x H), E, inject_Z_opp. ring.
  - destruct (redondear_positivo_representable x H) as (m & k & Hm & Hk & E).
    exists m, k. split; [lia |]. split; [exact Hk |].
    rewrite (redondear_de_positivo x H). exact E.
Qed.

Lemma redondear_idem (x : Q) : redondear (redondear x) == redondear x.
Proof. apply redondear_fijo, redondear_representable. Qed.

Lemma entero_representable (n : Z) : (Z.abs n < 2 ^ 53)%Z -> representable (inject_Z n).
Proof.
  intros H. exists n, 0%Z. split; [exact H |]. split; [lia |].
  unfold dos_a_la. simpl. ring.
Qed.

Lemma redondear_entero (n : Z) : (Z.abs n < 2 ^ 53)%Z -> redondear (inject_Z n) == inject_Z n.
Proof. intros H. apply redondear_fijo, entero_representable, H. Qed.

Lemma redondear_canonico (x : Q) : Qred (redondear x) = redondear x.
Proof.
  unfold redondear.
  destruct (x ?= 0); [reflexivity | |]; apply Qred_complete, Qred_correct.
Qed.

(** Rounding a float gives it back, as the same fraction. *)
Lemma redondear_idempotente (x : Q) : redondear (redondear x) = redondear x.
Proof.
  rewrite <- (redondear_canonico (redondear x)), <- (redondear_canonico x).
  apply Qred_complete. rewrite (redondear_canonico x). apply redondear_idem.
Qed.

Lemma float_of_int_exacto (n : Z) :
  (Z.abs n < 2 ^ 53)%Z -> float_of_int n == inject_Z n.
Proof. apply redondear_entero. Qed.

Lemma float_of_int_0 : float_of_int 0 = 0.
Proof. reflexivity. Qed.

(** Rounding keeps a value between two integers below 2^53. *)
Lemma redondear_entre_enteros (a b : Z) (x : Q) :
  (Z.abs a < 2 ^ 53)%Z -> (Z.abs b < 2 ^ 53)%Z ->
  inject_Z a <= x <= inject_Z b ->
  inject_Z a <= redondear x <= inject_Z b.
Proof.
  intros Ha Hb [H1 H2]. split.
  - rewrite <- (redondear_entero a Ha). apply redondear_mono. exact H1.
  - rewrite <- (redondear_entero b Hb). apply redondear_mono. exact H2.
Qed.

Lemma fsub_cero (x : Q) : fsub (redondear x) (float_of_int 0) == redondear x.
Proof.
  unfold fsub. rewrite float_of_int_0.
  setoid_replace (redondear x - 0) with (redondear x) by ring.
  rewrite redondear_idempotente. reflexivity.
Qed.

Lemma fold_left_fadd_cotas (C : Z) (l : list Q) :
  (0 <= C)%Z ->
  Forall (fun q => 0 <= q <= inject_Z C) l ->
  forall (k : Z) (acc : Q),
    (0 <= k)%Z ->
    ((k + Z.of_nat (List.length l)) * C < 2 ^ 53)%Z ->
    0 <= acc <= inject_Z (k * C) ->
    0 <= fold_left fadd l acc
    <= inject_Z ((k + Z.of_nat (List.length l)) * C).
Proof.
  intros HC. induction 1 as [|q l [Hq1 Hq2] _ IH]; intros k acc Hk Hcota Hacc.
  - cbn [fold_left List.length]. replace (k + Z.of_nat 0)%Z with k by lia.
    exact Hacc.
  - cbn [fold_left]. cbn [List.length] in *.
    replace (k + Z.of_nat (S (List.length l)))%Z
      with ((k + 1) + Z.of_nat (List.length l))%Z in * by lia.
    apply IH; [lia | exact Hcota |].
    change 0 with (inject_Z 0). unfold fadd.
    assert (Hk1 : ((k + 1) * C < 2 ^ 53)%Z) by nia.
    apply redondear_entre_enteros; [lia | nia |].
    destruct Hacc as [Ha1 Ha2]. split.
    + change (inject_Z 0) with 0. lra.
    + replace ((k + 1) * C)%Z with (k * C + C)%Z by lia.
      rewrite inject_Z_plus. lra.
Qed.

(** The float mean of up to 2^40 values between 0 and an integer [C] below
    4096 lies between 0 and [C]. *)
Lemma media_float_cotas (C : Z) (l : list Q) :
  (0 <= C < 4096)%Z -> l <> [] ->
  (Z.of_nat (List.length l) < 2 ^ 40)%Z ->
  Forall (fun q => 0 <= q <= inject_Z C) l ->
  0 <= media_float l <= inject_Z C.
Proof.
  intros HC Hne Hlen Hall. unfold media_float, sum_float, fdiv.
  set (n := Z.of_nat (List.length l)) in *.
  assert (Hn : (0 < n)%Z).
  { unfold n. destruct l; [contradiction | cbn [List.length]; lia]. }
  assert (H53 : (n * C < 2 ^ 53)%Z).
  { assert (n * C <= 2 ^ 40 * 4096)%Z by nia.
    change (2 ^ 40 * 4096)%Z with (2 ^ 52)%Z in *. lia. }
  destruct (fold_left_fadd_cotas C l (proj1 HC) Hall 0 0 (Z.le_refl 0))
    as [Hs1 Hs2].
  - exact H53.
  - split; [apply Qle_refl | apply Qle_refl].
  - fold n in Hs2. replace (0 + n)%Z with n in Hs2 by lia.
    rewrite float_of_int_exacto by lia.
    assert (Hnq : 0 < inject_Z n) by (rewrite <- (Zlt_Qlt 0); exact Hn).
    change 0 with (inject_Z 0).
    apply redondear_entre_enteros; [lia | lia |]. split.
    + apply Qle_shift_div_l; [exact Hnq |]. change (inject_Z 0) with 0. lra.
    + apply Qle_shift_div_r; [exact Hnq |].
      rewrite <- inject_Z_mult. rewrite Z.mul_comm. exact Hs2.
Qed.

End Flotantes.

(** ** Facts about the query helpers *)

Section OrderByFacts.
Context {A : Type} (clave : A -> Z).

Lemma insertar_desc_perm (x : A) (l : list A) :
  Permutation (insertar_desc clave x l) (x :: l).
Proof.
  induction l as [|y l IH]; simpl.
  - apply Permutation_refl.
  - destruct (clave x <? clave y).
    + eapply perm_trans; [apply perm_skip, IH | apply perm_swap].
    + apply Permutation_refl.
Qed.

Lemma order_by_desc_perm (l : list A) :
  Permutation (order_by_desc clave l) l.
Proof.
  induction l as [|x l IH]; simpl.
  - constructor.
  - eapply perm_trans; [apply insertar_desc_perm | now apply perm_skip].
Qed.

Lemma order_by_desc_In (l : list A) (x : A) :
  In x (order_by_desc clave l) <-> In x l.
Proof.
  split; apply Permutation_in;
    [apply order_by_desc_perm | apply Permutation_sym, order_by_desc_perm].
Qed.

Lemma insertar_desc_sorted (x : A) (l : list A) :
  StronglySorted (desc clave) l ->
  StronglySorted (desc clave) (insertar_desc clave x l).
Proof.
  induction 1 as [|y l Hs IH Hy]; simpl.
  - repeat constructor.
  - destruct (Z.ltb_spec (clave x) (clave y)) as [Hlt|Hge].
    + constructor; [exact IH|].
      rewrite Forall_forall in *. intros z Hz.
      apply (Permutation_in _ (insertar_desc_perm x l)) in Hz.
      destruct Hz as [<-|Hz]; [unfold desc; lia | now apply Hy].
    + constructor; [now constructor|].
      constructor; [exact Hge|].
      rewrite Forall_forall in *. intros z Hz.
      specialize (Hy z Hz). unfold desc in *. lia.
Qed.

Lemma order_by_desc_sorted (l : list A) :
  StronglySorted (desc clave) (order_by_desc clave l).
Proof.
  induction l as [|x l IH]; simpl.
  - constructor.
  - now apply insertar_desc_sorted.
Qed.

Lemma hd_order_by_desc_Some (l : list A) (x : A) :
  hd_error (order_by_desc clave l) = Some x ->
  In x l /\ forall y, In y l -> clave y <= clave x.
Proof.
  intros Hhd.
  pose proof (order_by_desc_sorted l) as Hs.
  destruct (order_by_desc clave l) as [|z s] eqn:E; [discriminate|].
  injection Hhd as ->.
  assert (Hin : forall y, In y l <-> In y (x :: s)).
  { intros y. rewrite <- E. symmetry. apply order_by_desc_In. }
  split.
  - apply Hin. now left.
  - intros y Hy. apply Hin in Hy. inversion_clear Hs as [|? ? _ Hall].
    destruct Hy as [<-|Hy]; [lia|].
    rewrite Forall_forall in Hall. now apply Hall.
Qed.

Lemma hd_order_by_desc_None (l : list A) :
  hd_error (order_by_desc clave l) = None <-> l = [].
Proof.
  split.
  - intros Hhd. destruct l as [|x l]; [reflexivity|].
    assert (Hin : In x (order_by_desc clave (x :: l)))
      by (apply order_by_desc_In; now left).
    destruct (order_by_desc clave (x :: l)); [destruct Hin | discriminate].
  - now intros ->.
Qed.

Lemma sorted_firstn_skipn (n : nat) (l : list A) (a b : A) :
  StronglySorted (desc clave) l ->
  In a (firstn n l) -> In b (skipn n l) -> clave b <= clave a.
Proof.
  intros Hs. revert n.
  induction Hs as [|x l Hs IH Hx]; intros n Ha Hb.
  - destruct n; destruct Ha.
  - destruct n as [|n]; [destruct Ha|].
    simpl in Ha, Hb. destruct Ha as [<-|Ha].
    + rewrite Forall_forall in Hx. apply Hx.
      rewrite <- (firstn_skipn n l). apply in_or_app. now right.
    + now apply (IH n).
Qed.
End OrderByFacts.

Lemma hd_error_map_Some {A B : Type} (f : A -> B) (l : list A) (b : B) :
  hd_error (map f l) = Some b <-> exists a, hd_error l = Some a /\ f a = b.
Proof.
  destruct l as [|a l]; simpl; split.
  - discriminate.
  - intros [a [Ha _]]. discriminate.
  - intros [= <-]. now exists a.
  - intros [a' [[= <-] <-]]. reflexivity.
Qed.

Lemma consultar_ultimo_ciclo_spec (db : BaseDatos) (id_operario : Z)
    (t : datetime) :
  consultar_ultimo_ciclo db id_operario = Some t
  <-> es_ultimo_ciclo db id_operario t.
Proof.
  unfold consultar_ultimo_ciclo, es_ultimo_ciclo.
  rewrite hd_error_map_Some. split.
  - intros [c [Hhd <-]].
    apply hd_order_by_desc_Some in Hhd. destruct Hhd as [Hin Hmax].
    apply filter_In in Hin. destruct Hin as [Hin Hop].
    apply Z.eqb_eq in Hop. split.
    + now exists c.
    + intros c' Hin' Hop'. apply Hmax.
      apply filter_In. split; [exact Hin'|]. now apply Z.eqb_eq.
  - intros [[c [Hin [Hop Ht]]] Hmax].
    assert (Hc : In c (filter (fun c => rc_id_operario c =? id_operario)
                               (Registros_Ciclos db))).
    { apply filter_In. split; [exact Hin|]. now apply Z.eqb_eq. }
    destruct (hd_error (order_by_desc marca_tiempo
                (filter (fun c => rc_id_operario c =? id_operario)
                        (Registros_Ciclos db)))) as [c'|] eqn:E.
    + exists c'. split; [reflexivity|].
      apply hd_order_by_desc_Some in E. destruct E as [Hin' Hmax'].
      specialize (Hmax' c Hc).
      apply filter_In in Hin'. destruct Hin' as [Hin' Hop'].
      apply Z.eqb_eq in Hop'. specialize (Hmax c' Hin' Hop'). lia.
    + apply hd_order_by_desc_None in E. rewrite E in Hc. destruct Hc.
Qed.

Lemma consultar_ultimo_ciclo_None (db : BaseDatos) (id_operario : Z) :
  consultar_ultimo_ciclo db id_operario = None
  <-> sin_ciclos_previos db id_operario.
Proof.
  unfold consultar_ultimo_ciclo, sin_ciclos_previos. split.
  - intros Hhd c Hin Hop.
    destruct (order_by_desc marca_tiempo
                (filter (fun c => rc_id_operario c =? id_operario)
                        (Registros_Ciclos db))) as [|c' s] eqn:E;
      [|discriminate].
    assert (Hc : In c (order_by_desc marca_tiempo
                (filter (fun c => rc_id_operario c =? id_operario)
                        (Registros_Ciclos db)))).
    { apply order_by_desc_In, filter_In. split; [exact Hin|].
      now apply Z.eqb_eq. }
    rewrite E in Hc. destruct Hc.
  - intros Hnone.
    destruct (filter (fun c => rc_id_operario c =? id_operario)
                     (Registros_Ciclos db)) as [|c s] eqn:E;
      [reflexivity|].
    assert (Hc : In c (filter (fun c => rc_id_operario c =? id_operario)
                               (Registros_Ciclos db)))
      by (rewrite E; now left).
    apply filter_In in Hc. destruct Hc as [Hin Hop].
    apply Z.eqb_eq in Hop. now destruct (Hnone c Hin).
Qed.

Lemma consultar_pausas_sin_finalizar_spec (db : BaseDatos) (id_operario : Z)
    (desde hasta : datetime) :
  (consultar_pausas_sin_finalizar db id_operario desde hasta >? 0) = true
  <-> pausa_abierta_en_ventana db id_operario desde hasta.
Proof.
  unfold consultar_pausas_sin_finalizar, pausa_abierta_en_ventana.
  set (f := fun p : RegistroPausa => _).
  assert (Hf : forall p, f p = true <->
             rp_id_operario p = id_operario /\ finalizada p = false
             /\ desde < hora_inicio_pausa p < hasta).
  { intros p. unfold f, en_ventana.
    rewrite !andb_true_iff, Z.eqb_eq, !Z.ltb_lt, eqb_true_iff. tauto. }
  split.
  - intros Hpos. destruct (filter f (Registros_Pausas db)) as [|p s] eqn:E.
    + discriminate.
    + assert (Hp : In p (filter f (Registros_Pausas db)))
        by (rewrite E; now left).
      apply filter_In in Hp. destruct Hp as [Hin Hp]. apply Hf in Hp.
      exists p. tauto.
  - intros [p [Hin Hp]].
    assert (Hp' : In p (filter f (Registros_Pausas db))).
    { apply filter_In. split; [exact Hin|]. apply Hf. tauto. }
    destruct (filter f (Registros_Pausas db)); [destruct Hp'|].
    apply Z.gtb_lt. simpl List.length. lia.
Qed.

Lemma coalesce_sql_sum (ps : list RegistroPausa) :
  coalesce (sql_sum (map duracion_s ps)) 0 = suma_duraciones ps.
Proof.
  induction ps as [|p ps IH]; simpl; [reflexivity|].
  destruct (duracion_s p) as [d|]; [|exact IH].
  rewrite <- IH. destruct (sql_sum (map duracion_s ps)); simpl; lia.
Qed.

Lemma consultar_tiempo_total_pausas_spec (db : BaseDatos) (id_operario : Z)
    (desde hasta : datetime) :
  consultar_tiempo_total_pausas db id_operario desde hasta
  = suma_duraciones (pausas_cerradas_en_ventana db id_operario desde hasta).
Proof.
  unfold consultar_tiempo_total_pausas, pausas_cerradas_en_ventana.
  rewrite coalesce_sql_sum. f_equal. apply filter_ext.
  intros p. unfold en_ventana.
  destruct (finalizada p); simpl; now rewrite ?andb_assoc.
Qed.

Lemma pausas_cerradas_en_ventana_In (db : BaseDatos) (id_operario : Z)
    (desde hasta : datetime) (p : RegistroPausa) :
  In p (pausas_cerradas_en_ventana db id_operario desde hasta)
  <-> In p (Registros_Pausas db)
      /\ rp_id_operario p = id_operario
      /\ finalizada p = true
      /\ desde < hora_inicio_pausa p < hasta.
Proof.
  unfold pausas_cerradas_en_ventana.
  rewrite filter_In, !andb_true_iff, Z.eqb_eq, !Z.ltb_lt. tauto.
Qed.

Lemma Qgt_bool_false (x y : Q) : Qgt_bool x y = false <-> (x <= y)%Q.
Proof.
  unfold Qgt_bool. rewrite negb_false_iff. apply Qle_bool_iff.
Qed.

Lemma Qlt_bool_false (x y : Q) : Qlt_bool x y = false <-> (y <= x)%Q.
Proof.
  unfold Qlt_bool. rewrite negb_false_iff. apply Qle_bool_iff.
Qed.



(** The cycle time, case by case. *)
Lemma calcular_tiempo_ciclo_sin_previo (db : BaseDatos) (id_operario : Z)
    (ahora : datetime) :
  sin_ciclos_previos db id_operario ->
  calcular_tiempo_ciclo db id_operario ahora = None.
Proof.
  intros H. apply consultar_ultimo_ciclo_None in H.
  unfold calcular_tiempo_ciclo. now rewrite H.
Qed.

Lemma calcular_tiempo_ciclo_pausa_abierta (db : BaseDatos) (id_operario : Z)
    (ahora ultimo : datetime) :
  es_ultimo_ciclo db id_operario ultimo ->
  pausa_abierta_en_ventana db id_operario ultimo ahora ->
  calcular_tiempo_ciclo db id_operario ahora = None.
Proof.
  intros Hu Hp. apply consultar_ultimo_ciclo_spec in Hu.
  apply consultar_pausas_sin_finalizar_spec in Hp.
  unfold calcular_tiempo_ciclo. now rewrite Hu, Hp.
Qed.

Lemma calcular_tiempo_ciclo_sin_pausa_abierta (db : BaseDatos)
    (id_operario : Z) (ahora ultimo : datetime) :
  es_ultimo_ciclo db id_operario ultimo ->
  ~ pausa_abierta_en_ventana db id_operario ultimo ahora ->
  let d := fsub (redondear (total_seconds (ahora - ultimo)))
                (float_of_int
                   (suma_duraciones
                      (pausas_cerradas_en_ventana db id_operario ultimo
                                                  ahora))) in
  calcular_tiempo_ciclo db id_operario ahora
  = if Qgt_bool d (300 # 1) || Qlt_bool d (0 # 1) then None else Some d.
Proof.
  intros Hu Hp d. apply consultar_ultimo_ciclo_spec in Hu.
  rewrite <- consultar_pausas_sin_finalizar_spec in Hp.
  apply not_true_is_false in Hp.
  unfold calcular_tiempo_ciclo.
  rewrite Hu, Hp, consultar_tiempo_total_pausas_spec. reflexivity.
Qed.

Lemma calcular_tiempo_ciclo_cota (db : BaseDatos) (id_operario : Z)
    (ahora : datetime) (d : Q) :
  calcular_tiempo_ciclo db id_operario ahora = Some d ->
  (0 <= d <= 300)%Q.
Proof.
  unfold calcular_tiempo_ciclo.
  destruct (consultar_ultimo_ciclo db id_operario) as [u|]; [|discriminate].
  destruct (_ >? 0); [discriminate|].
  destruct (Qgt_bool _ _) eqn:Hgt; [discriminate|].
  destruct (Qlt_bool _ _) eqn:Hlt; [discriminate|].
  simpl. intros [= <-].
  apply Qgt_bool_false in Hgt. apply Qlt_bool_false in Hlt. now split.
Qed.

(** The handler answers exactly when the operator has an active task. *)
Lemma registrar_ciclo_Ok (ciclo : CicloRequest) (ahora : datetime)
    (current_date : date) (db : BaseDatos) (tarea : Tarea) :
  consultar_tarea_activa db (c_id_operario ciclo) = Some tarea ->
  let tiempo := calcular_tiempo_ciclo db (c_id_operario ciclo) ahora in
  let promedio :=
    calcular_promedio tiempo
      (consultar_ultimos_ciclos db (c_id_operario ciclo) current_date) in
  let est := determinar_estado promedio
               (redondear (umbral_excelente_s tarea))
               (redondear (umbral_lento_s tarea)) in
  let fila := mkRegistroCiclo (sig_id_registro db) (c_id_operario ciclo)
                (t_id_tarea tarea) ahora tiempo promedio est (date_of ahora) in
  registrar_ciclo ciclo ahora current_date db
  = (mkBaseDatos (Operario_Tarea db) (Tareas db)
                 (Registros_Ciclos db ++ [fila])%list (Registros_Pausas db)
                 (sig_id_registro db + 1) (sig_id_pausa db),
     Ok (mkCicloResponse (sig_id_registro db) tiempo promedio est
           (contar_ciclos_hoy (Registros_Ciclos db ++ [fila])%list
                              (c_id_operario ciclo) current_date))).
Proof.
  intros H. unfold registrar_ciclo, get_db_connection, registrar_ciclo_cuerpo.
  now rewrite H.
Qed.

Lemma registrar_ciclo_Ok_inv (ciclo : CicloRequest) (ahora : datetime)
    (current_date : date) (db : BaseDatos) (r : CicloResponse) :
  snd (registrar_ciclo ciclo ahora current_date db) = Ok r ->
  exists tarea, consultar_tarea_activa db (c_id_operario ciclo) = Some tarea.
Proof.
  unfold registrar_ciclo, get_db_connection, registrar_ciclo_cuerpo.
  destruct (consultar_tarea_activa db (c_id_operario ciclo)) as [t|].
  - intros _. now exists t.
  - discriminate.
Qed.

(** ** The cycle time *)

(** C9. When the operator has no cycle record yet, the handler answers with
    neither a cycle time nor an average. *)
Theorem primer_ciclo_sin_tiempo_ni_promedio (db : BaseDatos)
    (ciclo : CicloRequest) (ahora : datetime) (current_date : date)
    (tarea : Tarea) :
  consultar_tarea_activa db (c_id_operario ciclo) = Some tarea ->
  sin_ciclos_previos db (c_id_operario ciclo) ->
  exists r, snd (registrar_ciclo ciclo ahora current_date db) = Ok r
            /\ r_tiempo_ciclo_s r = None
            /\ r_promedio_5_ciclos r = None.
Proof.
  intros Ht Hsin.
  rewrite (registrar_ciclo_Ok ciclo ahora current_date db tarea Ht).
  eexists. split; [reflexivity|]. simpl.
  rewrite (calcular_tiempo_ciclo_sin_previo _ _ _ Hsin). now split.
Qed.

Lemma primer_ciclo_sin_tiempo_ni_promedio_witness :
  exists r, snd (registrar_ciclo op_ejemplo t_previo 0 db_inicial) = Ok r
            /\ r_tiempo_ciclo_s r = None
            /\ r_promedio_5_ciclos r = None.
Proof.
  apply (primer_ciclo_sin_tiempo_ni_promedio db_inicial op_ejemplo t_previo 0
           tarea_ejemplo).
  - reflexivity.
  - intros c Hin. destruct Hin.
Defined.

(** Whole seconds below 2^52 are subtracted without rounding. *)
Lemma fsub_segundos_enteros (k n : Z) :
  Z.abs k < 2 ^ 52 -> Z.abs n < 2 ^ 52 ->
  (fsub (redondear (total_seconds (segundos k))) (float_of_int n)
   == inject_Z (k - n))%Q.
Proof.
  intros Hk Hn. unfold fsub.
  assert (E : (total_seconds (segundos k) == inject_Z k)%Q).
  { unfold total_seconds, segundos, inject_Z, Qeq. cbn [Qnum Qden]. lia. }
  rewrite E, (redondear_entero k), (float_of_int_exacto n) by lia.
  setoid_replace (inject_Z k - inject_Z n)%Q with (inject_Z (k - n))
    by (unfold Z.sub; rewrite inject_Z_plus, inject_Z_opp; reflexivity).
  apply redondear_entero. lia.
Qed.

(** C1, as amended. With a previous cycle at [ultimo], no unfinished pause
    started in the window and the result within the outlier bounds, the
    cycle time is the float difference of the seconds elapsed since
    [ultimo] and the summed durations of the operator's finished pauses
    that started strictly between [ultimo] and now: the elapsed seconds
    rounded to a float, the sum converted to a float, and their difference
    rounded again.  When the elapsed time is a whole number of seconds it
    is exactly the elapsed seconds minus the sum. *)
Theorem tiempo_ciclo_descuenta_pausas_cerradas (db : BaseDatos)
    (ciclo : CicloRequest) (ahora : datetime) (current_date : date)
    (tarea : Tarea) (ultimo : datetime) :
  consultar_tarea_activa db (c_id_operario ciclo) = Some tarea ->
  es_ultimo_ciclo db (c_id_operario ciclo) ultimo ->
  ~ pausa_abierta_en_ventana db (c_id_operario ciclo) ultimo ahora ->
  let suma :=
    suma_duraciones
      (pausas_cerradas_en_ventana db (c_id_operario ciclo) ultimo ahora) in
  let d := fsub (redondear (total_seconds (ahora - ultimo)))
                (float_of_int suma) in
  (0 <= d <= 300)%Q ->
  exists r, snd (registrar_ciclo ciclo ahora current_date db) = Ok r
            /\ r_tiempo_ciclo_s r = Some d
            /\ forall k, ahora - ultimo = segundos k ->
                         Z.abs k < 2 ^ 52 -> Z.abs suma < 2 ^ 52 ->
                         (d == inject_Z (k - suma))%Q.
Proof.
  intros Ht Hu Hp suma d [Hlo Hhi].
  rewrite (registrar_ciclo_Ok ciclo ahora current_date db tarea Ht).
  eexists. split; [reflexivity|]. cbn [snd r_tiempo_ciclo_s]. split.
  - rewrite (calcular_tiempo_ciclo_sin_pausa_abierta _ _ _ _ Hu Hp).
    fold suma. fold d.
    apply Qgt_bool_false in Hhi. apply Qlt_bool_false in Hlo.
    now rewrite Hhi, Hlo.
  - intros k Hk Hk52 Hs52. unfold d. rewrite Hk.
    now apply fsub_segundos_enteros.
Qed.

Lemma tiempo_ciclo_descuenta_pausas_cerradas_witness :
  exists r d,
    snd (registrar_ciclo op_ejemplo (t_previo + segundos 20) 0
           db_pausa_cerrada) = Ok r
    /\ r_tiempo_ciclo_s r = Some d
    /\ (d == 15 # 1)%Q.
Proof.
  destruct (tiempo_ciclo_descuenta_pausas_cerradas db_pausa_cerrada
              op_ejemplo (t_previo + segundos 20) 0 tarea_ejemplo t_previo)
    as [r [Hr [Hd Hk]]].
  - reflexivity.
  - ultimo_de_un_ciclo.
  - intros [p [[<-|[]] [_ [Hf _]]]]. discriminate Hf.
  - vm_compute. split; discriminate.
  - exists r. eexists. split; [exact Hr|]. split; [exact Hd|].
    rewrite (Hk 20); [reflexivity | reflexivity | | ]; vm_compute; reflexivity.
Defined.

(** C1, as stated, fails.  In [db_pausa_cerrada] a cycle 20.1 s after the
    previous one meets every condition of the claim and the elapsed seconds
    minus the 5 s pause are 15.1, yet the handler answers
    15.100000000000001: neither 15.1 nor the float nearest to it. *)
Lemma resta_de_floats_counterexample :
  es_ultimo_ciclo db_pausa_cerrada 3582 t_previo
  /\ ~ pausa_abierta_en_ventana db_pausa_cerrada 3582 t_previo
         (t_previo + 20100000)
  /\ (total_seconds (t_previo + 20100000 - t_previo)%Z
      - inject_Z (suma_duraciones
          (pausas_cerradas_en_ventana db_pausa_cerrada 3582 t_previo
             (t_previo + 20100000)%Z)) == 151 # 10)%Q
  /\ exists r d,
       snd (registrar_ciclo op_ejemplo (t_previo + 20100000) 0
              db_pausa_cerrada) = Ok r
       /\ r_tiempo_ciclo_s r = Some d
       /\ (0 <= d <= 300)%Q
       /\ (d == 2125136074165453 # 140737488355328)%Q
       /\ ~ (d == 151 # 10)%Q
       /\ ~ (d == redondear (151 # 10))%Q.
Proof.
  split; [|split; [|split]].
  - ultimo_de_un_ciclo.
  - intros [p [[<-|[]] [_ [Hf _]]]]. discriminate Hf.
  - vm_compute. reflexivity.
  - eexists. eexists. split; [vm_compute; reflexivity|].
    split; [reflexivity|].
    split; [vm_compute; split; discriminate|].
    split; [vm_compute; reflexivity|].
    split; intros H; vm_compute in H; discriminate H.
Qed.

(** C2, as amended. With a previous cycle at [ultimo], an unfinished pause
    of the operator whose start lies strictly between [ultimo] and now
    leaves the cycle time unknown, whatever the elapsed time. *)
Theorem pausa_abierta_en_ventana_anula_tiempo (db : BaseDatos)
    (ciclo : CicloRequest) (ahora : datetime) (current_date : date)
    (tarea : Tarea) (ultimo : datetime) :
  consultar_tarea_activa db (c_id_operario ciclo) = Some tarea ->
  es_ultimo_ciclo db (c_id_operario ciclo) ultimo ->
  pausa_abierta_en_ventana db (c_id_operario ciclo) ultimo ahora ->
  exists r, snd (registrar_ciclo ciclo ahora current_date db) = Ok r
            /\ r_tiempo_ciclo_s r = None.
Proof.
  intros Ht Hu Hp.
  rewrite (registrar_ciclo_Ok ciclo ahora current_date db tarea Ht).
  eexists. split; [reflexivity|]. simpl.
  exact (calcular_tiempo_ciclo_pausa_abierta _ _ _ _ Hu Hp).
Qed.

Lemma pausa_abierta_en_ventana_anula_tiempo_witness :
  exists r,
    snd (registrar_ciclo op_ejemplo (t_previo + segundos 20) 0
           db_pausa_abierta) = Ok r
    /\ r_tiempo_ciclo_s r = None.
Proof.
  apply (pausa_abierta_en_ventana_anula_tiempo db_pausa_abierta op_ejemplo
           (t_previo + segundos 20) 0 tarea_ejemplo t_previo).
  - reflexivity.
  - ultimo_de_un_ciclo.
  - eexists. split; [left; reflexivity|].
    split; [reflexivity|]. split; [reflexivity|]. vm_compute.
    split; reflexivity.
Defined.

(** C2, as stated, fails.  In [db_pausa_abierta_previa] the operator's pause
    opened 5 s before the previous cycle is still unfinished, so it overlaps
    the whole window up to 20 s after that cycle; the handler nevertheless
    answers with a cycle time of 20 s. *)
Lemma pausa_abierta_previa_counterexample :
  es_ultimo_ciclo db_pausa_abierta_previa 3582 t_previo
  /\ (exists p, In p (Registros_Pausas db_pausa_abierta_previa)
                /\ rp_id_operario p = 3582
                /\ finalizada p = false
                /\ hora_fin_pausa p = None
                /\ pausa_solapa_ventana t_previo (t_previo + segundos 20) p)
  /\ exists r d,
       snd (registrar_ciclo op_ejemplo (t_previo + segundos 20) 0
              db_pausa_abierta_previa) = Ok r
       /\ r_tiempo_ciclo_s r = Some d
       /\ (d == 20 # 1)%Q.
Proof.
  split; [|split].
  - apply consultar_ultimo_ciclo_spec. reflexivity.
  - eexists. split; [left; reflexivity|].
    repeat (split; [reflexivity|]). exact I.
  - eexists. eexists. split; [vm_compute; reflexivity|].
    split; [reflexivity|]. vm_compute. reflexivity.
Qed.

(** C4. Whatever the input, an answered cycle time lies between 0 and 300
    seconds; otherwise it is unknown and so is the average.  In particular
    a computed difference above 300 or below 0 is never answered. *)
Theorem tiempo_ciclo_acotado (db : BaseDatos) (ciclo : CicloRequest)
    (ahora : datetime) (current_date : date) (r : CicloResponse) :
  snd (registrar_ciclo ciclo ahora current_date db) = Ok r ->
  match r_tiempo_ciclo_s r with
  | Some d => (0 <= d <= 300)%Q
  | None => r_promedio_5_ciclos r = None
  end
  /\ forall ultimo,
       es_ultimo_ciclo db (c_id_operario ciclo) ultimo ->
       let d := fsub (redondear (total_seconds (ahora - ultimo)))
                     (float_of_int
                        (suma_duraciones
                           (pausas_cerradas_en_ventana db
                              (c_id_operario ciclo) ultimo ahora))) in
       (300 < d \/ d < 0)%Q ->
       r_tiempo_ciclo_s r = None /\ r_promedio_5_ciclos r = None.
Proof.
  intros Hr.
  destruct (registrar_ciclo_Ok_inv _ _ _ _ _ Hr) as [tarea Ht].
  rewrite (registrar_ciclo_Ok ciclo ahora current_date db tarea Ht) in Hr.
  simpl in Hr. injection Hr as <-.
  cbn [r_tiempo_ciclo_s r_promedio_5_ciclos].
  assert (Hnone : calcular_tiempo_ciclo db (c_id_operario ciclo) ahora = None ->
                  calcular_promedio
                    (calcular_tiempo_ciclo db (c_id_operario ciclo) ahora)
                    (consultar_ultimos_ciclos db (c_id_operario ciclo)
                                              current_date) = None)
    by (now intros ->).
  split.
  - destruct (calcular_tiempo_ciclo db (c_id_operario ciclo) ahora) as [d|]
      eqn:E.
    + exact (calcular_tiempo_ciclo_cota _ _ _ _ E).
    + reflexivity.
  - intros ultimo Hu Hout.
    set (d := fsub _ _) in Hout.
    assert (E : calcular_tiempo_ciclo db (c_id_operario ciclo) ahora = None).
    { destruct (calcular_tiempo_ciclo db (c_id_operario ciclo) ahora) as [d'|]
        eqn:E; [|reflexivity].
      exfalso.
      pose proof (calcular_tiempo_ciclo_cota _ _ _ _ E) as [Hlo Hhi].
      apply consultar_ultimo_ciclo_spec in Hu.
      unfold calcular_tiempo_ciclo in E. rewrite Hu in E.
      rewrite consultar_tiempo_total_pausas_spec in E.
      destruct (_ >? 0); [discriminate|].
      fold d in E.
      destruct (Qgt_bool d (300 # 1) || Qlt_bool d (0 # 1)); [discriminate|].
      injection E as <-.
      destruct Hout as [Hout|Hout].
      - exact (Qlt_not_le _ _ Hout Hhi).
      - exact (Qlt_not_le _ _ Hout Hlo). }
    split; [exact E | exact (Hnone E)].
Qed.

Lemma tiempo_ciclo_acotado_witness :
  exists r,
    snd (registrar_ciclo op_ejemplo (t_previo + segundos 400) 0 db_un_ciclo)
    = Ok r
    /\ r_tiempo_ciclo_s r = None
    /\ r_promedio_5_ciclos r = None.
Proof.
  destruct (snd (registrar_ciclo op_ejemplo (t_previo + segundos 400) 0
                   db_un_ciclo)) as [r|c x] eqn:E;
    [|vm_compute in E; discriminate E].
  exists r. split; [reflexivity|].
  refine (proj2 (tiempo_ciclo_acotado db_un_ciclo op_ejemplo
                   (t_previo + segundos 400) 0 r E) t_previo _ _).
  - ultimo_de_un_ciclo.
  - left. vm_compute. reflexivity.
Defined.

(** ** The rolling average *)

Lemma fold_left_Qplus_acc (l : list Q) (a : Q) :
  (fold_left Qplus l a == a + fold_right Qplus (0 # 1) l)%Q.
Proof.
  revert a. induction l as [|x l IH]; intros a; simpl.
  - ring.
  - rewrite IH. ring.
Qed.

Lemma Qsum_fold_right (l : list Q) :
  (Qsum l == fold_right Qplus (0 # 1) l)%Q.
Proof.
  unfold Qsum. rewrite fold_left_Qplus_acc. ring.
Qed.

Lemma Qsum_Qlen_media (l : list Q) :
  (Qsum l / Qlen l == media_aritmetica l)%Q.
Proof.
  unfold media_aritmetica, Qlen. now rewrite Qsum_fold_right.
Qed.

Lemma ciclos_validos_hoy_In (db : BaseDatos) (id_operario : Z)
    (current_date : date) (c : RegistroCiclo) :
  In c (ciclos_validos_hoy db id_operario current_date)
  <-> In c (Registros_Ciclos db)
      /\ rc_id_operario c = id_operario
      /\ (exists q, tiempo_ciclo_s c = Some q)
      /\ fecha_registro c = current_date.
Proof.
  unfold ciclos_validos_hoy.
  rewrite filter_In, !andb_true_iff, !Z.eqb_eq.
  assert (Hn : es_no_nulo (tiempo_ciclo_s c) = true
               <-> exists q, tiempo_ciclo_s c = Some q).
  { destruct (tiempo_ciclo_s c) as [q|]; simpl; split.
    - intros _. now exists q.
    - reflexivity.
    - discriminate.
    - intros [q Hq]. discriminate. }
  tauto.
Qed.

Lemma sorted_firstn {A : Type} (R : A -> A -> Prop) (n : nat) (l : list A) :
  StronglySorted R l -> StronglySorted R (firstn n l).
Proof.
  intros Hs. revert n. induction Hs as [|x l Hs IH Hx]; intros [|n]; simpl;
    try constructor.
  - apply IH.
  - rewrite Forall_forall in *. intros y Hy. apply Hx.
    rewrite <- (firstn_skipn n l). apply in_or_app. now left.
Qed.

(** The rows selected by step 3 are the up to 4 most recent valid rows,
    the most recent first. *)
Lemma consultar_ultimos_ciclos_spec (db : BaseDatos) (id_operario : Z)
    (current_date : date) :
  exists resto,
    Permutation (consultar_ultimos_ciclos db id_operario current_date ++ resto)
                (ciclos_validos_hoy db id_operario current_date)
    /\ List.length (consultar_ultimos_ciclos db id_operario current_date)
       = Nat.min 4 (List.length
                      (ciclos_validos_hoy db id_operario current_date))
    /\ (forall a b,
          In a (consultar_ultimos_ciclos db id_operario current_date) ->
          In b resto -> marca_tiempo b <= marca_tiempo a)
    /\ StronglySorted (desc marca_tiempo)
         (consultar_ultimos_ciclos db id_operario current_date).
Proof.
  unfold consultar_ultimos_ciclos.
  fold (ciclos_validos_hoy db id_operario current_date).
  set (validos := ciclos_validos_hoy db id_operario current_date).
  set (s := order_by_desc marca_tiempo validos).
  exists (skipn 4 s). split; [|split; [|split]].
  - rewrite firstn_skipn. apply order_by_desc_perm.
  - rewrite length_firstn. unfold s.
    now rewrite (Permutation_length (order_by_desc_perm marca_tiempo validos)).
  - intros a b Ha Hb.
    exact (sorted_firstn_skipn marca_tiempo 4 s a b
             (order_by_desc_sorted marca_tiempo validos) Ha Hb).
  - apply sorted_firstn. apply order_by_desc_sorted.
Qed.

(** With a cycle time, the average is the float mean of that time followed
    by the times of the selected rows. *)
Lemma calcular_promedio_Some (d : Q) (ultimos_ciclos : list RegistroCiclo) :
  calcular_promedio (Some d) ultimos_ciclos
  = Some (media_float
            (d :: map (fun c => float_de_columna (tiempo_ciclo_s c))
                      ultimos_ciclos)).
Proof. reflexivity. Qed.

(** An average is a float. *)
Lemma calcular_promedio_float (t : option Q) (l : list RegistroCiclo)
    (a : Q) :
  calcular_promedio t l = Some a -> redondear a = a.
Proof.
  destruct t as [d|]; [|discriminate]. rewrite calcular_promedio_Some.
  intros [= <-]. apply redondear_idempotente.
Qed.

(** The rows whose times enter the average of an answered cycle time. *)
Lemma promedio_de_los_ultimos (db : BaseDatos) (ciclo : CicloRequest)
    (ahora : datetime) (current_date : date) (r : CicloResponse) (d : Q) :
  snd (registrar_ciclo ciclo ahora current_date db) = Ok r ->
  r_tiempo_ciclo_s r = Some d ->
  exists previos resto : list RegistroCiclo,
    Permutation (previos ++ resto)
      (ciclos_validos_hoy db (c_id_operario ciclo) current_date)
    /\ List.length previos
       = Nat.min 4 (List.length
           (ciclos_validos_hoy db (c_id_operario ciclo) current_date))
    /\ (forall a b, In a previos -> In b resto ->
                    marca_tiempo b <= marca_tiempo a)
    /\ StronglySorted (desc marca_tiempo) previos
    /\ r_promedio_5_ciclos r
       = Some (media_float
                 (d :: map (fun c => float_de_columna (tiempo_ciclo_s c))
                           previos)).
Proof.
  intros Hr Hd.
  destruct (registrar_ciclo_Ok_inv _ _ _ _ _ Hr) as [tarea Ht].
  rewrite (registrar_ciclo_Ok ciclo ahora current_date db tarea Ht) in Hr.
  simpl in Hr. injection Hr as <-.
  cbn [r_tiempo_ciclo_s r_promedio_5_ciclos] in *. rewrite Hd.
  destruct (consultar_ultimos_ciclos_spec db (c_id_operario ciclo)
              current_date) as [resto [Hperm [Hlen [Hord Hsort]]]].
  exists (consultar_ultimos_ciclos db (c_id_operario ciclo) current_date),
    resto.
  repeat (split; [assumption|]). apply calcular_promedio_Some.
Qed.



(** On the example day the average is taken over the new 10 s and the four
    latest times 13, 12, 10 and 13; the earlier 12, the cycle of the day
    before and the other operator's cycle stay out.  The float mean of the
    five is the float nearest to 11.6. *)
Example promedio_historial_ejemplo :
  exists r m,
    snd (registrar_ciclo op_ejemplo (t_previo + segundos 10) 0 db_historial)
    = Ok r
    /\ r_promedio_5_ciclos r = Some m
    /\ m = media_float [10; 13; 12; 10; 13]%Q
    /\ m = redondear (58 # 5)
    /\ r_estado r = "Normal".
Proof.
  eexists. eexists. split; [vm_compute; reflexivity|].
  split; [reflexivity|]. repeat split; vm_compute; reflexivity.
Qed.


(** ** The status *)

Lemma determinar_estado_literal (promedio : option Q) (e l : Q) :
  determinar_estado promedio e l = "Excelente"
  \/ determinar_estado promedio e l = "Normal"
  \/ determinar_estado promedio e l = "Lento".
Proof.
  unfold determinar_estado. destruct promedio as [p|]; [|tauto].
  destruct (Qle_bool p e); [tauto|]. destruct (Qle_bool l p); tauto.
Qed.

Lemma determinar_estado_Some (p e l : Q) :
  ((p <= e)%Q -> determinar_estado (Some p) e l = "Excelente")
  /\ (~ (p <= e)%Q -> (l <= p)%Q -> determinar_estado (Some p) e l = "Lento")
  /\ (~ (p <= e)%Q -> ~ (l <= p)%Q ->
      determinar_estado (Some p) e l = "Normal").
Proof.
  unfold determinar_estado.
  destruct (Qle_bool p e) eqn:He; destruct (Qle_bool l p) eqn:Hl;
    try apply Qle_bool_iff in He; try apply Qle_bool_iff in Hl;
    repeat split; intros; try reflexivity; try contradiction.
  - apply Qle_bool_iff in H. congruence.
  - apply Qle_bool_iff in H. congruence.
  - apply Qle_bool_iff in H0. congruence.
Qed.

(** C5. The answered status is read off the answered average and the
    thresholds of the operator's active task, as floats: Excelente at or
    below the excellent threshold, otherwise Lento at or above the slow
    threshold, otherwise Normal; Normal when there is no average.  It is
    always one of the three literals. *)
Theorem estado_segun_promedio_y_umbrales (db : BaseDatos)
    (ciclo : CicloRequest) (ahora : datetime) (current_date : date)
    (tarea : Tarea) :
  consultar_tarea_activa db (c_id_operario ciclo) = Some tarea ->
  let umbral_excelente := redondear (umbral_excelente_s tarea) in
  let umbral_lento := redondear (umbral_lento_s tarea) in
  exists r,
    snd (registrar_ciclo ciclo ahora current_date db) = Ok r
    /\ match r_promedio_5_ciclos r with
       | Some a =>
           ((a <= umbral_excelente)%Q -> r_estado r = "Excelente")
           /\ (~ (a <= umbral_excelente)%Q ->
               (umbral_lento <= a)%Q -> r_estado r = "Lento")
           /\ (~ (a <= umbral_excelente)%Q ->
               ~ (umbral_lento <= a)%Q -> r_estado r = "Normal")
       | None => r_estado r = "Normal"
       end
    /\ (r_estado r = "Excelente" \/ r_estado r = "Normal"
        \/ r_estado r = "Lento").
Proof.
  intros Ht umbral_excelente umbral_lento.
  rewrite (registrar_ciclo_Ok ciclo ahora current_date db tarea Ht).
  eexists. split; [reflexivity|].
  cbn [snd r_promedio_5_ciclos r_estado]. split.
  - destruct (calcular_promedio _ _) as [a|].
    + apply determinar_estado_Some.
    + reflexivity.
  - apply determinar_estado_literal.
Qed.

Lemma estado_segun_promedio_y_umbrales_witness :
  exists r a,
    snd (registrar_ciclo op_ejemplo (t_previo + segundos 10) 0 db_historial)
    = Ok r
    /\ r_promedio_5_ciclos r = Some a
    /\ ~ (a <= 11 # 1)%Q /\ ~ (15 # 1 <= a)%Q
    /\ r_estado r = "Normal".
Proof.
  destruct (estado_segun_promedio_y_umbrales db_historial op_ejemplo
              (t_previo + segundos 10) 0 tarea_ejemplo eq_refl)
    as [r [Hr [Hest _]]].
  assert (Ha : r_promedio_5_ciclos r = Some (redondear (58 # 5))).
  { vm_compute in Hr. injection Hr as <-. vm_compute. reflexivity. }
  rewrite Ha in Hest.
  change (redondear (umbral_excelente_s tarea_ejemplo)) with (redondear 11)
    in Hest.
  change (redondear (umbral_lento_s tarea_ejemplo)) with (redondear 15)
    in Hest.
  destruct Hest as [_ [_ Hnormal]].
  assert (H1 : ~ (redondear (58 # 5) <= redondear 11)%Q)
    by (intros H; vm_compute in H; apply H; reflexivity).
  assert (H2 : ~ (redondear 15 <= redondear (58 # 5))%Q)
    by (intros H; vm_compute in H; apply H; reflexivity).
  exists r, (redondear (58 # 5)).
  split; [exact Hr|]. split; [exact Ha|].
  split; [intros H; vm_compute in H; apply H; reflexivity|].
  split; [intros H; vm_compute in H; apply H; reflexivity|].
  exact (Hnormal H1 H2).
Defined.

(** The three cases of the scenario with thresholds 11 and 15. *)
Example determinar_estado_ejemplos :
  determinar_estado (Some (21 # 2)) (11 # 1) (15 # 1) = "Excelente"
  /\ determinar_estado (Some (13 # 1)) (11 # 1) (15 # 1) = "Normal"
  /\ determinar_estado (Some (16 # 1)) (11 # 1) (15 # 1) = "Lento"
  /\ determinar_estado None (11 # 1) (15 # 1) = "Normal".
Proof. repeat split. Qed.

(** The same scenario through the handler: averages 10.5, 13 and 16 against
    the thresholds 11 and 15 of the operator's task. *)
Example estado_escenario_umbrales :
  (exists r a,
     snd (registrar_ciclo op_ejemplo (t_previo + segundos 10) 0
            db_ciclo_de_once) = Ok r
     /\ r_promedio_5_ciclos r = Some a /\ (a == 21 # 2)%Q
     /\ r_estado r = "Excelente")
  /\ (exists r a,
        snd (registrar_ciclo op_ejemplo (t_previo + segundos 13) 0
               db_un_ciclo) = Ok r
        /\ r_promedio_5_ciclos r = Some a /\ (a == 13 # 1)%Q
        /\ r_estado r = "Normal")
  /\ (exists r a,
        snd (registrar_ciclo op_ejemplo (t_previo + segundos 16) 0
               db_un_ciclo) = Ok r
        /\ r_promedio_5_ciclos r = Some a /\ (a == 16 # 1)%Q
        /\ r_estado r = "Lento").
Proof.
  split; [|split]; eexists; eexists;
    (split; [vm_compute; reflexivity|]); (split; [reflexivity|]);
    split; vm_compute; reflexivity.
Qed.

(** A threshold is compared as the float the handler makes of it: with an
    excellent threshold of 10.3, whose float lies above it, a single cycle
    of 10.3 s is Excelente although its float average exceeds 10.3. *)
Example umbral_como_float :
  determinar_estado (Some (redondear (103 # 10))) (redondear (103 # 10))
                    (redondear 15) = "Excelente"
  /\ ~ (redondear (103 # 10) <= 103 # 10)%Q.
Proof.
  split; [vm_compute; reflexivity|].
  intros H. vm_compute in H. apply H. reflexivity.
Qed.

(** C6. For thresholds with the excellent one not above the slow one, a
    smaller average is never classified slower than a larger one. *)
Theorem clasificacion_monotona (umbral_excelente umbral_lento a1 a2 : Q) :
  (umbral_excelente <= umbral_lento)%Q ->
  (a1 < a2)%Q ->
  (rango_estado (determinar_estado (Some a1) umbral_excelente umbral_lento)
   <= rango_estado (determinar_estado (Some a2) umbral_excelente umbral_lento))%nat.
Proof.
  intros _ Hlt. unfold determinar_estado.
  destruct (Qle_bool a1 umbral_excelente) eqn:H1.
  - destruct (Qle_bool a2 umbral_excelente); [apply Nat.le_refl|].
    destruct (Qle_bool umbral_lento a2); cbv; lia.
  - destruct (Qle_bool a2 umbral_excelente) eqn:H2.
    + apply Qle_bool_iff in H2.
      assert (H : Qle_bool a1 umbral_excelente = true).
      { apply Qle_bool_iff. apply Qlt_le_weak.
        now apply Qlt_le_trans with a2. }
      congruence.
    + destruct (Qle_bool umbral_lento a1) eqn:H3.
      * apply Qle_bool_iff in H3.
        assert (H : Qle_bool umbral_lento a2 = true).
        { apply Qle_bool_iff. apply Qlt_le_weak.
          now apply Qle_lt_trans with a1. }
        rewrite H. apply Nat.le_refl.
      * destruct (Qle_bool umbral_lento a2); cbv; lia.
Qed.

Lemma clasificacion_monotona_witness :
  (rango_estado (determinar_estado (Some (13 # 1)) (11 # 1) (15 # 1))
   <= rango_estado (determinar_estado (Some (16 # 1)) (11 # 1) (15 # 1)))%nat.
Proof.
  apply (clasificacion_monotona (11 # 1) (15 # 1) (13 # 1) (16 # 1)).
  - vm_compute. discriminate.
  - reflexivity.
Defined.

(** ** Pauses *)

Lemma pausas_abiertas_In (db : BaseDatos) (id_operario : Z)
    (p : RegistroPausa) :
  In p (pausas_abiertas db id_operario)
  <-> In p (Registros_Pausas db)
      /\ rp_id_operario p = id_operario /\ finalizada p = false.
Proof.
  unfold pausas_abiertas.
  rewrite filter_In, andb_true_iff, Z.eqb_eq, eqb_true_iff. tauto.
Qed.

Lemma tiene_pausa_abierta_spec (db : BaseDatos) (id_operario : Z) :
  tiene_pausa_abierta db id_operario
  <-> pausas_abiertas db id_operario <> [].
Proof.
  unfold tiene_pausa_abierta. split.
  - intros [p Hp] Hnil. apply pausas_abiertas_In in Hp.
    rewrite Hnil in Hp. destruct Hp.
  - intros Hne. destruct (pausas_abiertas db id_operario) as [|p l] eqn:E;
      [contradiction|].
    exists p. apply pausas_abiertas_In. rewrite E. now left.
Qed.


(** The four outcomes of the handler. *)
Lemma registrar_pausa_INICIO_rechazada (db : BaseDatos) (id_operario : Z)
    (m : option string) (ahora : datetime) :
  pausas_abiertas db id_operario <> [] ->
  registrar_pausa (mkPausaRequest id_operario INICIO m) ahora db
  = (db, HTTPException HTTP_400_BAD_REQUEST
           "Ya existe una pausa activa para este operario").
Proof.
  intros Hne. unfold registrar_pausa, get_db_connection, registrar_pausa_cuerpo.
  cbn [accion p_id_operario].
  destruct (pausas_abiertas db id_operario); [contradiction | reflexivity].
Qed.

Lemma registrar_pausa_INICIO_aceptada (db : BaseDatos) (id_operario : Z)
    (m : option string) (ahora : datetime) :
  pausas_abiertas db id_operario = [] ->
  registrar_pausa (mkPausaRequest id_operario INICIO m) ahora db
  = (mkBaseDatos (Operario_Tarea db) (Tareas db) (Registros_Ciclos db)
       (Registros_Pausas db
        ++ [mkRegistroPausa (sig_id_pausa db) id_operario ahora None m None
                            false])%list
       (sig_id_registro db) (sig_id_pausa db + 1),
     Ok (mkPausaResponse (sig_id_pausa db)
           ("Pausa iniciada: " ++ motivo_o_defecto m) None)).
Proof.
  intros Hnil. unfold registrar_pausa, get_db_connection, registrar_pausa_cuerpo.
  cbn [accion p_id_operario p_motivo]. now rewrite Hnil.
Qed.

Lemma registrar_pausa_FIN_rechazada (db : BaseDatos) (id_operario : Z)
    (m : option string) (ahora : datetime) :
  pausas_abiertas db id_operario = [] ->
  registrar_pausa (mkPausaRequest id_operario FIN m) ahora db
  = (db, HTTPException HTTP_404_NOT_FOUND
           "No hay pausas activas para este operario").
Proof.
  intros Hnil. unfold registrar_pausa, get_db_connection, registrar_pausa_cuerpo.
  cbn [accion p_id_operario]. now rewrite Hnil.
Qed.

Lemma registrar_pausa_FIN_aceptada (db : BaseDatos) (id_operario : Z)
    (m : option string) (ahora : datetime) :
  pausas_abiertas db id_operario <> [] ->
  exists p,
    hd_error (order_by_desc hora_inicio_pausa
                (pausas_abiertas db id_operario)) = Some p
    /\ let dur := Z.quot (ahora - hora_inicio_pausa p) 1000000 in
       registrar_pausa (mkPausaRequest id_operario FIN m) ahora db
       = (mkBaseDatos (Operario_Tarea db) (Tareas db) (Registros_Ciclos db)
            (map (cerrar_pausa (id_pausa p) ahora dur) (Registros_Pausas db))
            (sig_id_registro db) (sig_id_pausa db),
          Ok (mkPausaResponse (id_pausa p)
                ("Pausa finalizada. Duración: " ++ str_of_int dur
                 ++ "s (" ++ str_of_int (dur / 60) ++ "min)")
                (Some dur))).
Proof.
  intros Hne. unfold registrar_pausa, get_db_connection, registrar_pausa_cuerpo.
  cbn [accion p_id_operario].
  destruct (hd_error (order_by_desc hora_inicio_pausa
                        (pausas_abiertas db id_operario))) as [p|] eqn:E.
  - exists p. split; reflexivity.
  - apply hd_order_by_desc_None in E. contradiction.
Qed.

(** C7. The handler rejects exactly the two invalid transitions.  Opening
    is refused, with status 400 and "Ya existe una pausa activa para este
    operario", exactly when the operator has an unfinished pause; closing is
    refused, with status 404 and "No hay pausas activas para este operario",
    exactly when the operator has none.  A refusal leaves the database as
    it was; in the other two cases the handler answers. *)
Theorem transiciones_invalidas_rechazadas (db : BaseDatos) (id_operario : Z)
    (m : option string) (ahora : datetime) :
  (tiene_pausa_abierta db id_operario
   <-> registrar_pausa (mkPausaRequest id_operario INICIO m) ahora db
       = (db, HTTPException HTTP_400_BAD_REQUEST
                "Ya existe una pausa activa para este operario"))
  /\ (~ tiene_pausa_abierta db id_operario
      <-> registrar_pausa (mkPausaRequest id_operario FIN m) ahora db
          = (db, HTTPException HTTP_404_NOT_FOUND
                   "No hay pausas activas para este operario"))
  /\ (~ tiene_pausa_abierta db id_operario
      <-> exists r,
            snd (registrar_pausa (mkPausaRequest id_operario INICIO m) ahora db)
            = Ok r)
  /\ (tiene_pausa_abierta db id_operario
      <-> exists r,
            snd (registrar_pausa (mkPausaRequest id_operario FIN m) ahora db)
            = Ok r).
Proof.
  rewrite tiene_pausa_abierta_spec.
  destruct (pausas_abiertas db id_operario) as [|p0 l] eqn:E.
  - pose proof (registrar_pausa_INICIO_aceptada db id_operario m ahora E) as Hi.
    pose proof (registrar_pausa_FIN_rechazada db id_operario m ahora E) as Hf.
    rewrite Hi, Hf. cbn [snd]. split; [|split; [|split]].
    + split; [congruence | discriminate].
    + split; [reflexivity | congruence].
    + split; [eexists; reflexivity | congruence].
    + split; [congruence | intros [r Hr]; discriminate Hr].
  - assert (Hne : pausas_abiertas db id_operario <> [])
      by (rewrite E; discriminate).
    pose proof (registrar_pausa_INICIO_rechazada db id_operario m ahora Hne)
      as Hi.
    destruct (registrar_pausa_FIN_aceptada db id_operario m ahora Hne)
      as [p [_ Hf]].
    cbv zeta in Hf. rewrite Hi, Hf. cbn [snd]. split; [|split; [|split]].
    + split; [reflexivity | discriminate].
    + split; [intros H; now destruct H | discriminate].
    + split; [intros H; now destruct H | intros [r Hr]; discriminate Hr].
    + split; [eexists; reflexivity | discriminate].
Qed.

(** One round of the pause machine from [db_inicial]: open, open again
    (refused), close after 7.5 s, close again (refused). *)
Example maquina_de_pausas_ejemplo :
  let abrir := mkPausaRequest 3582 INICIO (Some "Bano") in
  let cerrar := mkPausaRequest 3582 FIN None in
  let db1 := fst (registrar_pausa abrir t_previo db_inicial) in
  let db2 := fst (registrar_pausa cerrar (t_previo + 7500000) db1) in
  snd (registrar_pausa abrir t_previo db_inicial)
  = Ok (mkPausaResponse 1 "Pausa iniciada: Bano" None)
  /\ registrar_pausa abrir (t_previo + segundos 1) db1
     = (db1, HTTPException 400 "Ya existe una pausa activa para este operario")
  /\ snd (registrar_pausa cerrar (t_previo + 7500000) db1)
     = Ok (mkPausaResponse 1 "Pausa finalizada. Duración: 7s (0min)" (Some 7))
  /\ Registros_Pausas db2
     = [mkRegistroPausa 1 3582 t_previo (Some (t_previo + 7500000))
                        (Some "Bano") (Some 7) true]
  /\ registrar_pausa cerrar (t_previo + segundos 9) db2
     = (db2, HTTPException 404 "No hay pausas activas para este operario").
Proof. repeat split. Qed.

Lemma int_of_float_total_seconds (delta : Z) :
  int_of_float (total_seconds delta) = Z.quot delta 1000000.
Proof. reflexivity. Qed.

Lemma int_of_float_comp (x y : Q) :
  (x == y)%Q -> int_of_float x = int_of_float y.
Proof.
  destruct x as [n d], y as [n' d']. unfold Qeq, int_of_float.
  cbn [Qnum Qden]. intros E.
  rewrite <- (Z.quot_mul_cancel_r n (Zpos d) (Zpos d')) by lia.
  rewrite E, (Z.mul_comm (Zpos d) (Zpos d')).
  apply Z.quot_mul_cancel_r; lia.
Qed.

Lemma int_of_float_opp (x : Q) : int_of_float (- x) = - int_of_float x.
Proof.
  destruct x as [n d]. unfold int_of_float, Qopp. cbn [Qnum Qden].
  apply Z.quot_opp_l. lia.
Qed.

Lemma int_of_float_entre (k : Z) (x : Q) :
  0 <= k -> (inject_Z k <= x)%Q -> (x < inject_Z (k + 1))%Q ->
  int_of_float x = k.
Proof.
  intros Hk H1 H2.
  assert (Hf : Qfloor x = k).
  { pose proof (Qfloor_resp_le _ _ H1) as L. rewrite Qfloor_Z in L.
    assert (U : Qfloor x < k + 1).
    { rewrite Zlt_Qlt. apply Qle_lt_trans with x; [apply Qfloor_le | exact H2]. }
    lia. }
  destruct x as [n d]. unfold int_of_float. cbn [Qnum Qden Qfloor] in *.
  assert (Hn : 0 <= n).
  { unfold Qle in H1. cbn [Qnum Qden inject_Z] in H1. nia. }
  rewrite Z.quot_div_nonneg by lia. exact Hf.
Qed.

(** On a difference below 2^33 seconds, truncating the float of
    [total_seconds()] is truncating the exact quotient. *)
Lemma int_total_seconds_float (delta : Z) :
  Z.abs delta < 2 ^ 33 * 1000000 ->
  int_of_float (redondear (total_seconds delta)) = Z.quot delta 1000000.
Proof.
  assert (Hpos : forall d, 0 <= d < 2 ^ 33 * 1000000 ->
            int_of_float (redondear (total_seconds d)) = Z.quot d 1000000).
  { intros d Hd. rewrite Z.quot_div_nonneg by lia.
    set (k := d / 1000000).
    pose proof (Z.mul_div_le d 1000000 ltac:(lia)) as L.
    pose proof (Z.mul_succ_div_gt d 1000000 ltac:(lia)) as U.
    fold k in L, U.
    assert (Hk : 0 <= k < 2 ^ 33).
    { split; [apply Z.div_pos; lia|]. apply Z.div_lt_upper_bound; lia. }
    apply int_of_float_entre; [lia| |].
    - rewrite <- (redondear_entero k) by lia. apply redondear_mono.
      unfold total_seconds, inject_Z, Qle. cbn [Qnum Qden]. lia.
    - set (m := (k + 1) * 2 ^ 20 - 1).
      assert (Hm : (redondear (inject_Z m * dos_a_la (-20))
                    == inject_Z m * dos_a_la (-20))%Q).
      { apply redondear_fijo. exists m, (-20). split; [|split].
        - unfold m. lia.
        - lia.
        - reflexivity. }
      apply Qle_lt_trans with (inject_Z m * dos_a_la (-20))%Q.
      + rewrite <- Hm. apply redondear_mono.
        change (dos_a_la (-20)) with (1 # 1048576)%Q.
        unfold total_seconds, inject_Z, Qle, Qmult. cbn [Qnum Qden].
        unfold m. lia.
      + change (dos_a_la (-20)) with (1 # 1048576)%Q.
        unfold inject_Z, Qlt, Qmult. cbn [Qnum Qden]. unfold m. lia. }
  intros H. destruct (Z.le_gt_cases 0 delta) as [Hd|Hd].
  - apply Hpos. lia.
  - assert (E : (redondear (total_seconds delta)
                 == - redondear (total_seconds (- delta)))%Q).
    { rewrite <- redondear_opp. apply redondear_Proper.
      unfold total_seconds, Qeq, Qopp. cbn [Qnum Qden]. lia. }
    rewrite (int_of_float_comp _ _ E), int_of_float_opp, Hpos by lia.
    rewrite Z.quot_opp_l by lia. lia.
Qed.

(** Truncation on a non-negative difference: the whole seconds elapsed. *)
Lemma segundos_enteros_truncados (delta : Z) :
  0 <= delta ->
  1000000 * Z.quot delta 1000000 <= delta
  < 1000000 * (Z.quot delta 1000000 + 1).
Proof.
  intros H. rewrite Z.quot_div_nonneg by lia.
  pose proof (Z.mul_div_le delta 1000000 ltac:(lia)).
  pose proof (Z.mul_succ_div_gt delta 1000000 ltac:(lia)). lia.
Qed.

(** C8. Closing a pause of an operator who has an unfinished one picks the
    unfinished pause that started last, gives every row carrying its key
    the end time now, the duration and the finished mark, leaves the other
    rows and tables alone, and answers the duration: the microseconds from
    the start to now divided by 10^6 and truncated towards zero. *)
Theorem fin_cierra_pausa_mas_reciente (db : BaseDatos) (id_operario : Z)
    (m : option string) (ahora : datetime) :
  tiene_pausa_abierta db id_operario ->
  exists p db' r,
    registrar_pausa (mkPausaRequest id_operario FIN m) ahora db = (db', Ok r)
    /\ In p (Registros_Pausas db)
    /\ rp_id_operario p = id_operario
    /\ finalizada p = false
    /\ (forall q, In q (Registros_Pausas db) ->
                  rp_id_operario q = id_operario -> finalizada q = false ->
                  hora_inicio_pausa q <= hora_inicio_pausa p)
    /\ r_id_pausa r = id_pausa p
    /\ r_duracion_s r = Some (Z.quot (ahora - hora_inicio_pausa p) 1000000)
    /\ In (mkRegistroPausa (id_pausa p) id_operario (hora_inicio_pausa p)
             (Some ahora) (motivo p)
             (Some (Z.quot (ahora - hora_inicio_pausa p) 1000000)) true)
          (Registros_Pausas db')
    /\ Registros_Pausas db'
       = map (fun q =>
                if id_pausa q =? id_pausa p
                then mkRegistroPausa (id_pausa q) (rp_id_operario q)
                       (hora_inicio_pausa q) (Some ahora) (motivo q)
                       (Some (Z.quot (ahora - hora_inicio_pausa p) 1000000))
                       true
                else q)
             (Registros_Pausas db)
    /\ Registros_Ciclos db' = Registros_Ciclos db
    /\ Operario_Tarea db' = Operario_Tarea db
    /\ Tareas db' = Tareas db.
Proof.
  intros Habierta. apply tiene_pausa_abierta_spec in Habierta.
  destruct (registrar_pausa_FIN_aceptada db id_operario m ahora Habierta)
    as [p [Hhd Hf]].
  cbv zeta in Hf. rewrite Hf.
  apply hd_order_by_desc_Some in Hhd. destruct Hhd as [Hin Hmax].
  apply pausas_abiertas_In in Hin. destruct Hin as [Hin [Hop Hfin]].
  eexists p, _, _. split; [reflexivity|].
  cbn [r_id_pausa r_duracion_s Registros_Pausas Registros_Ciclos
       Operario_Tarea Tareas].
  split; [exact Hin|]. split; [exact Hop|]. split; [exact Hfin|].
  split.
  { intros q Hq Hqop Hqfin. apply Hmax. apply pausas_abiertas_In. tauto. }
  split; [reflexivity|]. split; [reflexivity|].
  split.
  { apply in_map_iff. exists p. split; [|exact Hin].
    unfold cerrar_pausa. rewrite Z.eqb_refl, Hop. reflexivity. }
  repeat split.
Qed.

Lemma fin_cierra_pausa_mas_reciente_witness :
  exists db' r,
    registrar_pausa (mkPausaRequest 3582 FIN None)
                    (t_previo + 37500000) db_dos_pausas_abiertas = (db', Ok r)
    /\ r_id_pausa r = 1
    /\ r_duracion_s r = Some 7
    /\ In (mkRegistroPausa 1 3582 (t_previo + segundos 30)
             (Some (t_previo + 37500000)) None (Some 7) true)
          (Registros_Pausas db').
Proof.
  destruct (fin_cierra_pausa_mas_reciente db_dos_pausas_abiertas 3582 None
              (t_previo + 37500000))
    as [p [db' [r [Hr [Hin [_ [Hfin [Hmax [Hid [Hdur [Hrow _]]]]]]]]]]].
  - eexists. split; [left; reflexivity|]. split; reflexivity.
  - assert (Hp : p = mkRegistroPausa 1 3582 (t_previo + segundos 30) None
                       None None false).
    { destruct Hin as [<-|[<-|[<-|[]]]].
      - reflexivity.
      - exfalso.
        assert (H : t_previo + segundos 30 <= t_previo + segundos 10).
        { apply (Hmax (mkRegistroPausa 1 3582 (t_previo + segundos 30) None
                         None None false)).
          - left. reflexivity.
          - reflexivity.
          - reflexivity. }
        vm_compute in H. apply H. reflexivity.
      - discriminate Hfin. }
    subst p. exists db', r. split; [exact Hr|].
    split; [exact Hid|]. split; [exact Hdur | exact Hrow].
Defined.

(** ** The task of the earlier cycles *)

Section Forall2Queries.
Context {A : Type} (R : A -> A -> Prop).

Lemma Forall2_filter (f : A -> bool) (l1 l2 : list A) :
  (forall a b, R a b -> f a = f b) ->
  Forall2 R l1 l2 -> Forall2 R (filter f l1) (filter f l2).
Proof.
  intros Hf. induction 1 as [|a b l1 l2 Hab _ IH]; simpl.
  - constructor.
  - rewrite (Hf a b Hab). destruct (f b); [now constructor | exact IH].
Qed.

Lemma Forall2_insertar_desc (clave : A -> Z) (x y : A) (l1 l2 : list A) :
  (forall a b, R a b -> clave a = clave b) ->
  R x y -> Forall2 R l1 l2 ->
  Forall2 R (insertar_desc clave x l1) (insertar_desc clave y l2).
Proof.
  intros Hk Hxy. induction 1 as [|a b l1 l2 Hab Hl IH]; simpl.
  - now repeat constructor.
  - rewrite (Hk x y Hxy), (Hk a b Hab).
    destruct (clave y <? clave b); now repeat constructor.
Qed.

Lemma Forall2_order_by_desc (clave : A -> Z) (l1 l2 : list A) :
  (forall a b, R a b -> clave a = clave b) ->
  Forall2 R l1 l2 ->
  Forall2 R (order_by_desc clave l1) (order_by_desc clave l2).
Proof.
  intros Hk. induction 1 as [|a b l1 l2 Hab _ IH]; simpl.
  - constructor.
  - now apply Forall2_insertar_desc.
Qed.

Lemma Forall2_firstn (n : nat) (l1 l2 : list A) :
  Forall2 R l1 l2 -> Forall2 R (firstn n l1) (firstn n l2).
Proof.
  intros H. revert n. induction H as [|a b l1 l2 Hab _ IH]; intros [|n];
    simpl; now constructor.
Qed.

Lemma Forall2_map_eq {B : Type} (g : A -> B) (l1 l2 : list A) :
  (forall a b, R a b -> g a = g b) ->
  Forall2 R l1 l2 -> map g l1 = map g l2.
Proof.
  intros Hg. induction 1 as [|a b l1 l2 Hab _ IH]; simpl.
  - reflexivity.
  - now rewrite (Hg a b Hab), IH.
Qed.
End Forall2Queries.

Lemma solo_difieren_en_tarea_refl (c : RegistroCiclo) :
  solo_difieren_en_tarea c c.
Proof. repeat split. Qed.

Section MismaBase.
Variables db1 db2 : BaseDatos.
Hypothesis Hbases : misma_base_salvo_tareas db1 db2.

Lemma misma_tarea_activa (id_operario : Z) :
  consultar_tarea_activa db1 id_operario
  = consultar_tarea_activa db2 id_operario.
Proof.
  destruct Hbases as [Hot [Ht _]].
  unfold consultar_tarea_activa. now rewrite Hot, Ht.
Qed.

Lemma mismo_ultimo_ciclo (id_operario : Z) :
  consultar_ultimo_ciclo db1 id_operario
  = consultar_ultimo_ciclo db2 id_operario.
Proof.
  destruct Hbases as [_ [_ [Hc _]]].
  unfold consultar_ultimo_ciclo. f_equal.
  apply (Forall2_map_eq solo_difieren_en_tarea);
    [unfold solo_difieren_en_tarea; tauto|].
  apply Forall2_order_by_desc; [unfold solo_difieren_en_tarea; tauto|].
  apply Forall2_filter; [|exact Hc].
  intros a b Hab. unfold solo_difieren_en_tarea in Hab.
  destruct Hab as [_ [-> _]]. reflexivity.
Qed.

Lemma mismo_tiempo_ciclo (id_operario : Z) (ahora : datetime) :
  calcular_tiempo_ciclo db1 id_operario ahora
  = calcular_tiempo_ciclo db2 id_operario ahora.
Proof.
  unfold calcular_tiempo_ciclo. rewrite mismo_ultimo_ciclo.
  destruct Hbases as [_ [_ [_ [Hp _]]]].
  unfold consultar_tiempo_total_pausas, consultar_pausas_sin_finalizar.
  now rewrite Hp.
Qed.

Lemma mismos_ultimos_ciclos (id_operario : Z) (current_date : date) :
  Forall2 solo_difieren_en_tarea
    (consultar_ultimos_ciclos db1 id_operario current_date)
    (consultar_ultimos_ciclos db2 id_operario current_date).
Proof.
  destruct Hbases as [_ [_ [Hc _]]].
  unfold consultar_ultimos_ciclos.
  apply Forall2_firstn.
  apply Forall2_order_by_desc; [unfold solo_difieren_en_tarea; tauto|].
  apply Forall2_filter; [|exact Hc].
  intros a b Hab. unfold solo_difieren_en_tarea in Hab.
  destruct Hab as [_ [-> [_ [-> [_ [_ ->]]]]]]. reflexivity.
Qed.

Lemma mismo_promedio (id_operario : Z) (ahora : datetime)
    (current_date : date) :
  calcular_promedio (calcular_tiempo_ciclo db1 id_operario ahora)
    (consultar_ultimos_ciclos db1 id_operario current_date)
  = calcular_promedio (calcular_tiempo_ciclo db2 id_operario ahora)
      (consultar_ultimos_ciclos db2 id_operario current_date).
Proof.
  rewrite mismo_tiempo_ciclo. unfold calcular_promedio.
  destruct (calcular_tiempo_ciclo db2 id_operario ahora) as [t|];
    [|reflexivity].
  rewrite (Forall2_map_eq solo_difieren_en_tarea
             (fun c => float_de_columna (tiempo_ciclo_s c))
             _ _ ltac:(intros a b Hab; unfold solo_difieren_en_tarea in Hab;
                       destruct Hab as [_ [_ [_ [-> _]]]]; reflexivity)
             (mismos_ultimos_ciclos id_operario current_date)).
  reflexivity.
Qed.

Lemma mismos_ciclos_hoy (fila : RegistroCiclo) (id_operario : Z)
    (current_date : date) :
  contar_ciclos_hoy (Registros_Ciclos db1 ++ [fila])%list id_operario
                    current_date
  = contar_ciclos_hoy (Registros_Ciclos db2 ++ [fila])%list id_operario
                      current_date.
Proof.
  destruct Hbases as [_ [_ [Hc _]]].
  unfold contar_ciclos_hoy. f_equal.
  apply (Forall2_length (R := solo_difieren_en_tarea)).
  apply Forall2_filter.
  - intros a b Hab. unfold solo_difieren_en_tarea in Hab.
    destruct Hab as [_ [-> [_ [_ [_ [_ ->]]]]]]. reflexivity.
  - apply Forall2_app; [exact Hc|].
    constructor; [apply solo_difieren_en_tarea_refl | constructor].
Qed.
End MismaBase.



(** In [db_historial] the four averaged rows are those of 13, 12, 10 and
    13 s; the 13 s cycle that closes the list was recorded under task 2 and
    the answer is judged against the thresholds of task 1. *)
Example promedio_con_tarea_anterior :
  consultar_ultimos_ciclos db_historial 3582 0
  = [mkRegistroCiclo 8 3582 1 t_previo (Some (13 # 1)) None "Normal" 0;
     mkRegistroCiclo 7 3582 1 (t_previo - segundos 13) (Some (12 # 1)) None
                     "Normal" 0;
     mkRegistroCiclo 6 3582 1 (t_previo - segundos 25) (Some (10 # 1)) None
                     "Normal" 0;
     mkRegistroCiclo 5 3582 2 (t_previo - segundos 35) (Some (13 # 1)) None
                     "Normal" 0]
  /\ consultar_tarea_activa db_historial 3582 = Some tarea_ejemplo.
Proof. split; reflexivity. Qed.

(** ** Further properties of POST /api/ciclo *)

Lemma hd_error_In {A : Type} (l : list A) (x : A) :
  hd_error l = Some x -> In x l.
Proof. destruct l; simpl; [discriminate|]. intros [= ->]. now left. Qed.

Lemma In_hd_error {A : Type} (l : list A) (x : A) :
  In x l -> exists y, hd_error l = Some y.
Proof. destruct l as [|y l]; [intros []|]. intros _. now exists y. Qed.

Lemma consultar_tarea_activa_spec (db : BaseDatos) (id_operario : Z) :
  (exists t, consultar_tarea_activa db id_operario = Some t)
  <-> tiene_tarea_activa db id_operario.
Proof.
  unfold consultar_tarea_activa, tiene_tarea_activa. split.
  - intros [t Ht]. apply hd_error_In in Ht. apply in_flat_map in Ht.
    destruct Ht as [ot [Hot Ht]].
    destruct ((ot_id_operario ot =? id_operario) && activa ot) eqn:E;
      [|destruct Ht].
    apply andb_true_iff in E. destruct E as [Hop Hact].
    apply Z.eqb_eq in Hop. apply filter_In in Ht. destruct Ht as [Ht Hid].
    apply Z.eqb_eq in Hid. exists ot, t. tauto.
  - intros [ot [t [Hot [Ht [Hop [Hact Hid]]]]]].
    apply In_hd_error with (x := t). apply in_flat_map. exists ot.
    split; [exact Hot|].
    rewrite Hop, Z.eqb_refl, Hact. simpl.
    apply filter_In. split; [exact Ht|]. now apply Z.eqb_eq.
Qed.

(** X1. The handler refuses, with status 404 and the database untouched,
    exactly the operators without an active assignment to a task of the
    task table; every other request is answered. *)
Theorem registrar_ciclo_sin_tarea_rechazado (db : BaseDatos)
    (ciclo : CicloRequest) (ahora : datetime) (current_date : date) :
  (~ tiene_tarea_activa db (c_id_operario ciclo)
   <-> registrar_ciclo ciclo ahora current_date db
       = (db, HTTPException HTTP_404_NOT_FOUND
                ("Operario " ++ str_of_int (c_id_operario ciclo)
                 ++ " no encontrado o sin tarea asignada")))
  /\ (tiene_tarea_activa db (c_id_operario ciclo)
      <-> exists r, snd (registrar_ciclo ciclo ahora current_date db) = Ok r).
Proof.
  rewrite <- consultar_tarea_activa_spec.
  destruct (consultar_tarea_activa db (c_id_operario ciclo)) as [t|] eqn:E.
  - rewrite (registrar_ciclo_Ok ciclo ahora current_date db t E). cbn [snd].
    split; split.
    + intros H. exfalso. apply H. now exists t.
    + discriminate.
    + intros _. eexists. reflexivity.
    + intros _. now exists t.
  - unfold registrar_ciclo, get_db_connection, registrar_ciclo_cuerpo.
    rewrite E. cbn [snd]. split; split.
    + reflexivity.
    + intros _ [t Ht]. discriminate Ht.
    + intros [t Ht]. discriminate Ht.
    + intros [r Hr]. discriminate Hr.
Qed.

Lemma filter_app_uno {A : Type} (f : A -> bool) (l : list A) (x : A) :
  filter f (l ++ [x]) = (filter f l ++ if f x then [x] else [])%list.
Proof. rewrite filter_app. simpl. now destruct (f x). Qed.

Lemma consultar_ultimo_ciclo_fila (db db' : BaseDatos) (fila : RegistroCiclo) :
  Registros_Ciclos db' = (Registros_Ciclos db ++ [fila])%list ->
  consultar_ultimo_ciclo db' (rc_id_operario fila)
  = Some (match consultar_ultimo_ciclo db (rc_id_operario fila) with
          | Some u => Z.max u (marca_tiempo fila)
          | None => marca_tiempo fila
          end)
  /\ forall otro, otro <> rc_id_operario fila ->
                  consultar_ultimo_ciclo db' otro
                  = consultar_ultimo_ciclo db otro.
Proof.
  intros Hc. split.
  - apply consultar_ultimo_ciclo_spec.
    assert (Hfila : In fila (Registros_Ciclos db'))
      by (rewrite Hc; apply in_or_app; right; now left).
    destruct (consultar_ultimo_ciclo db (rc_id_operario fila)) as [u|] eqn:E.
    + apply consultar_ultimo_ciclo_spec in E.
      destruct E as [[c [Hin [Hop Ht]]] Hmax]. split.
      * destruct (Z.max_spec u (marca_tiempo fila)) as [[_ ->]|[_ ->]].
        -- now exists fila.
        -- exists c. split; [|tauto]. rewrite Hc. apply in_or_app. now left.
      * intros c' Hin' Hop'. rewrite Hc in Hin'.
        apply in_app_or in Hin'. destruct Hin' as [Hin'|[<-|[]]].
        -- specialize (Hmax c' Hin' Hop'). lia.
        -- lia.
    + apply consultar_ultimo_ciclo_None in E. split.
      * now exists fila.
      * intros c' Hin' Hop'. rewrite Hc in Hin'.
        apply in_app_or in Hin'. destruct Hin' as [Hin'|[<-|[]]].
        -- now destruct (E c' Hin').
        -- lia.
  - intros otro Hne. unfold consultar_ultimo_ciclo.
    rewrite Hc, filter_app_uno.
    destruct (Z.eqb_spec (rc_id_operario fila) otro) as [Heq|_].
    + now destruct Hne.
    + now rewrite app_nil_r.
Qed.

(** X2. After an answered request the operator's last cycle timestamp is
    the later of the former one and the new one, or the new one on a first
    cycle; the last cycle of every other operator stays what it was. *)
Theorem ultimo_ciclo_tras_registrar (db : BaseDatos) (ciclo : CicloRequest)
    (ahora : datetime) (current_date : date) (tarea : Tarea) :
  consultar_tarea_activa db (c_id_operario ciclo) = Some tarea ->
  consultar_ultimo_ciclo (fst (registrar_ciclo ciclo ahora current_date db))
                         (c_id_operario ciclo)
  = Some (match consultar_ultimo_ciclo db (c_id_operario ciclo) with
          | Some u => Z.max u ahora
          | None => ahora
          end)
  /\ forall otro, otro <> c_id_operario ciclo ->
       consultar_ultimo_ciclo
         (fst (registrar_ciclo ciclo ahora current_date db)) otro
       = consultar_ultimo_ciclo db otro.
Proof.
  intros Ht.
  rewrite (registrar_ciclo_Ok ciclo ahora current_date db tarea Ht).
  cbn [fst].
  match goal with
  | |- context [mkBaseDatos ?a ?b (Registros_Ciclos db ++ [?f])%list ?c ?d ?e] =>
      exact (consultar_ultimo_ciclo_fila db
               (mkBaseDatos a b (Registros_Ciclos db ++ [f])%list c d e)
               f eq_refl)
  end.
Qed.

Lemma ultimo_ciclo_tras_registrar_witness :
  consultar_ultimo_ciclo
    (fst (registrar_ciclo op_ejemplo (t_previo + segundos 20) 0
            db_pausa_cerrada)) 3582
  = Some (t_previo + segundos 20).
Proof.
  exact (proj1 (ultimo_ciclo_tras_registrar db_pausa_cerrada op_ejemplo
                  (t_previo + segundos 20) 0 tarea_ejemplo eq_refl)).
Defined.

Lemma filter_nil_por_falso {A : Type} (f : A -> bool) (l : list A) :
  (forall x, In x l -> f x = false) -> filter f l = [].
Proof.
  intros H. induction l as [|x l IH]; simpl; [reflexivity|].
  rewrite (H x (or_introl eq_refl)). apply IH.
  intros y Hy. apply H. now right.
Qed.

Lemma total_seconds_cota (delta : Z) :
  0 <= delta <= 300000000 ->
  (0 <= redondear (total_seconds delta) <= 300)%Q.
Proof.
  intros H. apply (redondear_entre_enteros 0 300); [reflexivity..|].
  unfold total_seconds, inject_Z, Qle. cbn [Qnum Qden]. lia.
Qed.

(** Without a pause of the operator started in the window, the cycle time
    is the time elapsed since the last cycle, as a float. *)
Lemma calcular_tiempo_ciclo_sin_pausas (db : BaseDatos) (id_operario : Z)
    (ahora ultimo : datetime) :
  es_ultimo_ciclo db id_operario ultimo ->
  (forall p, In p (Registros_Pausas db) -> rp_id_operario p = id_operario ->
             ~ ultimo < hora_inicio_pausa p < ahora) ->
  0 <= ahora - ultimo <= 300000000 ->
  exists d, calcular_tiempo_ciclo db id_operario ahora = Some d
            /\ (d == redondear (total_seconds (ahora - ultimo)))%Q.
Proof.
  intros Hu Hp Hcota.
  assert (Hno : ~ pausa_abierta_en_ventana db id_operario ultimo ahora).
  { intros [p [Hin [Hop [_ Hv]]]]. exact (Hp p Hin Hop Hv). }
  rewrite (calcular_tiempo_ciclo_sin_pausa_abierta _ _ _ _ Hu Hno).
  assert (Hnil : pausas_cerradas_en_ventana db id_operario ultimo ahora = []).
  { apply filter_nil_por_falso. intros p Hin.
    destruct (Z.eqb_spec (rp_id_operario p) id_operario) as [Hop|_];
      [|reflexivity].
    specialize (Hp p Hin Hop).
    destruct (Z.ltb_spec ultimo (hora_inicio_pausa p));
      destruct (Z.ltb_spec (hora_inicio_pausa p) ahora);
      rewrite ?andb_false_r; try reflexivity.
    exfalso. apply Hp. lia. }
  rewrite Hnil. cbn [suma_duraciones fold_right].
  pose proof (fsub_cero (total_seconds (ahora - ultimo))) as Heq.
  destruct (total_seconds_cota _ Hcota) as [Hlo Hhi].
  rewrite <- Heq in Hlo, Hhi.
  apply Qgt_bool_false in Hhi. apply Qlt_bool_false in Hlo.
  rewrite Hhi, Hlo. cbn [orb]. eexists. split; [reflexivity | exact Heq].
Qed.

(** X3. Two requests of one operator in a row, the first not earlier than
    any recorded cycle of the operator, no pause of the operator started
    strictly between them and at most 300 s apart: the second is answered
    with the seconds elapsed between the two, as the float nearest to
    them. *)
Theorem ciclos_consecutivos_miden_lo_transcurrido (db : BaseDatos)
    (ciclo : CicloRequest) (t1 t2 : datetime) (fecha1 fecha2 : date)
    (tarea : Tarea) :
  consultar_tarea_activa db (c_id_operario ciclo) = Some tarea ->
  (forall c, In c (Registros_Ciclos db) ->
             rc_id_operario c = c_id_operario ciclo -> marca_tiempo c <= t1) ->
  (forall p, In p (Registros_Pausas db) ->
             rp_id_operario p = c_id_operario ciclo ->
             ~ t1 < hora_inicio_pausa p < t2) ->
  0 <= t2 - t1 <= 300000000 ->
  exists r d,
    snd (registrar_ciclo ciclo t2 fecha2
           (fst (registrar_ciclo ciclo t1 fecha1 db))) = Ok r
    /\ r_tiempo_ciclo_s r = Some d
    /\ (d == redondear (total_seconds (t2 - t1)))%Q.
Proof.
  intros Ht Hprev Hp Hcota.
  rewrite (registrar_ciclo_Ok ciclo t1 fecha1 db tarea Ht). cbn [fst].
  match goal with
  | |- context [registrar_ciclo ciclo t2 fecha2 ?d] => set (db1 := d)
  end.
  assert (Ht1 : consultar_tarea_activa db1 (c_id_operario ciclo) = Some tarea)
    by exact Ht.
  rewrite (registrar_ciclo_Ok ciclo t2 fecha2 db1 tarea Ht1). cbn [snd].
  assert (Hu : es_ultimo_ciclo db1 (c_id_operario ciclo) t1).
  { split.
    - eexists. split; [apply in_or_app; right; left; reflexivity|].
      split; reflexivity.
    - intros c Hin Hop. cbn [db1 Registros_Ciclos] in Hin.
      apply in_app_or in Hin. destruct Hin as [Hin|[<-|[]]].
      + now apply Hprev.
      + cbn [marca_tiempo]. lia. }
  destruct (calcular_tiempo_ciclo_sin_pausas db1 (c_id_operario ciclo) t2 t1
              Hu Hp Hcota) as [d [Hd Heq]].
  eexists. exists d. split; [reflexivity|]. split; [exact Hd | exact Heq].
Qed.

Lemma ciclos_consecutivos_miden_lo_transcurrido_witness :
  exists r d,
    snd (registrar_ciclo op_ejemplo (t_previo + segundos 12) 0
           (fst (registrar_ciclo op_ejemplo t_previo 0 db_inicial))) = Ok r
    /\ r_tiempo_ciclo_s r = Some d
    /\ (d == 12 # 1)%Q.
Proof.
  destruct (ciclos_consecutivos_miden_lo_transcurrido db_inicial op_ejemplo
              t_previo (t_previo + segundos 12) 0 0 tarea_ejemplo)
    as [r [d [Hr [Hd Heq]]]].
  - reflexivity.
  - intros c [].
  - intros p [].
  - vm_compute. split; discriminate.
  - exists r, d. split; [exact Hr|]. split; [exact Hd|].
    rewrite Heq. vm_compute. reflexivity.
Defined.

(** X4. The answered count of today's cycles is the operator's count
    before the request, plus one exactly when the date of the new row, read
    off the handler's clock, is the current date of the database. *)
Theorem ciclos_completados_hoy_cuenta (db : BaseDatos) (ciclo : CicloRequest)
    (ahora : datetime) (current_date : date) (r : CicloResponse) :
  snd (registrar_ciclo ciclo ahora current_date db) = Ok r ->
  r_ciclos_completados_hoy r
  = contar_ciclos_hoy (Registros_Ciclos db) (c_id_operario ciclo) current_date
    + (if date_of ahora =? current_date then 1 else 0).
Proof.
  intros Hr.
  destruct (registrar_ciclo_Ok_inv _ _ _ _ _ Hr) as [tarea Ht].
  rewrite (registrar_ciclo_Ok ciclo ahora current_date db tarea Ht) in Hr.
  cbn [snd] in Hr. injection Hr as <-. cbn [r_ciclos_completados_hoy].
  unfold contar_ciclos_hoy. rewrite filter_app_uno, length_app.
  cbn [rc_id_operario fecha_registro]. rewrite Z.eqb_refl. cbn [andb].
  destruct (date_of ahora =? current_date); simpl List.length; lia.
Qed.

Lemma ciclos_completados_hoy_cuenta_witness :
  exists r,
    snd (registrar_ciclo op_ejemplo (t_previo + segundos 20) 5
           db_pausa_cerrada) = Ok r
    /\ r_ciclos_completados_hoy r = 0.
Proof.
  eexists. split; [reflexivity|].
  exact (ciclos_completados_hoy_cuenta db_pausa_cerrada op_ejemplo
           (t_previo + segundos 20) 5 _ eq_refl).
Defined.

(** *** Bounds on the mean *)

Lemma consultar_ultimos_ciclos_In (db : BaseDatos) (id_operario : Z)
    (current_date : date) (c : RegistroCiclo) :
  In c (consultar_ultimos_ciclos db id_operario current_date) ->
  In c (ciclos_validos_hoy db id_operario current_date).
Proof.
  unfold consultar_ultimos_ciclos. intros Hc.
  apply (order_by_desc_In marca_tiempo).
  rewrite <- (firstn_skipn 4). apply in_or_app. now left.
Qed.

Lemma calcular_promedio_cotas (db : BaseDatos) (id_operario : Z)
    (current_date : date) (t : option Q) (m : Q) :
  historial_acotado db ->
  (forall d, t = Some d -> (0 <= d <= 300)%Q) ->
  calcular_promedio t (consultar_ultimos_ciclos db id_operario current_date)
  = Some m ->
  (0 <= m <= 300)%Q.
Proof.
  intros Hdb Ht.
  destruct t as [d|]; [|discriminate]. rewrite calcular_promedio_Some.
  intros [= <-].
  apply (media_float_cotas 300); [lia | discriminate | |].
  - cbn [List.length]. rewrite length_map.
    unfold consultar_ultimos_ciclos. rewrite length_firstn.
    apply Z.le_lt_trans with 5; [lia | reflexivity].
  - constructor; [now apply Ht|].
    apply Forall_forall. intros q Hq. apply in_map_iff in Hq.
    destruct Hq as [c [<- Hc]]. apply consultar_ultimos_ciclos_In in Hc.
    apply ciclos_validos_hoy_In in Hc. destruct Hc as [Hin [_ [[q Hq] _]]].
    rewrite Hq. cbn [float_de_columna].
    apply (redondear_entre_enteros 0 300); [reflexivity..|].
    exact (Hdb c q Hin Hq).
Qed.

(** X5. If every recorded cycle time lies between 0 and 300 seconds, so
    does every one after a request, and so does the answered average. *)
Theorem historial_acotado_se_conserva (db : BaseDatos) (ciclo : CicloRequest)
    (ahora : datetime) (current_date : date) :
  historial_acotado db ->
  historial_acotado (fst (registrar_ciclo ciclo ahora current_date db))
  /\ forall r m,
       snd (registrar_ciclo ciclo ahora current_date db) = Ok r ->
       r_promedio_5_ciclos r = Some m -> (0 <= m <= 300)%Q.
Proof.
  intros Hdb.
  destruct (consultar_tarea_activa db (c_id_operario ciclo)) as [tarea|] eqn:Ht.
  - rewrite (registrar_ciclo_Ok ciclo ahora current_date db tarea Ht).
    cbn [fst snd]. split.
    + intros c d Hin Hd. cbn [Registros_Ciclos] in Hin.
      apply in_app_or in Hin. destruct Hin as [Hin|[<-|[]]].
      * exact (Hdb c d Hin Hd).
      * cbn [tiempo_ciclo_s] in Hd.
        exact (calcular_tiempo_ciclo_cota _ _ _ _ Hd).
    + intros r m [= <-]. cbn [r_promedio_5_ciclos].
      apply calcular_promedio_cotas; [exact Hdb|].
      intros d Hd. exact (calcular_tiempo_ciclo_cota _ _ _ _ Hd).
  - unfold registrar_ciclo, get_db_connection, registrar_ciclo_cuerpo.
    rewrite Ht. cbn [fst snd]. split; [exact Hdb | discriminate].
Qed.

Lemma historial_acotado_se_conserva_witness :
  historial_acotado
    (fst (registrar_ciclo op_ejemplo (t_previo + segundos 10) 0
            db_ciclo_de_once)).
Proof.
  refine (proj1 (historial_acotado_se_conserva db_ciclo_de_once op_ejemplo
                   (t_previo + segundos 10) 0 _)).
  intros c d [<-|[]] [= <-]. vm_compute. split; discriminate.
Defined.

Lemma calcular_tiempo_ciclo_con_pausa (db : BaseDatos) (id_operario : Z)
    (ahora : datetime) (p : RegistroPausa) :
  (forall u, es_ultimo_ciclo db id_operario u ->
             rp_id_operario p <> id_operario
             \/ hora_inicio_pausa p <= u \/ ahora <= hora_inicio_pausa p) ->
  calcular_tiempo_ciclo (con_pausa db p) id_operario ahora
  = calcular_tiempo_ciclo db id_operario ahora.
Proof.
  intros Hp. unfold calcular_tiempo_ciclo.
  change (consultar_ultimo_ciclo (con_pausa db p) id_operario)
    with (consultar_ultimo_ciclo db id_operario).
  destruct (consultar_ultimo_ciclo db id_operario) as [u|] eqn:E;
    [|reflexivity].
  apply consultar_ultimo_ciclo_spec in E. specialize (Hp u E).
  assert (Hf : (rp_id_operario p =? id_operario) && en_ventana u ahora p
               = false).
  { unfold en_ventana.
    destruct (Z.eqb_spec (rp_id_operario p) id_operario) as [Hop|_];
      [|reflexivity].
    destruct (Z.ltb_spec u (hora_inicio_pausa p));
      destruct (Z.ltb_spec (hora_inicio_pausa p) ahora);
      try reflexivity.
    exfalso. destruct Hp as [Hp|Hp]; [contradiction | lia]. }
  unfold consultar_tiempo_total_pausas, consultar_pausas_sin_finalizar.
  cbn [con_pausa Registros_Pausas]. rewrite !filter_app_uno.
  assert (H1 : (rp_id_operario p =? id_operario) && eqb (finalizada p) true
               && en_ventana u ahora p = false).
  { destruct (eqb (finalizada p) true);
      [now rewrite andb_true_r | now rewrite andb_false_r]. }
  assert (H2 : (rp_id_operario p =? id_operario) && eqb (finalizada p) false
               && en_ventana u ahora p = false).
  { destruct (eqb (finalizada p) false);
      [now rewrite andb_true_r | now rewrite andb_false_r]. }
  rewrite H1, H2, !app_nil_r. reflexivity.
Qed.

(** X6. A pause of another operator, or one started at or before the
    operator's last cycle, or at or after now, never changes the answer:
    with that row added to the pause table, finished or not and whatever
    its end and duration, the response is the same. *)
Theorem pausa_fuera_de_ventana_no_cuenta (db : BaseDatos)
    (ciclo : CicloRequest) (ahora : datetime) (current_date : date)
    (p : RegistroPausa) :
  (forall u, es_ultimo_ciclo db (c_id_operario ciclo) u ->
             rp_id_operario p <> c_id_operario ciclo
             \/ hora_inicio_pausa p <= u \/ ahora <= hora_inicio_pausa p) ->
  snd (registrar_ciclo ciclo ahora current_date (con_pausa db p))
  = snd (registrar_ciclo ciclo ahora current_date db).
Proof.
  intros Hp.
  destruct (consultar_tarea_activa db (c_id_operario ciclo)) as [tarea|] eqn:Ht.
  - rewrite (registrar_ciclo_Ok ciclo ahora current_date db tarea Ht).
    rewrite (registrar_ciclo_Ok ciclo ahora current_date (con_pausa db p)
               tarea Ht).
    cbn [snd]. rewrite (calcular_tiempo_ciclo_con_pausa _ _ _ _ Hp).
    reflexivity.
  - unfold registrar_ciclo, get_db_connection, registrar_ciclo_cuerpo.
    change (consultar_tarea_activa (con_pausa db p) (c_id_operario ciclo))
      with (consultar_tarea_activa db (c_id_operario ciclo)).
    rewrite Ht. reflexivity.
Qed.

Lemma pausa_fuera_de_ventana_no_cuenta_witness :
  snd (registrar_ciclo op_ejemplo (t_previo + segundos 20) 0
         (con_pausa db_un_ciclo
            (mkRegistroPausa 1 3582 (t_previo - segundos 5)
               (Some (t_previo + segundos 9)) None (Some 14) true)))
  = snd (registrar_ciclo op_ejemplo (t_previo + segundos 20) 0 db_un_ciclo).
Proof.
  apply (pausa_fuera_de_ventana_no_cuenta db_un_ciclo op_ejemplo
           (t_previo + segundos 20) 0).
  intros u [[c [[<-|[]] [_ <-]]] _]. right. left. vm_compute. discriminate.
Defined.

(** ** Further properties of POST /api/pausa *)

Lemma length_filter_map_le {A : Type} (f : A -> bool) (g : A -> A)
    (l : list A) :
  (forall x, f (g x) = true -> f x = true) ->
  (List.length (filter f (map g l)) <= List.length (filter f l))%nat.
Proof.
  intros H. induction l as [|x l IH]; simpl; [lia|].
  destruct (f (g x)) eqn:E.
  - rewrite (H x E). simpl. lia.
  - destruct (f x); simpl; lia.
Qed.

Lemma cerrar_pausa_abierta (id : Z) (hora_fin : datetime) (dur : Z)
    (id_operario : Z) (p : RegistroPausa) :
  (rp_id_operario (cerrar_pausa id hora_fin dur p) =? id_operario)
  && eqb (finalizada (cerrar_pausa id hora_fin dur p)) false = true ->
  cerrar_pausa id hora_fin dur p = p /\ id_pausa p <> id.
Proof.
  unfold cerrar_pausa. destruct (Z.eqb_spec (id_pausa p) id) as [Heq|Hne].
  - cbn [rp_id_operario finalizada eqb]. rewrite andb_false_r. discriminate.
  - intros _. now split.
Qed.

Lemma pausas_abiertas_INICIO (db : BaseDatos) (fila : RegistroPausa)
    (n1 n2 : Z) (id_operario : Z) :
  finalizada fila = false ->
  pausas_abiertas
    (mkBaseDatos (Operario_Tarea db) (Tareas db) (Registros_Ciclos db)
                 (Registros_Pausas db ++ [fila])%list n1 n2) id_operario
  = (pausas_abiertas db id_operario
     ++ if rp_id_operario fila =? id_operario then [fila] else [])%list.
Proof.
  intros Hf. unfold pausas_abiertas. cbn [Registros_Pausas].
  rewrite filter_app_uno, Hf. cbn [eqb]. now rewrite andb_true_r.
Qed.

Lemma pausas_abiertas_FIN (db : BaseDatos) (id : Z) (hora_fin : datetime)
    (dur n1 n2 : Z) (id_operario : Z) :
  (List.length
     (pausas_abiertas
        (mkBaseDatos (Operario_Tarea db) (Tareas db) (Registros_Ciclos db)
                     (map (cerrar_pausa id hora_fin dur) (Registros_Pausas db))
                     n1 n2) id_operario)
   <= List.length (pausas_abiertas db id_operario))%nat.
Proof.
  unfold pausas_abiertas. cbn [Registros_Pausas].
  apply length_filter_map_le. intros p Hp.
  destruct (cerrar_pausa_abierta _ _ _ _ _ Hp) as [Heq _].
  now rewrite Heq in Hp.
Qed.

(** X7. Neither handler ever gives an operator a second unfinished pause:
    if no operator has two of them, none has after any request. *)
Theorem una_pausa_abierta_se_conserva (db : BaseDatos) :
  a_lo_sumo_una_abierta db ->
  (forall pausa ahora,
     a_lo_sumo_una_abierta (fst (registrar_pausa pausa ahora db)))
  /\ (forall ciclo ahora current_date,
        a_lo_sumo_una_abierta
          (fst (registrar_ciclo ciclo ahora current_date db))).
Proof.
  intros Hinv. split.
  - intros [op [|] m] ahora otro.
    + destruct (pausas_abiertas db op) as [|p0 l] eqn:E.
      * rewrite (registrar_pausa_INICIO_aceptada db op m ahora E).
        cbn [fst]. rewrite pausas_abiertas_INICIO by reflexivity.
        cbn [rp_id_operario]. rewrite length_app.
        destruct (Z.eqb_spec op otro) as [<-|_].
        -- rewrite E. simpl. lia.
        -- specialize (Hinv otro). simpl. lia.
      * rewrite (registrar_pausa_INICIO_rechazada db op m ahora)
          by (rewrite E; discriminate).
        apply Hinv.
    + destruct (pausas_abiertas db op) as [|p0 l] eqn:E.
      * rewrite (registrar_pausa_FIN_rechazada db op m ahora E). apply Hinv.
      * destruct (registrar_pausa_FIN_aceptada db op m ahora) as [p [_ Hf]];
          [rewrite E; discriminate|].
        cbv zeta in Hf. rewrite Hf. cbn [fst].
        eapply Nat.le_trans; [apply pausas_abiertas_FIN | apply Hinv].
  - intros ciclo ahora current_date otro.
    destruct (consultar_tarea_activa db (c_id_operario ciclo)) as [t|] eqn:Ht.
    + rewrite (registrar_ciclo_Ok ciclo ahora current_date db t Ht).
      apply Hinv.
    + unfold registrar_ciclo, get_db_connection, registrar_ciclo_cuerpo.
      rewrite Ht. apply Hinv.
Qed.

Lemma una_pausa_abierta_se_conserva_witness :
  a_lo_sumo_una_abierta
    (fst (registrar_pausa (mkPausaRequest 3582 INICIO None)
            (t_previo + segundos 30) db_pausa_abierta)).
Proof.
  refine (proj1 (una_pausa_abierta_se_conserva db_pausa_abierta _) _ _).
  intros otro. unfold pausas_abiertas.
  cbn [db_pausa_abierta Registros_Pausas filter rp_id_operario finalizada].
  destruct (3582 =? otro); simpl; lia.
Defined.

(** X8. Opening a pause for an operator without an unfinished one and then
    closing it: both requests are answered, the second with the key of the
    first and the whole seconds between the two instants, and afterwards
    the operator has no unfinished pause again. *)
Theorem pausa_abrir_y_cerrar (db : BaseDatos) (id_operario : Z)
    (m m' : option string) (t1 t2 : datetime) :
  ~ tiene_pausa_abierta db id_operario ->
  exists r1 r2,
    snd (registrar_pausa (mkPausaRequest id_operario INICIO m) t1 db) = Ok r1
    /\ snd (registrar_pausa (mkPausaRequest id_operario FIN m') t2
              (fst (registrar_pausa (mkPausaRequest id_operario INICIO m)
                      t1 db))) = Ok r2
    /\ r_id_pausa r2 = r_id_pausa r1
    /\ r_duracion_s r1 = None
    /\ r_duracion_s r2 = Some (Z.quot (t2 - t1) 1000000)
    /\ ~ tiene_pausa_abierta
           (fst (registrar_pausa (mkPausaRequest id_operario FIN m') t2
                   (fst (registrar_pausa
                           (mkPausaRequest id_operario INICIO m) t1 db))))
           id_operario.
Proof.
  intros Hno.
  assert (Hnil : pausas_abiertas db id_operario = []).
  { destruct (pausas_abiertas db id_operario) eqn:E; [reflexivity|].
    exfalso. apply Hno. apply tiene_pausa_abierta_spec. rewrite E.
    discriminate. }
  rewrite (registrar_pausa_INICIO_aceptada db id_operario m t1 Hnil).
  cbn [fst snd].
  match goal with
  | |- context [registrar_pausa _ t2 ?d] => set (db1 := d)
  end.
  assert (Hab : pausas_abiertas db1 id_operario
                = [mkRegistroPausa (sig_id_pausa db) id_operario t1 None m
                                   None false]).
  { unfold db1. rewrite pausas_abiertas_INICIO by reflexivity.
    cbn [rp_id_operario]. now rewrite Hnil, Z.eqb_refl. }
  destruct (registrar_pausa_FIN_aceptada db1 id_operario m' t2)
    as [p [Hhd Hf]]; [rewrite Hab; discriminate|].
  rewrite Hab in Hhd. cbn in Hhd. injection Hhd as <-.
  cbv zeta in Hf. cbn [hora_inicio_pausa id_pausa] in Hf. rewrite Hf.
  cbn [fst snd]. eexists. eexists.
  split; [reflexivity|]. split; [reflexivity|].
  cbn [r_id_pausa r_duracion_s]. repeat (split; [reflexivity|]).
  intros [q' [Hin [Hop Hfin]]]. cbn [Registros_Pausas] in Hin.
  apply in_map_iff in Hin. destruct Hin as [q [Hq Hin]]. subst q'.
  assert (Hopen : (rp_id_operario
                     (cerrar_pausa (sig_id_pausa db) t2
                        (Z.quot (t2 - t1) 1000000) q) =? id_operario)
                  && eqb (finalizada
                            (cerrar_pausa (sig_id_pausa db) t2
                               (Z.quot (t2 - t1) 1000000) q)) false = true).
  { rewrite Hop, Z.eqb_refl, Hfin. reflexivity. }
  destruct (cerrar_pausa_abierta _ _ _ _ _ Hopen) as [Heq Hid].
  rewrite Heq in Hop, Hfin.
  assert (Hq : In q (pausas_abiertas db1 id_operario))
    by (apply pausas_abiertas_In; tauto).
  rewrite Hab in Hq. destruct Hq as [<-|[]]. now apply Hid.
Qed.

Lemma pausa_abrir_y_cerrar_witness :
  exists r1 r2,
    snd (registrar_pausa (mkPausaRequest 3582 INICIO None) t_previo
           db_pausa_cerrada) = Ok r1
    /\ snd (registrar_pausa (mkPausaRequest 3582 FIN None)
              (t_previo + 7500000)
              (fst (registrar_pausa (mkPausaRequest 3582 INICIO None)
                      t_previo db_pausa_cerrada))) = Ok r2
    /\ r_id_pausa r2 = r_id_pausa r1
    /\ r_duracion_s r2 = Some 7.
Proof.
  destruct (pausa_abrir_y_cerrar db_pausa_cerrada 3582 None None t_previo
              (t_previo + 7500000))
    as [r1 [r2 [H1 [H2 [Hid [_ [Hdur _]]]]]]].
  - intros [p [[<-|[]] [_ Hfin]]]. discriminate Hfin.
  - exists r1, r2. repeat (split; [assumption|]). exact Hdur.
Defined.

(** *** The row that is closed *)

Lemma map_cerrar_pausa_otras (id : Z) (hora_fin : datetime) (dur : Z)
    (l : list RegistroPausa) :
  ~ In id (map id_pausa l) -> map (cerrar_pausa id hora_fin dur) l = l.
Proof.
  intros Hno. rewrite <- (map_id l) at 2. apply map_ext_in.
  intros q Hq. unfold cerrar_pausa.
  destruct (Z.eqb_spec (id_pausa q) id) as [Heq|_]; [|reflexivity].
  exfalso. apply Hno. rewrite <- Heq. now apply in_map.
Qed.

(** X10. With pairwise distinct pause keys, closing a pause rewrites one
    row and nothing else: the pause table before and after the answered
    request splits around the chosen row, which becomes the finished row
    with end time now and the answered duration. *)
Theorem fin_modifica_una_sola_fila (db : BaseDatos) (id_operario : Z)
    (m : option string) (ahora : datetime) :
  NoDup (map id_pausa (Registros_Pausas db)) ->
  tiene_pausa_abierta db id_operario ->
  exists l1 p l2 dur,
    Registros_Pausas db = (l1 ++ p :: l2)%list
    /\ rp_id_operario p = id_operario
    /\ finalizada p = false
    /\ snd (registrar_pausa (mkPausaRequest id_operario FIN m) ahora db)
       = Ok (mkPausaResponse (id_pausa p)
               ("Pausa finalizada. Duración: " ++ str_of_int dur
                ++ "s (" ++ str_of_int (dur / 60) ++ "min)")
               (Some dur))
    /\ dur = Z.quot (ahora - hora_inicio_pausa p) 1000000
    /\ Registros_Pausas
         (fst (registrar_pausa (mkPausaRequest id_operario FIN m) ahora db))
       = (l1 ++ mkRegistroPausa (id_pausa p) id_operario (hora_inicio_pausa p)
                  (Some ahora) (motivo p) (Some dur) true :: l2)%list.
Proof.
  intros Hnd Hab. apply tiene_pausa_abierta_spec in Hab.
  destruct (registrar_pausa_FIN_aceptada db id_operario m ahora Hab)
    as [p [Hhd Hf]].
  cbv zeta in Hf. rewrite Hf. cbn [fst snd Registros_Pausas].
  apply hd_order_by_desc_Some in Hhd. destruct Hhd as [Hin _].
  apply pausas_abiertas_In in Hin. destruct Hin as [Hin [Hop Hfin]].
  destruct (in_split _ _ Hin) as [l1 [l2 Hsplit]].
  exists l1, p, l2, (Z.quot (ahora - hora_inicio_pausa p) 1000000).
  split; [exact Hsplit|]. split; [exact Hop|]. split; [exact Hfin|].
  split; [reflexivity|]. split; [reflexivity|].
  rewrite Hsplit in Hnd |- *. rewrite map_app in Hnd. cbn [map] in Hnd.
  pose proof (NoDup_remove_2 _ _ _ Hnd) as Hnotin.
  rewrite map_app. cbn [map].
  rewrite (map_cerrar_pausa_otras _ _ _ l1), (map_cerrar_pausa_otras _ _ _ l2).
  - unfold cerrar_pausa at 1. now rewrite Z.eqb_refl, Hop.
  - intros H. apply Hnotin. apply in_or_app. now right.
  - intros H. apply Hnotin. apply in_or_app. now left.
Qed.

Lemma fin_modifica_una_sola_fila_witness :
  exists l1 p l2 dur,
    Registros_Pausas db_dos_pausas_abiertas = (l1 ++ p :: l2)%list
    /\ Registros_Pausas
         (fst (registrar_pausa (mkPausaRequest 3582 FIN None)
                 (t_previo + 37500000) db_dos_pausas_abiertas))
       = (l1 ++ mkRegistroPausa (id_pausa p) 3582 (hora_inicio_pausa p)
                  (Some (t_previo + 37500000)) (motivo p) (Some dur) true
             :: l2)%list.
Proof.
  destruct (fin_modifica_una_sola_fila db_dos_pausas_abiertas 3582 None
              (t_previo + 37500000))
    as [l1 [p [l2 [dur [H1 [_ [_ [_ [_ H2]]]]]]]]].
  - cbn [db_dos_pausas_abiertas Registros_Pausas map id_pausa].
    repeat constructor; simpl; intuition discriminate.
  - eexists. split; [left; reflexivity|]. split; reflexivity.
  - exists l1, p, l2, dur. split; [exact H1 | exact H2].
Defined.

(** *** A pause between two cycles *)

Lemma cerrar_pausa_campos (id : Z) (hora_fin : datetime) (dur : Z)
    (p : RegistroPausa) :
  rp_id_operario (cerrar_pausa id hora_fin dur p) = rp_id_operario p
  /\ hora_inicio_pausa (cerrar_pausa id hora_fin dur p) = hora_inicio_pausa p.
Proof. unfold cerrar_pausa. now destruct (id_pausa p =? id). Qed.

(** The database after opening and closing a pause. *)
Lemma registrar_pausa_abrir_cerrar (db : BaseDatos) (id_operario : Z)
    (m m' : option string) (t1 t2 : datetime) :
  pausas_abiertas db id_operario = [] ->
  fst (registrar_pausa (mkPausaRequest id_operario FIN m') t2
         (fst (registrar_pausa (mkPausaRequest id_operario INICIO m) t1 db)))
  = mkBaseDatos (Operario_Tarea db) (Tareas db) (Registros_Ciclos db)
      (map (cerrar_pausa (sig_id_pausa db) t2 (Z.quot (t2 - t1) 1000000))
           (Registros_Pausas db
            ++ [mkRegistroPausa (sig_id_pausa db) id_operario t1 None m None
                                false]))%list
      (sig_id_registro db) (sig_id_pausa db + 1).
Proof.
  intros Hnil.
  rewrite (registrar_pausa_INICIO_aceptada db id_operario m t1 Hnil).
  cbn [fst].
  match goal with
  | |- context [registrar_pausa _ t2 ?d] => set (db1 := d)
  end.
  assert (Hab : pausas_abiertas db1 id_operario
                = [mkRegistroPausa (sig_id_pausa db) id_operario t1 None m
                                   None false]).
  { unfold db1. rewrite pausas_abiertas_INICIO by reflexivity.
    cbn [rp_id_operario]. now rewrite Hnil, Z.eqb_refl. }
  destruct (registrar_pausa_FIN_aceptada db1 id_operario m' t2)
    as [p [Hhd Hf]]; [rewrite Hab; discriminate|].
  rewrite Hab in Hhd. cbn in Hhd. injection Hhd as <-.
  cbv zeta in Hf. cbn [hora_inicio_pausa id_pausa] in Hf. rewrite Hf.
  reflexivity.
Qed.

(** X11. A cycle, a pause opened and closed, a cycle: with the first cycle
    the operator's last one at [t0], no other pause of the operator started
    in the window and the pause opened strictly inside it, the second cycle
    is answered with the float difference of the seconds since [t0] and the
    whole seconds of the pause, when that lies within the outlier bounds;
    it is exactly their difference when the cycles are whole seconds
    apart. *)
Theorem pausa_cerrada_se_descuenta (db : BaseDatos) (ciclo : CicloRequest)
    (m m' : option string) (t0 t1 t2 t3 : datetime) (current_date : date)
    (tarea : Tarea) :
  consultar_tarea_activa db (c_id_operario ciclo) = Some tarea ->
  es_ultimo_ciclo db (c_id_operario ciclo) t0 ->
  ~ tiene_pausa_abierta db (c_id_operario ciclo) ->
  (forall p, In p (Registros_Pausas db) ->
             rp_id_operario p = c_id_operario ciclo ->
             ~ t0 < hora_inicio_pausa p < t3) ->
  t0 < t1 < t3 ->
  let pausa_s := Z.quot (t2 - t1) 1000000 in
  let d := fsub (redondear (total_seconds (t3 - t0))) (float_of_int pausa_s) in
  (0 <= d <= 300)%Q ->
  exists r,
    snd (registrar_ciclo ciclo t3 current_date
           (fst (registrar_pausa
                   (mkPausaRequest (c_id_operario ciclo) FIN m') t2
                   (fst (registrar_pausa
                           (mkPausaRequest (c_id_operario ciclo) INICIO m)
                           t1 db))))) = Ok r
    /\ r_tiempo_ciclo_s r = Some d
    /\ forall k, t3 - t0 = segundos k ->
                 Z.abs k < 2 ^ 52 -> Z.abs pausa_s < 2 ^ 52 ->
                 (d == inject_Z (k - pausa_s))%Q.
Proof.
  intros Ht Hu Hno Hp Ht1 pausa_s d [Hlo Hhi].
  set (op := c_id_operario ciclo) in *.
  assert (Hnil : pausas_abiertas db op = []).
  { destruct (pausas_abiertas db op) eqn:E; [reflexivity|].
    exfalso. apply Hno. apply tiene_pausa_abierta_spec. rewrite E.
    discriminate. }
  rewrite (registrar_pausa_abrir_cerrar db op m m' t1 t2 Hnil).
  fold pausa_s. set (dur := pausa_s) in *.
  set (fila := mkRegistroPausa (sig_id_pausa db) op t1 None m None false).
  match goal with
  | |- context [registrar_ciclo ciclo t3 current_date ?d] => set (db2 := d)
  end.
  assert (Ht2 : consultar_tarea_activa db2 (c_id_operario ciclo) = Some tarea)
    by exact Ht.
  rewrite (registrar_ciclo_Ok ciclo t3 current_date db2 tarea Ht2).
  cbn [snd]. eexists. split; [reflexivity|]. cbn [r_tiempo_ciclo_s].
  split;
    [|intros k Hk Hk52 Hs52; unfold d; rewrite Hk;
      now apply fsub_segundos_enteros].
  fold op.
  assert (Hu2 : es_ultimo_ciclo db2 op t0) by exact Hu.
  assert (Hviejas : forall q, In q (Registros_Pausas db) ->
            (rp_id_operario (cerrar_pausa (sig_id_pausa db) t2 dur q) =? op)
            && (t0 <? hora_inicio_pausa
                        (cerrar_pausa (sig_id_pausa db) t2 dur q))
            && (hora_inicio_pausa (cerrar_pausa (sig_id_pausa db) t2 dur q)
                <? t3) = false).
  { intros q Hq.
    destruct (cerrar_pausa_campos (sig_id_pausa db) t2 dur q) as [-> ->].
    destruct (Z.eqb_spec (rp_id_operario q) op) as [Hop|_]; [|reflexivity].
    specialize (Hp q Hq Hop).
    destruct (Z.ltb_spec t0 (hora_inicio_pausa q));
      destruct (Z.ltb_spec (hora_inicio_pausa q) t3); try reflexivity.
    exfalso. apply Hp. lia. }
  assert (Hno2 : ~ pausa_abierta_en_ventana db2 op t0 t3).
  { intros [q' [Hin [Hop [Hfin Hv]]]]. cbn [db2 Registros_Pausas] in Hin.
    rewrite map_app in Hin. apply in_app_or in Hin.
    destruct Hin as [Hin|[<-|[]]].
    - apply in_map_iff in Hin. destruct Hin as [q [<- Hq]].
      specialize (Hviejas q Hq). rewrite Hop, Z.eqb_refl in Hviejas.
      destruct Hv as [Hv1 Hv2]. apply Z.ltb_lt in Hv1, Hv2.
      rewrite Hv1, Hv2 in Hviejas. discriminate.
    - unfold cerrar_pausa, fila in Hfin. cbn [id_pausa] in Hfin.
      rewrite Z.eqb_refl in Hfin. discriminate. }
  assert (Hsuma : suma_duraciones (pausas_cerradas_en_ventana db2 op t0 t3)
                  = dur).
  { unfold pausas_cerradas_en_ventana. cbn [db2 Registros_Pausas].
    rewrite map_app, filter_app.
    rewrite (filter_nil_por_falso _ (map _ (Registros_Pausas db))).
    - assert (Hc : cerrar_pausa (sig_id_pausa db) t2 dur fila
                   = mkRegistroPausa (sig_id_pausa db) op t1 (Some t2) m
                                     (Some dur) true).
      { unfold cerrar_pausa, fila. cbn [id_pausa]. now rewrite Z.eqb_refl. }
      cbn [map app]. rewrite Hc.
      cbn [filter rp_id_operario finalizada hora_inicio_pausa].
      rewrite Z.eqb_refl. destruct Ht1 as [H1 H2].
      apply Z.ltb_lt in H1, H2. rewrite H1, H2. cbn [andb].
      cbn [suma_duraciones fold_right duracion_s]. apply Z.add_0_r.
    - intros q' Hin. apply in_map_iff in Hin. destruct Hin as [q [<- Hq]].
      specialize (Hviejas q Hq).
      destruct (rp_id_operario _ =? op); [|reflexivity].
      destruct (finalizada _); [|reflexivity].
      cbn [andb] in *. exact Hviejas. }
  rewrite (calcular_tiempo_ciclo_sin_pausa_abierta _ _ _ _ Hu2 Hno2), Hsuma.
  fold d. apply Qgt_bool_false in Hhi. apply Qlt_bool_false in Hlo.
  now rewrite Hhi, Hlo.
Qed.

Lemma pausa_cerrada_se_descuenta_witness :
  exists r d,
    snd (registrar_ciclo op_ejemplo (t_previo + segundos 20) 0
           (fst (registrar_pausa (mkPausaRequest 3582 FIN None)
                   (t_previo + 9500000)
                   (fst (registrar_pausa (mkPausaRequest 3582 INICIO None)
                           (t_previo + segundos 2) db_un_ciclo))))) = Ok r
    /\ r_tiempo_ciclo_s r = Some d
    /\ (d == 13 # 1)%Q.
Proof.
  destruct (pausa_cerrada_se_descuenta db_un_ciclo op_ejemplo None None
              t_previo (t_previo + segundos 2) (t_previo + 9500000)
              (t_previo + segundos 20) 0 tarea_ejemplo) as [r [Hr [Hd Hk]]].
  - reflexivity.
  - ultimo_de_un_ciclo.
  - intros [p [[] _]].
  - intros p [].
  - vm_compute. split; reflexivity.
  - vm_compute. split; discriminate.
  - exists r. eexists. split; [exact Hr|]. split; [exact Hd|].
    rewrite (Hk 20); vm_compute; reflexivity.
Defined.

(** ** GET /api/metricas/{id_operario} *)

Lemma consultar_operario_info_spec (Operarios : list Operario)
    (db : BaseDatos) (id_operario : Z) :
  (exists x, consultar_operario_info Operarios db id_operario = Some x)
  <-> (exists o, In o Operarios /\ o_id_operario o = id_operario)
      /\ tiene_tarea_activa db id_operario.
Proof.
  unfold consultar_operario_info, tiene_tarea_activa. split.
  - intros [x Hx]. apply hd_error_In in Hx. apply in_flat_map in Hx.
    destruct Hx as [o [Ho Hx]].
    destruct (Z.eqb_spec (o_id_operario o) id_operario) as [Hid|_];
      [|destruct Hx].
    apply in_flat_map in Hx. destruct Hx as [ot [Hot Hx]].
    destruct ((o_id_operario o =? ot_id_operario ot) && activa ot) eqn:E;
      [|destruct Hx].
    apply andb_true_iff in E. destruct E as [Hop Hact].
    apply Z.eqb_eq in Hop. apply in_map_iff in Hx.
    destruct Hx as [t [_ Ht]]. apply filter_In in Ht.
    destruct Ht as [Ht Htid]. apply Z.eqb_eq in Htid. split.
    + now exists o.
    + exists ot, t. repeat split; try assumption. congruence.
  - intros [[o [Ho Hid]] [ot [t [Hot [Ht [Hop [Hact Htid]]]]]]].
    apply In_hd_error with (x := (o, t)). apply in_flat_map.
    exists o. split; [exact Ho|]. rewrite Hid, Z.eqb_refl.
    apply in_flat_map. exists ot. split; [exact Hot|].
    rewrite Hop, Z.eqb_refl, Hact. cbn [andb]. apply in_map.
    apply filter_In. split; [exact Ht|]. now apply Z.eqb_eq.
Qed.

Lemma obtener_metricas_Ok (Operarios : list Operario) (id_operario : Z)
    (ahora : datetime) (current_date : date) (db : BaseDatos)
    (r : MetricasResponse) :
  snd (obtener_metricas Operarios id_operario ahora current_date db) = Ok r ->
  exists o t,
    consultar_operario_info Operarios db id_operario = Some (o, t)
    /\ obtener_metricas_cuerpo Operarios id_operario ahora current_date db
       = (db, Ok r).
Proof.
  unfold obtener_metricas, get_db_connection.
  destruct (obtener_metricas_cuerpo Operarios id_operario ahora current_date
              db) as [db' res] eqn:E.
  unfold obtener_metricas_cuerpo in E.
  destruct (consultar_operario_info Operarios db id_operario) as [[o t]|].
  - injection E as <- <-. cbn [snd]. intros [= <-]. now exists o, t.
  - injection E as <- <-. discriminate.
Qed.

(** X12. The metrics are refused, with status 404, exactly when the
    operator is missing from the operator table or has no active assignment
    to a task of the task table; answered or refused, the request leaves
    the database as it was. *)
Theorem obtener_metricas_rechazo (Operarios : list Operario)
    (id_operario : Z) (ahora : datetime) (current_date : date)
    (db : BaseDatos) :
  (~ ((exists o, In o Operarios /\ o_id_operario o = id_operario)
      /\ tiene_tarea_activa db id_operario)
   <-> snd (obtener_metricas Operarios id_operario ahora current_date db)
       = HTTPException HTTP_404_NOT_FOUND
           ("Operario " ++ str_of_int id_operario ++ " no encontrado"))
  /\ (((exists o, In o Operarios /\ o_id_operario o = id_operario)
       /\ tiene_tarea_activa db id_operario)
      <-> exists r,
            snd (obtener_metricas Operarios id_operario ahora current_date db)
            = Ok r)
  /\ fst (obtener_metricas Operarios id_operario ahora current_date db) = db.
Proof.
  rewrite <- consultar_operario_info_spec.
  unfold obtener_metricas, get_db_connection, obtener_metricas_cuerpo.
  destruct (consultar_operario_info Operarios db id_operario) as [[o t]|].
  - cbn [fst snd]. split; [|split; [|reflexivity]]; split.
    + intros H. exfalso. apply H. eexists. reflexivity.
    + discriminate.
    + intros _. eexists. reflexivity.
    + intros _. eexists. reflexivity.
  - cbn [fst snd]. split; [|split; [|reflexivity]]; split.
    + reflexivity.
    + intros _ [x Hx]. discriminate Hx.
    + intros [x Hx]. discriminate Hx.
    + intros [r Hr]. discriminate Hr.
Qed.

Lemma es_verdadero_Some (q : Q) :
  es_verdadero (Some q) = true <-> ~ (q == 0)%Q.
Proof.
  cbn [es_verdadero]. rewrite negb_true_iff, <- not_true_iff_false.
  now rewrite Qeq_bool_iff.
Qed.

Lemma float_si_verdadero_Some (o : option Q) (q : Q) :
  float_si_verdadero o = Some q
  <-> exists x, o = Some x /\ ~ (x == 0)%Q /\ q = redondear x.
Proof.
  unfold float_si_verdadero. destruct o as [x|].
  - destruct (es_verdadero (Some x)) eqn:E.
    + apply es_verdadero_Some in E. split.
      * intros [= <-]. now exists x.
      * intros [x' [[= <-] [_ ->]]]. reflexivity.
    + split; [discriminate|]. intros [x' [[= <-] [Hq _]]].
      apply es_verdadero_Some in Hq. congruence.
  - split; [discriminate | intros [x' [Hx _]]; discriminate Hx].
Qed.

Lemma float_si_verdadero_None (o : option Q) :
  float_si_verdadero o = None
  <-> o = None \/ exists x, o = Some x /\ (x == 0)%Q.
Proof.
  unfold float_si_verdadero. destruct o as [x|].
  - cbn [es_verdadero]. destruct (Qeq_bool x (0 # 1)) eqn:E; cbn [negb].
    + apply Qeq_bool_iff in E. split; [|reflexivity].
      intros _. right. now exists x.
    + split; [discriminate|]. intros [H|[x' [[= <-] Hx]]]; [discriminate|].
      apply Qeq_bool_iff in Hx. congruence.
  - split; [now left | reflexivity].
Qed.

(** X13. In an answered request, [en_pausa] holds exactly when the
    operator has an unfinished pause, and the seconds in pause are present
    exactly then: the whole seconds from the start of an unfinished pause
    of the operator to now. *)
Theorem metricas_estado_de_pausa (Operarios : list Operario)
    (id_operario : Z) (ahora : datetime) (current_date : date)
    (db : BaseDatos) (r : MetricasResponse) :
  snd (obtener_metricas Operarios id_operario ahora current_date db) = Ok r ->
  (m_en_pausa r = true <-> tiene_pausa_abierta db id_operario)
  /\ match m_tiempo_pausa_actual_s r with
     | Some s =>
         m_en_pausa r = true
         /\ exists p, In p (Registros_Pausas db)
                      /\ rp_id_operario p = id_operario
                      /\ finalizada p = false
                      /\ s = Z.quot (ahora - hora_inicio_pausa p) 1000000
     | None => m_en_pausa r = false
     end.
Proof.
  intros Hr. destruct (obtener_metricas_Ok _ _ _ _ _ _ Hr) as [o [t [Hi Hc]]].
  unfold obtener_metricas_cuerpo in Hc. rewrite Hi in Hc.
  injection Hc as <-. cbn [m_en_pausa m_tiempo_pausa_actual_s].
  rewrite tiene_pausa_abierta_spec.
  destruct (pausas_abiertas db id_operario) as [|p l] eqn:E; cbn.
  - split; [|reflexivity]. split; [discriminate | congruence].
  - split; [split; [discriminate | reflexivity]|].
    split; [reflexivity|]. exists p.
    assert (Hp : In p (pausas_abiertas db id_operario))
      by (rewrite E; now left).
    apply pausas_abiertas_In in Hp. tauto.
Qed.

Lemma metricas_estado_de_pausa_witness :
  exists r,
    snd (obtener_metricas operarios_ejemplo 3582 (t_previo + 30500000) 0
           db_pausa_abierta) = Ok r
    /\ (m_en_pausa r = true <-> tiene_pausa_abierta db_pausa_abierta 3582).
Proof.
  eexists. split; [reflexivity|].
  exact (proj1 (metricas_estado_de_pausa operarios_ejemplo 3582
                  (t_previo + 30500000) 0 db_pausa_abierta _ eq_refl)).
Defined.

Lemma consultar_ciclos_info_validos (db : BaseDatos) (id_operario : Z)
    (current_date : date) :
  consultar_ciclos_info db id_operario current_date
  = ciclos_validos_hoy db id_operario current_date.
Proof.
  unfold consultar_ciclos_info, ciclos_validos_hoy. apply filter_ext.
  intros c. destruct (rc_id_operario c =? id_operario);
    destruct (fecha_registro c =? current_date);
    destruct (es_no_nulo (tiempo_ciclo_s c)); reflexivity.
Qed.

Lemma sql_avg_spec (l : list (option Q)) :
  match sql_avg l with
  | Some p => valores_no_nulos l <> []
              /\ (p == media_aritmetica (valores_no_nulos l))%Q
  | None => valores_no_nulos l = []
  end.
Proof.
  unfold sql_avg. destruct (valores_no_nulos l) as [|v vs]; [reflexivity|].
  split; [discriminate | apply Qsum_Qlen_media].
Qed.

(** The efficiency [(te / p) * 100] of a standard time against a positive
    average, in floats: at least 100 when the average is at most the
    standard time, at most 100 when it is at least the standard time, and
    at least 80 when 80 times the average is at most 100 times the
    standard time. *)
Lemma eficiencia_cotas (te p : Q) :
  (0 < p)%Q ->
  let e := fmul (fdiv te p) (float_of_int 100) in
  ((p <= te)%Q -> (100 <= e)%Q)
  /\ ((te <= p)%Q -> (e <= 100)%Q)
  /\ (((80 # 1) * p <= (100 # 1) * te)%Q -> (80 <= e)%Q).
Proof.
  intros Hp e. unfold e, fmul, fdiv.
  assert (H100 : (float_of_int 100 == 100)%Q) by (vm_compute; reflexivity).
  assert (R1 : (redondear 1 == 1)%Q) by (vm_compute; reflexivity).
  assert (R100 : (redondear 100 == 100)%Q) by (vm_compute; reflexivity).
  assert (R80 : (redondear (redondear (4 # 5) * 100) == 80)%Q)
    by (vm_compute; reflexivity).
  rewrite H100. split; [|split]; intros H.
  - rewrite <- R100 at 1. apply redondear_mono.
    setoid_replace 100%Q with (1 * 100)%Q at 1 by ring.
    apply Qmult_le_compat_r; [|discriminate].
    rewrite <- R1. apply redondear_mono.
    apply Qle_shift_div_l; [exact Hp|]. now rewrite Qmult_1_l.
  - rewrite <- R100 at 2. apply redondear_mono.
    setoid_replace 100%Q with (1 * 100)%Q at 2 by ring.
    apply Qmult_le_compat_r; [|discriminate].
    rewrite <- R1. apply redondear_mono.
    apply Qle_shift_div_r; [exact Hp|]. now rewrite Qmult_1_l.
  - rewrite <- R80. apply redondear_mono.
    apply Qmult_le_compat_r; [|discriminate].
    apply redondear_mono.
    apply Qle_shift_div_l; [exact Hp|].
    apply (Qmult_le_l _ _ (100 # 1)); [reflexivity|].
    setoid_replace ((100 # 1) * ((4 # 5) * p))%Q with ((80 # 1) * p)%Q
      by ring.
    exact H.
Qed.



(** A standard time of 12 s against a day's average of 10.5 s: the
    efficiency is 114.28571428571428, the float product of the float
    quotient, not the float nearest to 800/7. *)
Example eficiencia_en_floats :
  (fmul (fdiv 12 (21 # 2)) (float_of_int 100)
   == 2010535547933257 # 17592186044416)%Q
  /\ ~ (fmul (fdiv 12 (21 # 2)) (float_of_int 100)
        == redondear (800 # 7))%Q.
Proof.
  split; [vm_compute; reflexivity|].
  intros H. vm_compute in H. discriminate H.
Qed.

Lemma length_filter_particion {A : Type} (a c : A -> bool) (l : list A) :
  (List.length (filter (fun x => a x && c x) l)
   + List.length (filter (fun x => a x && negb (c x)) l)
   = List.length (filter a l))%nat.
Proof.
  induction l as [|x l IH]; simpl; [reflexivity|].
  destruct (a x); destruct (c x); simpl; lia.
Qed.

(** X15. The two handlers count today's cycles differently: the metrics
    count only the operator's cycles of the current date that carry a cycle
    time, the cycle handler counts them all, so the two counts on one
    database differ by the number of such cycles without a time. *)
Theorem metricas_cuenta_ciclos_con_tiempo (Operarios : list Operario)
    (id_operario : Z) (ahora : datetime) (current_date : date)
    (db : BaseDatos) (r : MetricasResponse) :
  snd (obtener_metricas Operarios id_operario ahora current_date db) = Ok r ->
  contar_ciclos_hoy (Registros_Ciclos db) id_operario current_date
  = m_ciclos_hoy r
    + Z.of_nat (List.length
                  (ciclos_sin_tiempo_hoy db id_operario current_date)).
Proof.
  intros Hr. destruct (obtener_metricas_Ok _ _ _ _ _ _ Hr) as [o [t [Hi Hc]]].
  unfold obtener_metricas_cuerpo in Hc. rewrite Hi in Hc.
  injection Hc as <-. cbn [m_ciclos_hoy].
  unfold contar_ciclos_hoy, consultar_ciclos_info, ciclos_sin_tiempo_hoy.
  rewrite <- Nat2Z.inj_add. f_equal. symmetry.
  apply (length_filter_particion
           (fun c => (rc_id_operario c =? id_operario)
                     && (fecha_registro c =? current_date))
           (fun c => es_no_nulo (tiempo_ciclo_s c))).
Qed.

Lemma metricas_cuenta_ciclos_con_tiempo_witness :
  exists r,
    snd (obtener_metricas operarios_ejemplo 3582 (t_previo + segundos 30) 0
           db_historial) = Ok r
    /\ m_ciclos_hoy r = 5
    /\ contar_ciclos_hoy (Registros_Ciclos db_historial) 3582 0 = 6.
Proof.
  eexists. split; [reflexivity|]. split; [reflexivity|].
  exact (metricas_cuenta_ciclos_con_tiempo operarios_ejemplo 3582
           (t_previo + segundos 30) 0 db_historial _ eq_refl).
Defined.

Lemma obtener_metricas_respuesta (Operarios : list Operario)
    (id_operario : Z) (ahora : datetime) (current_date : date)
    (db : BaseDatos) :
  (exists o, In o Operarios /\ o_id_operario o = id_operario) ->
  tiene_tarea_activa db id_operario ->
  exists r,
    obtener_metricas_cuerpo Operarios id_operario ahora current_date db
    = (db, Ok r)
    /\ snd (obtener_metricas Operarios id_operario ahora current_date db)
       = Ok r.
Proof.
  intros Ho Ht.
  destruct (proj2 (consultar_operario_info_spec Operarios db id_operario)
              (conj Ho Ht)) as [[o t] Hi].
  unfold obtener_metricas, get_db_connection, obtener_metricas_cuerpo.
  rewrite Hi. eexists. split; reflexivity.
Qed.

Lemma consultar_ultimo_registro_fila (db db' : BaseDatos)
    (fila : RegistroCiclo) :
  Registros_Ciclos db' = (Registros_Ciclos db ++ [fila])%list ->
  (forall c, In c (Registros_Ciclos db) ->
             rc_id_operario c = rc_id_operario fila ->
             marca_tiempo c < marca_tiempo fila) ->
  consultar_ultimo_registro db' (rc_id_operario fila) = Some fila.
Proof.
  intros Hc Hlt. unfold consultar_ultimo_registro.
  rewrite Hc, filter_app_uno, Z.eqb_refl.
  set (l := filter _ (Registros_Ciclos db)).
  destruct (hd_error (order_by_desc marca_tiempo (l ++ [fila]))) as [x|] eqn:E.
  - apply hd_order_by_desc_Some in E. destruct E as [Hin Hmax].
    apply in_app_or in Hin. destruct Hin as [Hin|[<-|[]]]; [|reflexivity].
    exfalso. apply filter_In in Hin. destruct Hin as [Hin Hop].
    apply Z.eqb_eq in Hop. specialize (Hlt x Hin Hop).
    assert (Hf : In fila (l ++ [fila]))
      by (apply in_or_app; right; now left).
    specialize (Hmax fila Hf). lia.
  - apply hd_order_by_desc_None in E. now destruct l.
Qed.

(** X16. A cycle recorded later than every earlier cycle of the operator
    is what the metrics show next: their status is the answered status, and
    their last-5 average is the answered average, except that an average of
    zero is shown as absent. *)
Theorem metricas_tras_ciclo (Operarios : list Operario) (db : BaseDatos)
    (ciclo : CicloRequest) (ahora : datetime) (current_date : date)
    (ahora' : datetime) (current_date' : date) (tarea : Tarea) :
  (exists o, In o Operarios /\ o_id_operario o = c_id_operario ciclo) ->
  consultar_tarea_activa db (c_id_operario ciclo) = Some tarea ->
  (forall c, In c (Registros_Ciclos db) ->
             rc_id_operario c = c_id_operario ciclo ->
             marca_tiempo c < ahora) ->
  exists r mt,
    snd (registrar_ciclo ciclo ahora current_date db) = Ok r
    /\ snd (obtener_metricas Operarios (c_id_operario ciclo) ahora'
              current_date'
              (fst (registrar_ciclo ciclo ahora current_date db))) = Ok mt
    /\ m_estado_actual mt = r_estado r
    /\ match r_promedio_5_ciclos r with
       | Some a =>
           (~ (a == 0)%Q -> m_promedio_ultimos_5 mt = Some a)
           /\ ((a == 0)%Q -> m_promedio_ultimos_5 mt = None)
       | None => m_promedio_ultimos_5 mt = None
       end.
Proof.
  intros Ho Ht Hlt.
  rewrite (registrar_ciclo_Ok ciclo ahora current_date db tarea Ht).
  cbn [fst snd].
  match goal with
  | |- context [mkBaseDatos ?a ?b (Registros_Ciclos db ++ [?f])%list ?c ?d ?e] =>
      set (fila := f);
      set (db1 := mkBaseDatos a b (Registros_Ciclos db ++ [fila])%list c d e)
  end.
  assert (Hta : tiene_tarea_activa db1 (c_id_operario ciclo)).
  { apply (consultar_tarea_activa_spec db). now exists tarea. }
  destruct (proj2 (consultar_operario_info_spec Operarios db1
                     (c_id_operario ciclo)) (conj Ho Hta)) as [[o t] Hi].
  assert (Hu : consultar_ultimo_registro db1 (c_id_operario ciclo)
               = Some fila)
    by exact (consultar_ultimo_registro_fila db db1 fila eq_refl Hlt).
  unfold obtener_metricas, get_db_connection, obtener_metricas_cuerpo.
  rewrite Hi, Hu. cbn [snd]. eexists. eexists.
  split; [reflexivity|]. split; [reflexivity|].
  cbn [m_estado_actual m_promedio_ultimos_5 r_estado r_promedio_5_ciclos
       fila estado promedio_5_ciclos].
  split; [reflexivity|].
  destruct (calcular_promedio _ _) as [a|] eqn:Ea; [|reflexivity].
  unfold float_si_verdadero. split.
  - intros Hnz. rewrite (proj2 (es_verdadero_Some a) Hnz).
    now rewrite (calcular_promedio_float _ _ _ Ea).
  - intros Hz. cbn [es_verdadero]. apply Qeq_bool_iff in Hz.
    now rewrite Hz.
Qed.

Lemma metricas_tras_ciclo_witness :
  exists r mt,
    snd (registrar_ciclo op_ejemplo (t_previo + segundos 10) 0 db_historial)
    = Ok r
    /\ snd (obtener_metricas operarios_ejemplo 3582 (t_previo + segundos 11) 0
              (fst (registrar_ciclo op_ejemplo (t_previo + segundos 10) 0
                      db_historial))) = Ok mt
    /\ m_estado_actual mt = r_estado r.
Proof.
  destruct (metricas_tras_ciclo operarios_ejemplo db_historial op_ejemplo
              (t_previo + segundos 10) 0 (t_previo + segundos 11) 0
              tarea_ejemplo) as [r [mt [Hr [Hm [He _]]]]].
  - eexists. split; [left; reflexivity | reflexivity].
  - reflexivity.
  - intros c Hin _. cbn [db_historial Registros_Ciclos historial_ejemplo] in Hin.
    repeat (destruct Hin as [<-|Hin]; [vm_compute; reflexivity|]).
    destruct Hin.
  - exists r, mt. split; [exact Hr|]. split; [exact Hm | exact He].
Defined.

Lemma pausas_abiertas_tras_cerrar (db : BaseDatos) (id_operario : Z)
    (m : option string) (t1 t2 : datetime) (dur n1 n2 : Z) :
  pausas_abiertas db id_operario = [] ->
  pausas_abiertas
    (mkBaseDatos (Operario_Tarea db) (Tareas db) (Registros_Ciclos db)
       (map (cerrar_pausa (sig_id_pausa db) t2 dur)
            (Registros_Pausas db
             ++ [mkRegistroPausa (sig_id_pausa db) id_operario t1 None m None
                                 false]))%list n1 n2) id_operario
  = [].
Proof.
  intros Hnil. unfold pausas_abiertas at 1. cbn [Registros_Pausas].
  apply filter_nil_por_falso. intros q' Hin.
  apply in_map_iff in Hin. destruct Hin as [q [<- Hq]].
  apply not_true_is_false. intros Hopen.
  destruct (cerrar_pausa_abierta _ _ _ _ _ Hopen) as [Heq Hid].
  rewrite Heq in Hopen. apply in_app_or in Hq.
  destruct Hq as [Hq|[<-|[]]].
  - assert (H : In q (pausas_abiertas db id_operario))
      by (apply filter_In; now split).
    rewrite Hnil in H. destruct H.
  - now apply Hid.
Qed.

(** X17. The metrics follow the pause: for an operator the metrics answer
    for and who has no unfinished pause, after opening one they show the
    operator in pause with the whole seconds since the opening, and after
    closing it they show the operator out of pause again. *)
Theorem metricas_siguen_la_pausa (Operarios : list Operario) (db : BaseDatos)
    (id_operario : Z) (m m' : option string) (t1 t2 t3 t4 : datetime)
    (fecha fecha' : date) :
  (exists o, In o Operarios /\ o_id_operario o = id_operario) ->
  tiene_tarea_activa db id_operario ->
  ~ tiene_pausa_abierta db id_operario ->
  exists r1 r2,
    snd (obtener_metricas Operarios id_operario t2 fecha
           (fst (registrar_pausa (mkPausaRequest id_operario INICIO m) t1 db)))
    = Ok r1
    /\ m_en_pausa r1 = true
    /\ m_tiempo_pausa_actual_s r1 = Some (Z.quot (t2 - t1) 1000000)
    /\ snd (obtener_metricas Operarios id_operario t4 fecha'
              (fst (registrar_pausa (mkPausaRequest id_operario FIN m') t3
                      (fst (registrar_pausa
                              (mkPausaRequest id_operario INICIO m) t1 db)))))
       = Ok r2
    /\ m_en_pausa r2 = false
    /\ m_tiempo_pausa_actual_s r2 = None.
Proof.
  intros Ho Ht Hno.
  assert (Hnil : pausas_abiertas db id_operario = []).
  { destruct (pausas_abiertas db id_operario) eqn:E; [reflexivity|].
    exfalso. apply Hno. apply tiene_pausa_abierta_spec. rewrite E.
    discriminate. }
  rewrite (registrar_pausa_abrir_cerrar db id_operario m m' t1 t3 Hnil).
  rewrite (registrar_pausa_INICIO_aceptada db id_operario m t1 Hnil).
  cbn [fst].
  match goal with
  | |- context [obtener_metricas _ _ t2 _ ?d] => set (db1 := d)
  end.
  match goal with
  | |- context [obtener_metricas _ _ t4 _ ?d] => set (db2 := d)
  end.
  destruct (proj2 (consultar_operario_info_spec Operarios db id_operario)
              (conj Ho Ht)) as [[o t] Hi].
  assert (Hi1 : consultar_operario_info Operarios db1 id_operario
                = Some (o, t)) by exact Hi.
  assert (Hi2 : consultar_operario_info Operarios db2 id_operario
                = Some (o, t)) by exact Hi.
  assert (Hab1 : pausas_abiertas db1 id_operario
                 = [mkRegistroPausa (sig_id_pausa db) id_operario t1 None m
                                    None false]).
  { unfold db1. rewrite pausas_abiertas_INICIO by reflexivity.
    cbn [rp_id_operario]. now rewrite Hnil, Z.eqb_refl. }
  assert (Hab2 : pausas_abiertas db2 id_operario = [])
    by exact (pausas_abiertas_tras_cerrar db id_operario m t1 t3 _ _ _ Hnil).
  unfold obtener_metricas, get_db_connection, obtener_metricas_cuerpo.
  rewrite Hi1, Hi2, Hab1, Hab2. cbn [snd hd_error]. eexists. eexists.
  repeat (split; [reflexivity|]). reflexivity.
Qed.

Lemma metricas_siguen_la_pausa_witness :
  exists r1 r2,
    snd (obtener_metricas operarios_ejemplo 3582 (t_previo + 7500000) 0
           (fst (registrar_pausa (mkPausaRequest 3582 INICIO None) t_previo
                   db_un_ciclo))) = Ok r1
    /\ m_en_pausa r1 = true
    /\ m_tiempo_pausa_actual_s r1 = Some 7
    /\ snd (obtener_metricas operarios_ejemplo 3582 (t_previo + segundos 12) 0
              (fst (registrar_pausa (mkPausaRequest 3582 FIN None)
                      (t_previo + segundos 9)
                      (fst (registrar_pausa (mkPausaRequest 3582 INICIO None)
                              t_previo db_un_ciclo))))) = Ok r2
    /\ m_en_pausa r2 = false.
Proof.
  destruct (metricas_siguen_la_pausa operarios_ejemplo db_un_ciclo 3582 None
              None t_previo (t_previo + 7500000) (t_previo + segundos 9)
              (t_previo + segundos 12) 0 0)
    as [r1 [r2 [H1 [H2 [H3 [H4 [H5 _]]]]]]].
  - eexists. split; [left; reflexivity | reflexivity].
  - exists (mkOperarioTarea 3582 1 true), tarea_ejemplo.
    split; [left; reflexivity|]. split; [left; reflexivity|].
    repeat split.
  - intros [p [[] _]].
  - exists r1, r2. repeat (split; [assumption|]). exact H5.
Defined.

(** ** GET /api/reportes/comparativo *)

Lemma existsb_filter_hd {A : Type} (f : A -> bool) (l : list A) :
  existsb f l = es_no_nulo (hd_error (filter f l)).
Proof.
  induction l as [|x l IH]; [reflexivity|]. cbn [existsb filter].
  destruct (f x); [reflexivity | exact IH].
Qed.

(** One round of the loop on an operator of the table: the entry, or the
    division by zero. *)
Lemma comparar_operario_conocido (Operarios : list Operario) (db : BaseDatos)
    (fecha_inicio fecha_fin : date) (id_operario : Z) (operario : Operario) :
  hd_error (filter (fun o => o_id_operario o =? id_operario) Operarios)
  = Some operario ->
  (promedio_sin_float db fecha_inicio fecha_fin id_operario
   /\ comparar_operario Operarios db fecha_inicio fecha_fin id_operario
      = error_division_por_cero)
  \/ (~ promedio_sin_float db fecha_inicio fecha_fin id_operario
      /\ exists r,
           comparar_operario Operarios db fecha_inicio fecha_fin id_operario
           = Ok [r]
           /\ oc_id_operario r = id_operario).
Proof.
  intros Ho. unfold comparar_operario, promedio_sin_float. rewrite Ho.
  destruct (sql_avg _) as [p|].
  2:{ right. split; [intros [p [t [H _]]]; discriminate H|].
      eexists. split; reflexivity. }
  destruct (consultar_tarea_activa db id_operario) as [tarea|].
  2:{ right. split; [intros [p' [t [_ [_ [_ [H _]]]]]]; discriminate H|].
      change (es_verdadero None) with false. rewrite andb_false_r.
      eexists. split; reflexivity. }
  destruct (es_verdadero (Some p)) eqn:Ep.
  2:{ right. cbn [es_verdadero] in Ep. apply negb_false_iff in Ep.
      apply Qeq_bool_iff in Ep. split.
      - intros [p' [t [[= <-] [Hnz _]]]]. contradiction.
      - cbn [andb]. eexists. split; reflexivity. }
  destruct (es_verdadero (Some (redondear (tiempo_estandar_s tarea))))
    eqn:Et.
  2:{ right. cbn [es_verdadero] in Et. apply negb_false_iff in Et.
      apply Qeq_bool_iff in Et. split.
      - intros [p' [t [_ [_ [_ [[= <-] Hnz]]]]]]. contradiction.
      - cbn [andb]. eexists. split; reflexivity. }
  apply es_verdadero_Some in Ep, Et. cbn [andb].
  destruct (Qeq_bool (redondear p) (0 # 1)) eqn:Ez.
  - left. apply Qeq_bool_iff in Ez. split; [|reflexivity].
    exists p, tarea. repeat split; assumption.
  - right. split.
    + intros [p' [t [[= <-] [_ [Hz _]]]]]. apply Qeq_bool_iff in Hz.
      congruence.
    + eexists. split; reflexivity.
Qed.

Lemma comparar_operario_desconocido (Operarios : list Operario)
    (db : BaseDatos) (fecha_inicio fecha_fin : date) (id_operario : Z) :
  hd_error (filter (fun o => o_id_operario o =? id_operario) Operarios)
  = None ->
  comparar_operario Operarios db fecha_inicio fecha_fin id_operario = Ok [].
Proof. intros Ho. unfold comparar_operario. now rewrite Ho. Qed.

(** X19. The comparative report never changes the database.  When it
    answers, it has one entry for each requested id found in the operator
    table, in the order of the request and as often as the id is requested;
    ids that are not found are passed over.  It answers unless the division
    of the efficiency is by zero for a requested operator of the table, one
    whose period average is not zero while its float is; it then fails with
    status 500. *)
Theorem comparativo_omite_desconocidos (Operarios : list Operario)
    (operarios_list : list Z) (fecha_inicio fecha_fin : date)
    (db : BaseDatos) :
  let conocido :=
    fun id => existsb (fun o => o_id_operario o =? id) Operarios in
  fst (obtener_reporte_comparativo Operarios operarios_list fecha_inicio
                                   fecha_fin db) = db
  /\ match snd (obtener_reporte_comparativo Operarios operarios_list
                  fecha_inicio fecha_fin db) with
     | Ok rs => map oc_id_operario rs = filter conocido operarios_list
                /\ forall id, In id operarios_list -> conocido id = true ->
                     ~ promedio_sin_float db fecha_inicio fecha_fin id
     | HTTPException c d =>
         c = HTTP_500_INTERNAL_SERVER_ERROR
         /\ d = "Error al obtener reporte comparativo: float division by zero"
         /\ exists id, In id operarios_list /\ conocido id = true
                       /\ promedio_sin_float db fecha_inicio fecha_fin id
     end.
Proof.
  intros conocido.
  unfold obtener_reporte_comparativo, get_db_connection.
  assert (H : match comparar_operarios Operarios db fecha_inicio fecha_fin
                      operarios_list with
              | Ok rs => map oc_id_operario rs = filter conocido operarios_list
                         /\ forall id, In id operarios_list ->
                              conocido id = true ->
                              ~ promedio_sin_float db fecha_inicio fecha_fin id
              | HTTPException c d =>
                  c = HTTP_500_INTERNAL_SERVER_ERROR
                  /\ d = "Error al obtener reporte comparativo: float division by zero"
                  /\ exists id, In id operarios_list /\ conocido id = true
                       /\ promedio_sin_float db fecha_inicio fecha_fin id
              end).
  { induction operarios_list as [|id l IH]; [split; [reflexivity | intros ? []]|].
    cbn [comparar_operarios filter].
    assert (Hc : conocido id
                 = es_no_nulo
                     (hd_error (filter (fun o => o_id_operario o =? id)
                                       Operarios)))
      by apply existsb_filter_hd.
    destruct (hd_error (filter (fun o => o_id_operario o =? id) Operarios))
      as [operario|] eqn:Ho; cbn [es_no_nulo] in Hc.
    - destruct (comparar_operario_conocido Operarios db fecha_inicio fecha_fin
                  id operario Ho) as [[Hsin ->]|[Hcon [r [-> Hid]]]].
      + split; [reflexivity|]. split; [reflexivity|].
        exists id. split; [now left|]. now split.
      + rewrite Hc.
        destruct (comparar_operarios Operarios db fecha_inicio fecha_fin l)
          as [rs|c d].
        * destruct IH as [IH1 IH2]. split.
          -- cbn [app map]. now rewrite Hid, IH1.
          -- intros id' [<-|Hin] Hk; [exact Hcon | now apply IH2].
        * destruct IH as [-> [-> [id' [Hin [Hk Hsin]]]]].
          split; [reflexivity|]. split; [reflexivity|].
          exists id'. split; [now right|]. now split.
    - rewrite (comparar_operario_desconocido _ _ _ _ _ Ho), Hc.
      destruct (comparar_operarios Operarios db fecha_inicio fecha_fin l)
        as [rs|c d].
      + destruct IH as [IH1 IH2]. split; [exact IH1|].
        intros id' [<-|Hin] Hk; [congruence | now apply IH2].
      + destruct IH as [-> [-> [id' [Hin [Hk Hsin]]]]].
        split; [reflexivity|]. split; [reflexivity|].
        exists id'. split; [now right|]. now split. }
  destruct (comparar_operarios Operarios db fecha_inicio fecha_fin
              operarios_list) as [rs|c d]; split; [reflexivity | exact H
              | reflexivity | exact H].
Qed.

(** The report of the example day, and the failure on an operator whose
    only cycle time is 2^-1080 s. *)
Example comparativo_ejemplos :
  (exists rs,
     snd (obtener_reporte_comparativo operarios_ejemplo [3582; 9999; 3582]
            (-1) 0 db_historial) = Ok rs
     /\ map oc_id_operario rs = [3582; 3582])
  /\ obtener_reporte_comparativo operarios_ejemplo [9999; 3582] 0 0
       db_tiempo_infimo
     = (db_tiempo_infimo,
        HTTPException 500
          "Error al obtener reporte comparativo: float division by zero").
Proof.
  split; [eexists; split|]; vm_compute; reflexivity.
Qed.

Lemma comparar_operarios_In (Operarios : list Operario) (db : BaseDatos)
    (fecha_inicio fecha_fin : date) (operarios_list : list Z)
    (rs : list OperarioComparativo) (r : OperarioComparativo) :
  comparar_operarios Operarios db fecha_inicio fecha_fin operarios_list
  = Ok rs ->
  In r rs ->
  exists id entrada,
    In id operarios_list
    /\ comparar_operario Operarios db fecha_inicio fecha_fin id = Ok entrada
    /\ In r entrada.
Proof.
  revert rs. induction operarios_list as [|id l IH]; intros rs Hrs Hin.
  - injection Hrs as <-. destruct Hin.
  - cbn [comparar_operarios] in Hrs.
    destruct (comparar_operario Operarios db fecha_inicio fecha_fin id)
      as [entrada|] eqn:E; [|discriminate].
    destruct (comparar_operarios Operarios db fecha_inicio fecha_fin l)
      as [entradas|]; [|discriminate].
    injection Hrs as <-. apply in_app_or in Hin. destruct Hin as [Hin|Hin].
    + exists id, entrada. split; [now left|]. now split.
    + destruct (IH entradas eq_refl Hin) as [id' [e' [H1 H2]]].
      exists id', e'. split; [now right | exact H2].
Qed.

(** X20. An entry of the comparative report without an efficiency is
    labelled Sin datos.  An entry with an efficiency has a period average
    whose float, the answered average, is not zero and an active task
    whose standard time, as a float, is not zero; the efficiency is the
    float quotient of the standard time by the average, times 100, each
    operation rounded.  The label is Sin datos for an efficiency of zero,
    otherwise Excelente from 100, Normal from 80 and Lento below.  For a
    positive average the label is Excelente when the average is at most the
    standard time, and Excelente or Normal when 80 times the average is at
    most 100 times the standard time. *)
Theorem comparativo_clasifica_por_estandar (Operarios : list Operario)
    (operarios_list : list Z) (fecha_inicio fecha_fin : date)
    (db : BaseDatos) (rs : list OperarioComparativo)
    (r : OperarioComparativo) :
  snd (obtener_reporte_comparativo Operarios operarios_list fecha_inicio
                                   fecha_fin db) = Ok rs ->
  In r rs ->
  match oc_eficiencia r with
  | None => oc_estado_general r = "Sin datos"
  | Some e =>
      exists p tarea,
        oc_promedio_tiempo r = Some p
        /\ consultar_tarea_activa db (oc_id_operario r) = Some tarea
        /\ ~ (p == 0)%Q
        /\ ~ (redondear (tiempo_estandar_s tarea) == 0)%Q
        /\ e = fmul (fdiv (redondear (tiempo_estandar_s tarea)) p)
                    (float_of_int 100)
        /\ ((e == 0)%Q -> oc_estado_general r = "Sin datos")
        /\ (~ (e == 0)%Q ->
            ((100 <= e)%Q -> oc_estado_general r = "Excelente")
            /\ (~ (100 <= e)%Q -> (80 <= e)%Q ->
                oc_estado_general r = "Normal")
            /\ (~ (80 <= e)%Q -> oc_estado_general r = "Lento"))
        /\ ((0 < p)%Q ->
            ((p <= redondear (tiempo_estandar_s tarea))%Q ->
             oc_estado_general r = "Excelente")
            /\ (((80 # 1) * p
                 <= (100 # 1) * redondear (tiempo_estandar_s tarea))%Q ->
                oc_estado_general r = "Excelente"
                \/ oc_estado_general r = "Normal"))
  end.
Proof.
  unfold obtener_reporte_comparativo, get_db_connection.
  destruct (comparar_operarios Operarios db fecha_inicio fecha_fin
              operarios_list) as [rs'|] eqn:Ers; [|discriminate].
  cbn [snd]. intros [= <-] Hin.
  destruct (comparar_operarios_In _ _ _ _ _ _ _ Ers Hin)
    as [id [entrada [_ [He Hr]]]].
  unfold comparar_operario in He.
  destruct (hd_error (filter _ Operarios)) as [o|];
    [|injection He as <-; destruct Hr].
  destruct (sql_avg _) as [x|].
  2:{ cbn [es_verdadero andb] in He. injection He as <-.
      destruct Hr as [<-|[]]. reflexivity. }
  destruct (consultar_tarea_activa db id) as [tarea|] eqn:Et.
  2:{ change (es_verdadero None) with false in He.
      rewrite andb_false_r in He. injection He as <-.
      destruct Hr as [<-|[]]. reflexivity. }
  destruct (es_verdadero (Some x)) eqn:Ex.
  2:{ cbn [andb] in He. injection He as <-. destruct Hr as [<-|[]].
      reflexivity. }
  destruct (es_verdadero (Some (redondear (tiempo_estandar_s tarea))))
    eqn:Ete.
  2:{ cbn [andb] in He. injection He as <-. destruct Hr as [<-|[]].
      reflexivity. }
  cbn [andb] in He.
  destruct (Qeq_bool (redondear x) (0 # 1)) eqn:Ez; [discriminate He|].
  injection He as <-. destruct Hr as [<-|[]].
  cbn [oc_eficiencia oc_estado_general oc_promedio_tiempo oc_id_operario].
  apply es_verdadero_Some in Ete.
  assert (Hp : ~ (redondear x == 0)%Q).
  { intros H. apply Qeq_bool_iff in H. congruence. }
  set (te := redondear (tiempo_estandar_s tarea)) in *.
  set (e := fmul (fdiv te (redondear x)) (float_of_int 100)).
  exists (redondear x), tarea.
  split; [unfold float_si_verdadero; cbn [es_verdadero] in Ex |- *;
          now rewrite Ex|].
  split; [exact Et|]. split; [exact Hp|]. split; [exact Ete|].
  split; [reflexivity|].
  assert (Hcero : (e == 0)%Q -> es_verdadero (Some e) = false).
  { intros H. cbn [es_verdadero]. apply Qeq_bool_iff in H. now rewrite H. }
  assert (Hlab : ~ (e == 0)%Q ->
            ((100 <= e)%Q ->
             (if es_verdadero (Some e)
              then if Qle_bool (100 # 1) e then "Excelente"
                   else if Qle_bool (80 # 1) e then "Normal" else "Lento"
              else "Sin datos") = "Excelente")
            /\ (~ (100 <= e)%Q -> (80 <= e)%Q ->
                (if es_verdadero (Some e)
                 then if Qle_bool (100 # 1) e then "Excelente"
                      else if Qle_bool (80 # 1) e then "Normal" else "Lento"
                 else "Sin datos") = "Normal")
            /\ (~ (80 <= e)%Q ->
                (if es_verdadero (Some e)
                 then if Qle_bool (100 # 1) e then "Excelente"
                      else if Qle_bool (80 # 1) e then "Normal" else "Lento"
                 else "Sin datos") = "Lento")).
  { intros Hnz. rewrite (proj2 (es_verdadero_Some e) Hnz).
    assert (Hno : forall k : Q, ~ (k <= e)%Q -> Qle_bool k e = false).
    { intros k N. apply not_true_iff_false. intros E.
      apply Qle_bool_iff in E. contradiction. }
    split; [|split].
    - intros H. apply Qle_bool_iff in H. now rewrite H.
    - intros N H. rewrite (Hno _ N). apply Qle_bool_iff in H. now rewrite H.
    - intros N. rewrite (Hno _ N). rewrite Hno; [reflexivity|].
      intros H. apply N.
      apply Qle_trans with (100 # 1)%Q; [discriminate | exact H]. }
  repeat match goal with
  | |- context [if negb (Qeq_bool ?q ?z) then ?a else ?b] =>
      change (if negb (Qeq_bool q z) then a else b)
        with (if es_verdadero (Some q) then a else b)
  end.
  split; [intros H; now rewrite (Hcero H)|]. split; [exact Hlab|].
  intros Hpos.
  destruct (eficiencia_cotas te (redondear x) Hpos) as [H100 [_ H80]].
  fold e in H100, H80.
  assert (Hnz80 : (80 <= e)%Q -> ~ (e == 0)%Q).
  { intros H Hz. rewrite Hz in H. now apply H. }
  split.
  - intros Hle. specialize (H100 Hle).
    assert (Hnz : ~ (e == 0)%Q).
    { apply Hnz80. apply Qle_trans with (100 # 1)%Q; [discriminate|exact H100]. }
    now apply (Hlab Hnz).
  - intros Hle. specialize (H80 Hle). pose proof (Hnz80 H80) as Hnz.
    destruct (Hlab Hnz) as [L1 [L2 _]].
    destruct (Qlt_le_dec e 100) as [Hlt|Hge].
    + right. apply L2; [now apply Qlt_not_le | exact H80].
    + left. now apply L1.
Qed.

Lemma comparativo_clasifica_por_estandar_witness :
  exists rs r,
    snd (obtener_reporte_comparativo operarios_ejemplo [3582; 9999] (-1) 0
           db_historial) = Ok rs
    /\ In r rs
    /\ oc_id_operario r = 3582
    /\ oc_promedio_tiempo r = Some (redondear (79 # 6))
    /\ oc_estado_general r = "Normal".
Proof.
  destruct (snd (obtener_reporte_comparativo operarios_ejemplo [3582; 9999]
                   (-1) 0 db_historial)) as [rs|c x] eqn:E;
    [|vm_compute in E; discriminate E].
  pose proof (fun r => comparativo_clasifica_por_estandar operarios_ejemplo
                         [3582; 9999] (-1) 0 db_historial rs r E) as H.
  vm_compute in E. injection E as E. rewrite <- E in H |- *.
  eexists. eexists. split; [reflexivity|]. split; [left; reflexivity|].
  split; [reflexivity|]. split; [vm_compute; reflexivity|].
  specialize (H _ (or_introl eq_refl)).
  cbn [oc_eficiencia oc_promedio_tiempo oc_id_operario oc_estado_general]
    in H |- *.
  destruct H as [p [tarea [Hp [Ht [_ [_ [_ [_ [_ Hc]]]]]]]]].
  injection Hp as <-. vm_compute in Ht. injection Ht as <-.
  destruct Hc as [_ Hc]; [vm_compute; reflexivity|].
  destruct Hc as [Hc|Hc]; [vm_compute; discriminate| |exact Hc].
  vm_compute in Hc. discriminate Hc.
Defined.

(** ** A request stamped before the last cycle *)

Lemma total_seconds_negativo (delta : Z) :
  delta < 0 ->
  Qlt_bool (fsub (redondear (total_seconds delta)) (float_of_int 0)) (0 # 1)
  = true.
Proof.
  intros H. unfold Qlt_bool. apply negb_true_iff.
  apply not_true_iff_false. rewrite Qle_bool_iff.
  rewrite fsub_cero. apply Qlt_not_le.
  apply Qle_lt_trans with (redondear (total_seconds (-1))).
  - apply redondear_mono. unfold total_seconds, Qle. cbn [Qnum Qden]. lia.
  - vm_compute. reflexivity.
Qed.

(** X21. A request stamped earlier than the operator's last recorded cycle
    is answered without a cycle time and without an average, with status
    Normal, whatever the pause table holds. *)
Theorem ciclo_anterior_al_ultimo_sin_tiempo (db : BaseDatos)
    (ciclo : CicloRequest) (ahora : datetime) (current_date : date)
    (tarea : Tarea) (ultimo : datetime) :
  consultar_tarea_activa db (c_id_operario ciclo) = Some tarea ->
  es_ultimo_ciclo db (c_id_operario ciclo) ultimo ->
  ahora < ultimo ->
  exists r, snd (registrar_ciclo ciclo ahora current_date db) = Ok r
            /\ r_tiempo_ciclo_s r = None
            /\ r_promedio_5_ciclos r = None
            /\ r_estado r = "Normal".
Proof.
  intros Ht Hu Hlt.
  rewrite (registrar_ciclo_Ok ciclo ahora current_date db tarea Ht).
  cbn [snd]. eexists. split; [reflexivity|].
  cbn [r_tiempo_ciclo_s r_promedio_5_ciclos r_estado].
  assert (Hno : ~ pausa_abierta_en_ventana db (c_id_operario ciclo) ultimo
                  ahora).
  { intros [p [_ [_ [_ Hv]]]]. lia. }
  assert (Hnil : pausas_cerradas_en_ventana db (c_id_operario ciclo) ultimo
                   ahora = []).
  { apply filter_nil_por_falso. intros p _.
    destruct (Z.ltb_spec ultimo (hora_inicio_pausa p));
      destruct (Z.ltb_spec (hora_inicio_pausa p) ahora);
      rewrite ?andb_false_r; try reflexivity. lia. }
  rewrite (calcular_tiempo_ciclo_sin_pausa_abierta _ _ _ _ Hu Hno), Hnil.
  cbn [suma_duraciones fold_right].
  rewrite (total_seconds_negativo (ahora - ultimo)) by lia.
  rewrite orb_true_r. repeat split.
Qed.

Lemma ciclo_anterior_al_ultimo_sin_tiempo_witness :
  exists r,
    snd (registrar_ciclo op_ejemplo (t_previo - segundos 3) 0 db_un_ciclo)
    = Ok r
    /\ r_tiempo_ciclo_s r = None
    /\ r_promedio_5_ciclos r = None
    /\ r_estado r = "Normal".
Proof.
  apply (ciclo_anterior_al_ultimo_sin_tiempo db_un_ciclo op_ejemplo
           (t_previo - segundos 3) 0 tarea_ejemplo t_previo).
  - reflexivity.
  - ultimo_de_un_ciclo.
  - reflexivity.
Defined.
